(** * pycaching.cache: a shallow embedding of [Cache], [Waypoint], [Type] and
    [Size], and the properties of the specification checked against it.

    The embedding follows [src/pycaching/cache.py].  Python attributes that may
    be missing are [option] fields of a record, setters and the population
    strategy [load] run in a state-and-exception monad over the entity, the
    network and the logging output, and the two generators are resumable
    state machines.  Collaborators that live outside the file (date and
    coordinate parsing, [rot13], the regular-expression engine, the numeric
    conversions of strings) are section variables. *)

From Stdlib Require Import ZArith QArith Qround Ascii String List Bool Lia.
From stdpp Require Import gmap strings list fin_maps.

Set Warnings "-register-all".

Local Open Scope string_scope.
Local Open Scope Z_scope.

(* ===================================================================== *)
(** ** Python string methods over [string] *)
(* ===================================================================== *)

(** A [string] holds the text of a Python [str].  The methods below are
    those of [str] on text of the ASCII range (code points below 128), which
    is where the tokens the module compares lie: codes, GUIDs, names of
    types, sizes and attributes, file names.  On other text [str] knows
    blanks (U+0085, U+00A0, U+2000 and the like) and letters with case that
    these definitions leave as they are; [is_ascii] names the range. *)
Module PyStr.

(** [str.isspace] on the ASCII range: tab to carriage return, the four
    separators 28 to 31, and the space. *)
Definition is_space (c : ascii) : bool :=
  let n := nat_of_ascii c in
  ((9 <=? n) && (n <=? 13) || (28 <=? n) && (n <=? 32))%nat.

(** [s.isascii()]. *)
Definition is_ascii (s : string) : bool :=
  forallb (fun c => (nat_of_ascii c <? 128)%nat) (list_ascii_of_string s).

(** Every character of [s] is a blank. *)
Definition blank (s : string) : bool :=
  forallb is_space (list_ascii_of_string s).

Definition upper_char (c : ascii) : ascii :=
  let n := nat_of_ascii c in
  if ((97 <=? n) && (n <=? 122))%nat then ascii_of_nat (n - 32) else c.

Definition lower_char (c : ascii) : ascii :=
  let n := nat_of_ascii c in
  if ((65 <=? n) && (n <=? 90))%nat then ascii_of_nat (n + 32) else c.

Fixpoint map_chars (f : ascii -> ascii) (s : string) : string :=
  match s with
  | EmptyString => EmptyString
  | String c s' => String (f c) (map_chars f s')
  end.

Definition upper : string -> string := map_chars upper_char.
Definition lower : string -> string := map_chars lower_char.

Fixpoint lstrip (s : string) : string :=
  match s with
  | EmptyString => EmptyString
  | String c s' => if is_space c then lstrip s' else s
  end.

(** [rstrip]: a character is kept when something that is not blank
    follows it or it is not blank itself. *)
Fixpoint rstrip (s : string) : string :=
  match s with
  | EmptyString => EmptyString
  | String c s' =>
      match rstrip s' with
      | EmptyString => if is_space c then EmptyString else String c EmptyString
      | r => String c r
      end
  end.

Definition strip (s : string) : string := rstrip (lstrip s).

Definition startswith (s p : string) : bool := String.prefix p s.

(** [sub in s]. *)
Fixpoint contains (sub s : string) : bool :=
  String.prefix sub s ||
  match s with
  | EmptyString => false
  | String _ s' => contains sub s'
  end.

(** [s[n:]]. *)
Fixpoint drop (n : nat) (s : string) : string :=
  match n, s with
  | O, _ => s
  | S k, EmptyString => EmptyString
  | S k, String _ s' => drop k s'
  end.

Definition of_rev (cs : list ascii) : string :=
  string_of_list_ascii (List.rev cs).

(** [s.split(sep)] for a non-empty separator: non-overlapping occurrences,
    left to right.  [skip] counts the characters of a matched separator
    still to pass over, [cur] holds the current piece reversed. *)
Fixpoint split_go (sep : string) (skip : nat) (cur : list ascii) (s : string)
  : list string :=
  match s with
  | EmptyString => [of_rev cur]
  | String c s' =>
      match skip with
      | S k => split_go sep k cur s'
      | O =>
          if String.prefix sep s
          then of_rev cur :: split_go sep (String.length sep - 1) [] s'
          else split_go sep 0 (c :: cur) s'
      end
  end.

Definition split (sep s : string) : list string := split_go sep 0 [] s.

(** [s.split()]: pieces separated by runs of blanks, no empty piece. *)
Fixpoint split_ws_go (cur : list ascii) (s : string) : list string :=
  match s with
  | EmptyString => match cur with [] => [] | _ => [of_rev cur] end
  | String c s' =>
      if is_space c
      then match cur with
           | [] => split_ws_go [] s'
           | _ => of_rev cur :: split_ws_go [] s'
           end
      else split_ws_go (c :: cur) s'
  end.

Definition split_ws (s : string) : list string := split_ws_go [] s.

(** The cut of [s.rsplit(sep, 1)] for a one-character separator: the text
    before and after the last occurrence, if there is one. *)
Fixpoint rcut (sep : ascii) (s : string) : option (string * string) :=
  match s with
  | EmptyString => None
  | String c s' =>
      match rcut sep s' with
      | Some (before, after) => Some (String c before, after)
      | None => if Ascii.eqb c sep then Some (EmptyString, s') else None
      end
  end.

Definition rsplit1 (sep : ascii) (s : string) : list string :=
  match rcut sep s with
  | Some (before, after) => [before; after]
  | None => [s]
  end.

(** [sep.join(parts)]. *)
Fixpoint join (sep : string) (parts : list string) : string :=
  match parts with
  | [] => EmptyString
  | [p] => p
  | p :: rest => p ++ sep ++ join sep rest
  end.

(** [re.split("[<>]", s)]: a character class of two characters needs no
    regular-expression engine. *)
Fixpoint split_angle_go (cur : list ascii) (s : string) : list string :=
  match s with
  | EmptyString => [of_rev cur]
  | String c s' =>
      if Ascii.eqb c "<"%char || Ascii.eqb c ">"%char
      then of_rev cur :: split_angle_go [] s'
      else split_angle_go (c :: cur) s'
  end.

Definition split_angle (s : string) : list string := split_angle_go [] s.

(** [s.replace(old, new)] for a non-empty [old]: the pieces between the
    occurrences of [old], glued with [new]. *)
Definition replace (old new s : string) : string := join new (split old s).

(** [s[-1]] of a list of pieces, and [l[i]]. *)
Definition last_piece (l : list string) : string := List.last l EmptyString.

End PyStr.

(* ===================================================================== *)
(** ** Exceptions and results *)
(* ===================================================================== *)

(** The exceptions that can leave the code of the module.  [ValueError],
    [LoadError], [PMOnlyException] and [Error] are the classes of
    [pycaching.errors]; the others are Python's own.  [errors.ValueError]
    derives from both [errors.Error] and the built-in [ValueError]. *)
Inductive exn : Type :=
| ValueError (msg : string)
| LoadError (msg : string)
| PMOnlyException
| Error (msg : string)
| BuiltinValueError
| AttributeError
| IndexError
| KeyError
| TypeError
| OverflowError
| StopIteration
| RuntimeError.

(** [isinstance(e, errors.Error)]. *)
Definition is_pycaching_Error (e : exn) : bool :=
  match e with
  | ValueError _ | LoadError _ | PMOnlyException | Error _ => true
  | _ => false
  end.

(** [isinstance(e, ValueError)] for the built-in class, as
    [except ValueError] in this module tests it. *)
Definition is_builtin_ValueError (e : exn) : bool :=
  match e with
  | ValueError _ | BuiltinValueError => true
  | _ => false
  end.

(** The validation error of the specification: [errors.ValueError]. *)
Definition is_validation_error (e : exn) : bool :=
  match e with
  | ValueError _ => true
  | _ => false
  end.

Inductive Result (A : Type) : Type :=
| Ok (a : A)
| Raise (e : exn).
Arguments Ok {A} a.
Arguments Raise {A} e.

Definition result_bind {A B} (r : Result A) (k : A -> Result B) : Result B :=
  match r with
  | Ok a => k a
  | Raise e => Raise e
  end.

(** [l[i]] for a non-negative index. *)
Definition index {A} (l : list A) (i : nat) : Result A :=
  match nth_error l i with
  | Some a => Ok a
  | None => Raise IndexError
  end.

(** [x.attr] or [x.method(...)] on the result of a query that found
    nothing ([None]): an [AttributeError]. *)
Definition deref {A} (o : option A) : Result A :=
  match o with
  | Some a => Ok a
  | None => Raise AttributeError
  end.

(* ===================================================================== *)
(** ** The enumerations [Type] and [Size] *)
(* ===================================================================== *)

Module Type_.

(** The members of [class Type(enum.Enum)] in definition order.  A name
    bound to a value that an earlier member has is an alias of that
    member. *)
Inductive t : Type :=
| traditional | multicache | mystery | letterbox | event | mega_event
| giga_event | earthcache | cito | webcam | virtual | wherigo
| lost_and_found_event | project_ape | groundspeak_hq
| gps_adventures_exhibit | groundspeak_block_party | locationless.

Definition unknown : t := mystery.
Definition cache_in_trash_out_event : t := cito.
Definition reverse : t := locationless.

Definition members : list t :=
  [ traditional; multicache; mystery; letterbox; event; mega_event;
    giga_event; earthcache; cito; webcam; virtual; wherigo;
    lost_and_found_event; project_ape; groundspeak_hq;
    gps_adventures_exhibit; groundspeak_block_party; locationless ].

(** [member.value]. *)
Definition value (m : t) : string :=
  match m with
  | traditional => "2"
  | multicache => "3"
  | mystery => "8"
  | letterbox => "5"
  | event => "6"
  | mega_event => "mega"
  | giga_event => "giga"
  | earthcache => "137"
  | cito => "13"
  | webcam => "11"
  | virtual => "4"
  | wherigo => "1858"
  | lost_and_found_event => "10Years_32"
  | project_ape => "ape_32"
  | groundspeak_hq => "HQ_32"
  | gps_adventures_exhibit => "1304"
  | groundspeak_block_party => "4738"
  | locationless => "12"
  end.

(** [cls(v)]: the member whose value is [v]; the built-in [ValueError]
    when there is none. *)
Definition of_value (v : string) : Result t :=
  match List.find (fun m => String.eqb (value m) v) members with
  | Some m => Ok m
  | None => Raise BuiltinValueError
  end.

Definition from_filename (filename : string) : Result t :=
  let filename :=
    if String.eqb filename "earthcache" then "137" else filename in
  of_value filename.

Definition name_mapping : list (string * t) :=
  [ ("traditional", traditional);
    ("multi-cache", multicache);
    ("mystery", mystery);
    ("unknown", unknown);
    ("letterbox hybrid", letterbox);
    ("event", event);
    ("mega-event", mega_event);
    ("giga-event", giga_event);
    ("earthcache", earthcache);
    ("cito", cito);
    ("cache in trash out event", cache_in_trash_out_event);
    ("webcam", webcam);
    ("virtual", virtual);
    ("wherigo", wherigo);
    ("lost and found event", lost_and_found_event);
    ("project ape", project_ape);
    ("groundspeak hq", groundspeak_hq);
    ("gps adventures exhibit", gps_adventures_exhibit);
    ("groundspeak block party", groundspeak_block_party);
    ("locationless (reverse)", locationless) ].

Definition from_string (name : string) : Result t :=
  let name := PyStr.replace " Geocache" "" name in
  let name := PyStr.replace " Cache" "" name in
  let name := PyStr.strip (PyStr.lower name) in
  match List.find (fun kv => String.eqb (fst kv) name) name_mapping with
  | Some kv => Ok (snd kv)
  | None => Raise (ValueError ("Unknown cache type '" ++ name ++ "'."))
  end.

End Type_.

Module Size.

Inductive t : Type :=
| micro | small | regular | large | not_chosen | virtual | other.

Definition members : list t :=
  [ micro; small; regular; large; not_chosen; virtual; other ].

(** [member.name] and [member.value]. *)
Definition name (m : t) : string :=
  match m with
  | micro => "micro"
  | small => "small"
  | regular => "regular"
  | large => "large"
  | not_chosen => "not_chosen"
  | virtual => "virtual"
  | other => "other"
  end.

Definition value (m : t) : string :=
  match m with
  | micro => "micro"
  | small => "small"
  | regular => "regular"
  | large => "large"
  | not_chosen => "not chosen"
  | virtual => "virtual"
  | other => "other"
  end.

(** [cls(v)] and [cls[n]]. *)
Definition of_value (v : string) : Result t :=
  match List.find (fun m => String.eqb (value m) v) members with
  | Some m => Ok m
  | None => Raise BuiltinValueError
  end.

Definition of_name (n : string) : Result t :=
  match List.find (fun m => String.eqb (name m) n) members with
  | Some m => Ok m
  | None => Raise KeyError
  end.

Definition from_filename (filename : string) : Result t := of_name filename.

Definition from_string (name : string) : Result t :=
  let name := PyStr.lower (PyStr.strip name) in
  match of_value name with
  | Ok m => Ok m
  | Raise e =>
      if is_builtin_ValueError e
      then Raise (ValueError ("Unknown cache size '" ++ name ++ "'."))
      else Raise e
  end.

End Size.

(* ===================================================================== *)
(** ** Python values *)
(* ===================================================================== *)

(** [datetime.date] and [geo.Point] values.  Floats are modelled by exact
    rationals throughout. *)
Record Date : Type := mkDate { year : Z; month : Z; day : Z }.
Record Point : Type := mkPoint { latitude : Q; longitude : Q }.

Module Waypoint.

Record t : Type := mk
  { _identifier : string;
    _type : option string;
    _location : option Point;
    _note : string }.

End Waypoint.

(** The exact class of a value, as [type(x)] returns it. *)
Inductive PyType : Type :=
| T_NoneType | T_bool | T_int | T_float | T_str | T_dict
| T_date | T_datetime | T_Point | T_Type | T_Size
| T_class (name : string)
| T_subclass (name : string) (base : PyType).

#[global] Instance PyType_eq_dec : EqDecision PyType.
Proof. solve_decision. Defined.

(** [issubclass(c, base)]: [datetime.datetime] derives from
    [datetime.date], [bool] from [int], and a class declared as
    [class name(base)] from its base. *)
Fixpoint issubclass (c base : PyType) : bool :=
  bool_decide (c = base) ||
  match c with
  | T_datetime => bool_decide (base = T_date)
  | T_bool => bool_decide (base = T_int)
  | T_subclass _ b => issubclass b base
  | _ => false
  end.

(** The values a caller can hand to a setter.  [VInstance cls v] is an
    instance of a class [cls] derived from the class of [v], carrying the
    data of [v]; [VObject cls attrs] is any other object, with the names
    of its attributes.  A class is named as Python prints it, with its
    module.  A [dict] lists its items in insertion order. *)
Inductive PyVal : Type :=
| VNone
| VBool (b : bool)
| VInt (z : Z)
| VFloat (q : Q)
| VStr (s : string)
| VDict (items : list (PyVal * PyVal))
| VDate (d : Date)
| VDatetime (d : Date) (seconds : Z)
| VPoint (p : Point)
| VType (t : Type_.t)
| VSize (s : Size.t)
| VWaypoint (w : Waypoint.t)
| VObject (cls : string) (attrs : list string)
| VInstance (cls : string) (base : PyVal).

(** [type(x)]. *)
Fixpoint type_of (v : PyVal) : PyType :=
  match v with
  | VNone => T_NoneType
  | VBool _ => T_bool
  | VInt _ => T_int
  | VFloat _ => T_float
  | VStr _ => T_str
  | VDict _ => T_dict
  | VDate _ => T_date
  | VDatetime _ _ => T_datetime
  | VPoint _ => T_Point
  | VType _ => T_Type
  | VSize _ => T_Size
  | VWaypoint _ => T_class "pycaching.cache.Waypoint"
  | VObject cls _ => T_class cls
  | VInstance cls b => T_subclass cls (type_of b)
  end.

Definition isinstance (v : PyVal) (c : PyType) : bool := issubclass (type_of v) c.

(** [str(c)] for a class [c], as [str.format] prints it: a class by its
    module and name, a built-in class by its name, an enumeration as
    [<enum 'Name'>]. *)
Definition class_text (c : PyType) : string :=
  match c with
  | T_NoneType => "<class 'NoneType'>"
  | T_bool => "<class 'bool'>"
  | T_int => "<class 'int'>"
  | T_float => "<class 'float'>"
  | T_str => "<class 'str'>"
  | T_dict => "<class 'dict'>"
  | T_date => "<class 'datetime.date'>"
  | T_datetime => "<class 'datetime.datetime'>"
  | T_Point => "<class 'pycaching.geo.Point'>"
  | T_Type => "<enum 'Type'>"
  | T_Size => "<enum 'Size'>"
  | T_class name | T_subclass name _ => "<class '" ++ name ++ "'>"
  end.

(** [_type(x) is c]. *)
Definition type_is (v : PyVal) (c : PyType) : bool := bool_decide (type_of v = c).

(** [bool(x)]. *)
Fixpoint truthy (v : PyVal) : bool :=
  match v with
  | VNone => false
  | VBool b => b
  | VInt z => negb (z =? 0)
  | VFloat q => negb (Qeq_bool q 0)
  | VStr s => negb (String.eqb s "")
  | VDict items => match items with [] => false | _ => true end
  | VInstance _ b => truthy b
  | _ => true
  end.

(** The text of a value that has the methods of [str]; calling one of them
    on anything else is an [AttributeError]. *)
Fixpoint str_methods (v : PyVal) : Result string :=
  match v with
  | VStr s => Ok s
  | VInstance _ b => str_methods b
  | _ => Raise AttributeError
  end.

(** [hasattr(x, name)] for an attribute that no built-in class has. *)
Definition hasattr (v : PyVal) (name : string) : bool :=
  match v with
  | VObject _ attrs => bool_decide (name ∈ attrs)
  | _ => false
  end.

(** [a and b] and [a or b]: the second operand is evaluated only when the
    first does not decide, and the result is an operand, not a [bool]. *)
Definition py_and (a : PyVal) (b : unit -> Result PyVal) : Result PyVal :=
  if truthy a then b tt else Ok a.

Definition py_or (a : PyVal) (b : unit -> Result PyVal) : Result PyVal :=
  if truthy a then Ok a else b tt.

(** A [bs4] tag as an operand of [and]/[or]: an object, always true. *)
Definition VTag : PyVal := VObject "bs4.element.Tag" ["text"].

(** The result of a query as a value: the tag, or [None]. *)
Definition tag_or_None {A} (o : option A) : PyVal :=
  match o with
  | Some _ => VTag
  | None => VNone
  end.

(* ===================================================================== *)
(** ** Collaborators outside the module *)
(* ===================================================================== *)

(** What [cache.py] imports and calls but does not define: the parsers of
    [pycaching.util] and [pycaching.geo], the classes [Log], [log.Type] and
    [Trackable] with their setters, the regular-expression search for the
    logbook token, and the conversions of the built-ins [str], [float] and
    [int] that depend on the text of their argument. *)
Class Collaborators : Type :=
  { parse_date : string -> Result Date;
    Point_from_string : string -> Result Point;
    Point_new : string -> Result Point;
    rot13 : string -> string;
    float_of_str : string -> Result Q;
    int_of_str : string -> Result Z;
    repr : PyVal -> string;
    findall_userToken : string -> list string;
    LogType : Type;
    LogType_from_filename : string -> Result LogType;
    Log : Type;
    Log_new : Log;
    Log_set_type : LogType -> Log -> Result Log;
    Log_set_text : string -> Log -> Result Log;
    Log_set_visited : string -> Log -> Result Log;
    Log_set_author : string -> Log -> Result Log;
    Trackable : Type;
    Trackable_new : Result Trackable;
    Trackable_set_name : string -> Trackable -> Result Trackable;
    Trackable_set_url : string -> Trackable -> Result Trackable }.

(* ===================================================================== *)
(** ** Documents and replies of the server *)
(* ===================================================================== *)

(** A parsed document is known to the module through the queries it makes;
    a document is the record of their answers.  A field is [None] where
    the chain of queries ends in an [AttributeError] (an element or an
    attribute that is not there). *)

(** The element [cache_details], in either layout. *)
Record DetailsElem : Type :=
  { li_gccode_text : option string;
    h1_text : option string;
    uxCacheBy_text : option string;
    ul_hide_details_text : option string;
    h2_text : option string;
    a_texts : list string;
    img_src : option string;
    minorCacheDetails_div_texts : option (list string) }.

(** A [div] of class [CacheDetailNavigationWidget]: the [src] of its images,
    the number of its links, and the [href] of the link to all trackables
    (outer [None]: no such link; inner [None]: a link without [href]). *)
Record Widget : Type :=
  { widget_img_srcs : list (option string);
    widget_a_count : nat;
    widget_view_all_href : option (option string) }.

(** A cell of the waypoints table: its text and the [title] of its first
    image (outer [None]: no image). *)
Record Cell : Type :=
  { td_text : string;
    td_img_title : option (option string) }.

(** A link of the trackables listing: its [href] and [str(link)]. *)
Record Link : Type :=
  { href : option string;
    link_html : string }.

Record Document : Type :=
  { pmo_banner : bool;
    divContentMain : option DetailsElem;
    cacheDetails : option DetailsElem;
    title_string : option string;
    CacheSize_img_src : option string;
    CacheStarLabels_img_alts : option (list (option string));
    Warning_NoBottomSpacing_text : option string;
    NavigationWidgets : list Widget;
    uxLatLon_text : option string;
    OldWarning : bool;
    FoundStatus_text : option string;
    UserSuppliedContent : list (string * string);
    div_hint_text : option string;
    favorite_value_text : option string;
    script_texts : list string;
    table_rows : string -> option (list (list Cell));
    tables_links : list (list Link) }.

(** One entry of a logbook page and the JSON envelope around a page. *)
Record LogData : Type :=
  { LogTypeImage : string;
    LogText : string;
    Visited : string;
    UserName : string }.

Record LogbookReply : Type :=
  { status : string;
    msg : option string;
    data : list LogData }.

(** What [Geocaching._request] was asked, and what it gave back: an
    [errors.Error] raised by the transport, a parsed document, or decoded
    JSON. *)
Record Request : Type :=
  { req_url : string;
    req_params : list (string * PyVal);
    req_expect_json : bool }.

Inductive Response : Type :=
| HttpError (message : string)
| Html (d : Document)
| Json (j : LogbookReply).

(** [d[k] = v] and [d.get(k)] on a [dict] whose keys are strings: an item
    with the key is replaced where it stands, a new key goes last. *)
Fixpoint dict_setitem (k : string) (v : PyVal) (items : list (PyVal * PyVal))
  : list (PyVal * PyVal) :=
  match items with
  | [] => [(VStr k, v)]
  | (VStr k', v') :: rest =>
      if String.eqb k' k then (VStr k', v) :: rest
      else (VStr k', v') :: dict_setitem k v rest
  | item :: rest => item :: dict_setitem k v rest
  end.

Fixpoint dict_get (k : string) (items : list (PyVal * PyVal)) : option PyVal :=
  match items with
  | [] => None
  | (VStr k', v') :: rest => if String.eqb k' k then Some v' else dict_get k rest
  | _ :: rest => dict_get k rest
  end.

(* ===================================================================== *)
(** ** Generators *)
(* ===================================================================== *)

(** The argument [limit]: an integer, or [float("inf")] by default. *)
Inductive Limit : Type :=
| Finite (n : Z)
| Infinite.

(** [limit - 1], [limit < 0] and [min(limit, 100)]. *)
Definition limit_pred (l : Limit) : Limit :=
  match l with
  | Finite n => Finite (n - 1)
  | Infinite => Infinite
  end.

Definition limit_negative (l : Limit) : bool :=
  match l with
  | Finite n => n <? 0
  | Infinite => false
  end.

Definition limit_min_100 (l : Limit) : Z :=
  match l with
  | Finite n => Z.min n 100
  | Infinite => 100
  end.

(** What a generator body does when it is resumed: it reaches a [yield]
    and is suspended in a new state, or it returns; an exception is the
    [Raise] of the monad. *)
Inductive Step (A G : Type) : Type :=
| Yields (a : A) (g : G)
| Returns.
Arguments Yields {A G} a g.
Arguments Returns {A G}.

(** What [next(gen)] does for the consumer: an item, the end of the
    sequence (the [StopIteration] every iteration protocol understands), or
    an exception that escapes. *)
Inductive Next (A : Type) : Type :=
| Item (a : A)
| Exhausted
| Escapes (e : exn).
Arguments Item {A} a.
Arguments Exhausted {A}.
Arguments Escapes {A} e.

(** How the interpreter treats a [StopIteration] raised inside a generator
    body.  Before PEP 479 is in force (Python up to 3.6 for a module that
    does not import [generator_stop], as this one) it leaves [next] as it
    is, which ends the sequence; with PEP 479 (Python 3.7 and later) it is
    replaced by a [RuntimeError]. *)
Inductive GeneratorSemantics : Type :=
| Legacy
| PEP479.

Record Generator (G : Type) : Type := mkGenerator
  { gen_state : G;
    gen_finished : bool }.
Arguments mkGenerator {G} gen_state gen_finished.
Arguments gen_state {G} g.
Arguments gen_finished {G} g.

(** How a consumer such as [for x in gen] or [list(gen)] ends. *)
Inductive Ending : Type :=
| Clean
| Failed (e : exn).

(* ===================================================================== *)
(** ** The entity, the world around it, and the monad of the methods *)
(* ===================================================================== *)

Section Model.

Context `{collab : Collaborators}.

(** The state a method can read and change: the instance dictionary of the
    [Cache] object ([self.__dict__]: an attribute exists when its name is a
    key), the list [self.trackables] of collaborator objects, the server
    (the reply to the n-th request [Geocaching._request] makes), the
    requests made so far, and the records handed to [logging]. *)
Record World : Type := mkWorld
  { self : gmap string PyVal;
    self_trackables : option (list Trackable);
    responses : nat -> Response;
    requests : list Request;
    logging : list (string * string) }.

Definition with_self (f : gmap string PyVal -> gmap string PyVal) (w : World) : World :=
  mkWorld (f (self w)) (self_trackables w) (responses w) (requests w) (logging w).

Definition with_trackables (t : option (list Trackable)) (w : World) : World :=
  mkWorld (self w) t (responses w) (requests w) (logging w).

Definition with_request (r : Request) (w : World) : World :=
  mkWorld (self w) (self_trackables w) (responses w) (requests w ++ [r]) (logging w).

Definition with_log (level message : string) (w : World) : World :=
  mkWorld (self w) (self_trackables w) (responses w) (requests w)
          (logging w ++ [(level, message)]).

(** A method: from a world to a result or an exception, and the world it
    leaves.  What was changed before an exception stays changed. *)
Definition M (A : Type) : Type := World -> Result A * World.

Definition ret {A} (a : A) : M A := fun w => (Ok a, w).

Definition raise {A} (e : exn) : M A := fun w => (Raise e, w).

Definition bind {A B} (m : M A) (k : A -> M B) : M B :=
  fun w =>
    match m w with
    | (Ok a, w') => k a w'
    | (Raise e, w') => (Raise e, w')
    end.

Definition lift {A} (r : Result A) : M A := fun w => (r, w).

(** [try: m except: handler]. *)
Definition try_except {A} (m : M A) (handler : exn -> M A) : M A :=
  fun w =>
    match m w with
    | (Ok a, w') => (Ok a, w')
    | (Raise e, w') => handler e w'
    end.

Notation "x <- m ;; k" := (bind m (fun x => k))
  (at level 100, m at next level, right associativity).
Notation "m ;;; k" := (bind m (fun _ => k))
  (at level 100, right associativity).

(** [for x in l: body]. *)
Fixpoint for_each {A} (l : list A) (body : A -> M unit) : M unit :=
  match l with
  | [] => ret tt
  | x :: rest => body x ;;; for_each rest body
  end.

(** [[f(x) for x in l]] where [f] only computes. *)
Fixpoint comprehension {A B} (f : A -> Result B) (l : list A) : Result (list B) :=
  match l with
  | [] => Ok []
  | x :: rest =>
      result_bind (f x) (fun y =>
      result_bind (comprehension f rest) (fun ys => Ok (y :: ys)))
  end.

(** [self.name = v] past any property, [self.name], and [hasattr]. *)
Definition setattr (name : string) (v : PyVal) : M unit :=
  fun w => (Ok tt, with_self (insert name v) w).

Definition getattr (name : string) : M PyVal :=
  fun w =>
    match self w !! name with
    | Some v => (Ok v, w)
    | None => (Raise AttributeError, w)
    end.

Definition self_hasattr (name : string) : M bool :=
  fun w => (Ok (bool_decide (is_Some (self w !! name))), w).

Definition logging_call (level message : string) : M unit :=
  fun w => (Ok tt, with_log level message w).

(** [str(x)], [float(x)] and [int(x)]. *)
Definition py_str (v : PyVal) : string :=
  match str_methods v with
  | Ok s => s
  | Raise _ => repr v
  end.

(** [float(z)] raises [OverflowError] for an integer that rounds, to the
    nearest double and ties to even, past the largest double
    [2^1024 - 2^971]: the first such integer is [2^1024 - 2^970]. *)
Definition float_overflow : Z := 2 ^ 1024 - 2 ^ 970.

(** [float(x)].  A float is a finite number, read as an exact rational.
    An integer in range converts to itself: past [2^53] Python rounds it to
    the nearest double, which lies above the scale of difficulty and
    terrain as the integer does.  An instance of a class derived from a
    built-in converts as its data.  Everything else, [None] and the
    objects of the model among it, has no [__float__] and is a
    [TypeError]. *)
Fixpoint py_float (v : PyVal) : Result Q :=
  match v with
  | VFloat q => Ok q
  | VInt z =>
      if Z.abs z <? float_overflow then Ok (inject_Z z) else Raise OverflowError
  | VBool b => Ok (if b then 1%Q else 0%Q)
  | VStr s => float_of_str s
  | VInstance _ b => py_float b
  | _ => Raise TypeError
  end.

Definition Qtruncate (q : Q) : Z :=
  if Qle_bool 0 q then Qfloor q else Qceiling q.

Fixpoint py_int (v : PyVal) : Result Z :=
  match v with
  | VInt z => Ok z
  | VBool b => Ok (if b then 1 else 0)
  | VFloat q => Ok (Qtruncate q)
  | VStr s => int_of_str s
  | VInstance _ b => py_int b
  | _ => Raise TypeError
  end.

(** [a % b] on floats for a positive [b]. *)
Definition Qmod (a b : Q) : Q := (a - b * inject_Z (Qfloor (a / b)))%Q.

(* ===================================================================== *)
(** ** [class Cache]: the registry of attributes and the property setters *)
(* ===================================================================== *)

Definition _possible_attributes : list (string * string) :=
  [ ("abandonedbuilding", "Abandoned Structure");
    ("available", "Available at All Times");
    ("bicycles", "Bicycles");
    ("boat", "Boat");
    ("campfires", "Campfires");
    ("camping", "Camping Available");
    ("cliff", "Cliff / Falling Rocks");
    ("climbing", "Difficult Climbing");
    ("cow", "Watch for Livestock");
    ("danger", "Dangerous Area");
    ("dangerousanimals", "Dangerous Animals");
    ("dogs", "Dogs");
    ("fee", "Access or Parking Fee");
    ("field_puzzle", "Field Puzzle");
    ("firstaid", "Needs Maintenance");
    ("flashlight", "Flashlight Required");
    ("food", "Food Nearby");
    ("frontyard", "Front Yard(Private Residence)");
    ("fuel", "Fuel Nearby");
    ("geotour", "GeoTour Cache");
    ("hike_long", "Long Hike (+10km)");
    ("hike_med", "Medium Hike (1km-10km)");
    ("hike_short", "Short Hike (Less than 1km)");
    ("hiking", "Significant Hike");
    ("horses", "Horses");
    ("hunting", "Hunting");
    ("jeeps", "Off-Road Vehicles");
    ("kids", "Recommended for Kids");
    ("landf", "Lost And Found Tour");
    ("mine", "Abandoned Mines");
    ("motorcycles", "Motortcycles");
    ("night", "Recommended at Night");
    ("nightcache", "Night Cache");
    ("onehour", "Takes Less Than an Hour");
    ("parking", "Parking Available");
    ("parkngrab", "Park and Grab");
    ("partnership", "Partnership Cache");
    ("phone", "Telephone Nearby");
    ("picnic", "Picnic Tables Nearby");
    ("poisonoak", "Poisonous Plants");
    ("public", "Public Transportation");
    ("quads", "Quads");
    ("rappelling", "Climbing Gear");
    ("restrooms", "Public Restrooms Nearby");
    ("rv", "Truck Driver/RV");
    ("s-tool", "Special Tool Required");
    ("scenic", "Scenic View");
    ("scuba", "Scuba Gear");
    ("seasonal", "Seasonal Access");
    ("skiis", "Cross Country Skis");
    ("snowmobiles", "Snowmobiles");
    ("snowshoes", "Snowshoes");
    ("stealth", "Stealth Required");
    ("stroller", "Stroller Accessible");
    ("swimming", "May Require Swimming");
    ("teamwork", "Teamwork Required");
    ("thorn", "Thorns");
    ("ticks", "Ticks");
    ("touristok", "Tourist Friendly");
    ("treeclimbing", "Tree Climbing");
    ("uv", "UV Light Required");
    ("wading", "May Require Wading");
    ("water", "Drinking Water Nearby");
    ("wheelchair", "Wheelchair Accessible");
    ("winter", "Available During Winter");
    ("wirelessbeacon", "Wireless Beacon") ].

(** [name in self._possible_attributes]. *)
Definition is_possible_attribute (name : string) : bool :=
  existsb (fun kv => String.eqb (fst kv) name) _possible_attributes.

Definition _urls (key : string) : string :=
  if String.eqb key "tiles_server" then "http://tiles01.geocaching.com/map.details"
  else if String.eqb key "logbook" then "seek/geocache.logbook"
  else if String.eqb key "cache_details" then "seek/cache_details.aspx"
  else if String.eqb key "print_page" then "seek/cdpf.aspx"
  else "play/geocache/{wp}/log".

(** The pattern of a GUID, [^h{8}-h{4}-h{4}-h{4}-h{12}$] with [h] a digit
    or a letter from [a] to [f], matched against a stripped text. *)
Definition is_hex (c : ascii) : bool :=
  let n := nat_of_ascii c in
  ((48 <=? n) && (n <=? 57) || (97 <=? n) && (n <=? 102))%nat.

Fixpoint take_hex (n : nat) (s : string) : option string :=
  match n with
  | O => Some s
  | S k =>
      match s with
      | String c s' => if is_hex c then take_hex k s' else None
      | EmptyString => None
      end
  end.

Fixpoint match_hex_groups (groups : list nat) (s : string) : bool :=
  match groups with
  | [] => false
  | [n] =>
      match take_hex n s with
      | Some EmptyString => true
      | _ => false
      end
  | n :: rest =>
      match take_hex n s with
      | Some (String c s') => Ascii.eqb c "-"%char && match_hex_groups rest s'
      | _ => false
      end
  end.

Definition guid_regex_match (guid : string) : bool :=
  match_hex_groups [8; 4; 4; 4; 12]%nat guid.

Definition set_wp (wp : PyVal) : M unit :=
  let wp := PyStr.strip (PyStr.upper (py_str wp)) in
  if negb (PyStr.startswith wp "GC")
  then raise (ValueError ("GC code '" ++ wp ++ "' doesn't start with 'GC'."))
  else setattr "_wp" (VStr wp).

Definition set_guid (guid : PyVal) : M unit :=
  guid <- lift (str_methods guid) ;;
  let guid := PyStr.strip guid in
  if negb (guid_regex_match guid)
  then raise (ValueError ("GUID not well formatted: " ++ guid))
  else setattr "_guid" (VStr guid).

Definition set_geocaching (geocaching : PyVal) : M unit :=
  if negb (hasattr geocaching "_request")
  then raise (ValueError ("Passed object (type: '"
                          ++ class_text (type_of geocaching)
                          ++ "')doesn't contain '_request' method."))
  else setattr "_geocaching" geocaching.

Definition set_name (name : PyVal) : M unit :=
  setattr "_name" (VStr (PyStr.strip (py_str name))).

Definition not_a_point : string :=
  "Passed object is not Point instance nor string containing coordinates.".

Definition set_location (location : PyVal) : M unit :=
  if type_is location T_str then
    s <- lift (str_methods location) ;;
    p <- lift (Point_from_string s) ;;
    setattr "_location" (VPoint p)
  else if negb (type_is location T_Point) then
    raise (ValueError not_a_point)
  else setattr "_location" location.

Definition set_original_location (original_location : PyVal) : M unit :=
  if type_is original_location T_str then
    s <- lift (str_methods original_location) ;;
    p <- lift (Point_from_string s) ;;
    setattr "_original_location" (VPoint p)
  else if negb (type_is original_location T_Point)
          && negb (type_is original_location T_NoneType) then
    raise (ValueError not_a_point)
  else setattr "_original_location" original_location.

Definition set_waypoints (waypoints : PyVal) : M unit :=
  setattr "_waypoints" waypoints.

Definition set_type (type : PyVal) : M unit :=
  if negb (type_is type T_Type) then
    s <- lift (str_methods type) ;;
    t <- lift (Type_.from_string s) ;;
    setattr "_type" (VType t)
  else setattr "_type" type.

Definition set_state (state : PyVal) : M unit :=
  setattr "_state" (VBool (truthy state)).

Definition set_found (found : PyVal) : M unit :=
  setattr "_found" (VBool (truthy found)).

Definition set_size (size : PyVal) : M unit :=
  if negb (type_is size T_Size) then
    s <- lift (str_methods size) ;;
    t <- lift (Size.from_string s) ;;
    setattr "_size" (VSize t)
  else setattr "_size" size.

(** [x < 1 or x > 5 or x * 10 % 5 != 0]. *)
Definition out_of_scale (x : Q) : bool :=
  negb (Qle_bool 1 x) || negb (Qle_bool x 5)
  || negb (Qeq_bool (Qmod (x * 10) 5) 0).

Definition set_difficulty (difficulty : PyVal) : M unit :=
  difficulty <- lift (py_float difficulty) ;;
  if out_of_scale difficulty
  then raise (ValueError "Difficulty must be from 1 to 5 and divisible by 0.5.")
  else setattr "_difficulty" (VFloat difficulty).

Definition set_terrain (terrain : PyVal) : M unit :=
  terrain <- lift (py_float terrain) ;;
  if out_of_scale terrain
  then raise (ValueError "Terrain must be from 1 to 5 and divisible by 0.5.")
  else setattr "_terrain" (VFloat terrain).

Definition set_author (author : PyVal) : M unit :=
  setattr "_author" (VStr (PyStr.strip (py_str author))).

Definition set_hidden (hidden : PyVal) : M unit :=
  if type_is hidden T_str then
    s <- lift (str_methods hidden) ;;
    d <- lift (parse_date s) ;;
    setattr "_hidden" (VDate d)
  else if negb (type_is hidden T_date) then
    raise (ValueError
      "Passed object is not datetime.date instance nor string containing a date.")
  else setattr "_hidden" hidden.

(** [d.items()]. *)
Definition dict_items (d : PyVal) : list (PyVal * PyVal) :=
  match d with
  | VDict items => items
  | _ => []
  end.

(** [self._attributes[name] = allowed]. *)
Definition attributes_setitem (name : string) (allowed : PyVal) : M unit :=
  d <- getattr "_attributes" ;;
  setattr "_attributes" (VDict (dict_setitem name allowed (dict_items d))).

(** The body of [for name, allowed in attributes.items()]. *)
Definition set_attributes_item (item : PyVal * PyVal) : M unit :=
  name <- lift (str_methods (fst item)) ;;
  let name := PyStr.lower (PyStr.strip name) in
  if is_possible_attribute name
  then attributes_setitem name (snd item)
  else logging_call "WARNING" ("Unknown attribute " ++ name ++ ", ignoring.").

Definition set_attributes (attributes : PyVal) : M unit :=
  if negb (type_is attributes T_dict) then
    raise (ValueError "Attribues is not dict.")
  else
    setattr "_attributes" (VDict []) ;;;
    for_each (dict_items attributes) set_attributes_item.

Definition set_summary (summary : PyVal) : M unit :=
  setattr "_summary" (VStr (PyStr.strip (py_str summary))).

Definition set_description (description : PyVal) : M unit :=
  setattr "_description" (VStr (PyStr.strip (py_str description))).

Definition set_hint (hint : PyVal) : M unit :=
  setattr "_hint" (VStr (PyStr.strip (py_str hint))).

Definition set_favorites (favorites : PyVal) : M unit :=
  n <- lift (py_int favorites) ;;
  setattr "_favorites" (VInt n).

Definition set_pm_only (pm_only : PyVal) : M unit :=
  setattr "_pm_only" (VBool (truthy pm_only)).

(** Inside [class Cache] the names [self.__logbook_token] and
    [self.__trackable_page_url] are mangled. *)
Definition set__logbook_token (logbook_token : PyVal) : M unit :=
  setattr "_Cache__logbook_token" logbook_token.

Definition set__trackable_page_url (trackable_page_url : PyVal) : M unit :=
  setattr "_Cache__trackable_page_url" trackable_page_url.

(* ===================================================================== *)
(** ** Requests *)
(* ===================================================================== *)

(** [self.geocaching._request(url, params=..., expect=...)]: the request is
    recorded, and the reply is the server's for its position in the run.
    A failure of the transport is an [errors.Error]; so is a reply of the
    other kind than the one expected, which the transport cannot parse. *)
Definition _request (url : string) (params : list (string * PyVal))
    (expect_json : bool) : M Response :=
  getattr "_geocaching" ;;;
  fun w =>
    let w' := with_request
                {| req_url := url; req_params := params;
                   req_expect_json := expect_json |} w in
    match responses w (length (requests w)) with
    | HttpError m => (Raise (Error m), w')
    | r => (Ok r, w')
    end.

Definition request_document (url : string) (params : list (string * PyVal))
  : M Document :=
  r <- _request url params false ;;
  match r with
  | Html d => ret d
  | _ => raise (Error "unexpected content")
  end.

Definition request_json (url : string) (params : list (string * PyVal))
  : M LogbookReply :=
  r <- _request url params true ;;
  match r with
  | Json j => ret j
  | _ => raise (Error "unexpected content")
  end.

(* ===================================================================== *)
(** ** [Waypoint.from_html] *)
(* ===================================================================== *)

Definition newline : string := String (ascii_of_nat 10) EmptyString.
Definition double_quote : string := String (ascii_of_nat 34) EmptyString.

(** [l[0::2]]; [l[1::2]] and [l[2::2]] are its values on the tails. *)
Fixpoint every_other {A} (l : list A) : list A :=
  match l with
  | [] => []
  | [x] => [x]
  | x :: _ :: rest => x :: every_other rest
  end.

Definition waypoint_of_rows (acc : list (PyVal * PyVal)) (rows : list Cell * list Cell)
  : M (list (PyVal * PyVal)) :=
  let columns := (fst rows ++ snd rows)%list in
  c4 <- lift (index columns 4) ;;
  let identifier := PyStr.strip (td_text c4) in
  c2 <- lift (index columns 2) ;;
  type <- lift (deref (td_img_title c2)) ;;
  c6 <- lift (index columns 6) ;;
  let location_string := PyStr.strip (td_text c6) in
  loc <- try_except
           (p <- lift (Point_new location_string) ;; ret (Some p))
           (fun e =>
              if is_builtin_ValueError e then
                logging_call "DEBUG"
                  ("No valid location format in waypoint " ++ identifier
                   ++ ": " ++ location_string) ;;;
                ret None
              else raise e) ;;
  c10 <- lift (index columns 10) ;;
  let note := PyStr.strip (td_text c10) in
  ret (dict_setitem identifier
         (VWaypoint (Waypoint.mk identifier type loc note)) acc).

Fixpoint waypoints_loop (acc : list (PyVal * PyVal))
    (pairs : list (list Cell * list Cell)) : M (list (PyVal * PyVal)) :=
  match pairs with
  | [] => ret acc
  | rows :: rest =>
      acc' <- waypoint_of_rows acc rows ;;
      waypoints_loop acc' rest
  end.

Definition Waypoint_from_html (soup : Document) (table_id : string) : M PyVal :=
  match table_rows soup table_id with
  | Some waypoints_table =>
      d <- waypoints_loop []
             (List.combine (every_other (List.tl waypoints_table))
                           (every_other (List.tl (List.tl waypoints_table)))) ;;
      ret (VDict d)
  | None => ret (VDict [])
  end.

(* ===================================================================== *)
(** ** [Cache.load]: the full population strategy *)
(* ===================================================================== *)

(** [src.split("/")[-1].rsplit(".", 1)[0]]: file name without extension. *)
Definition filename_without_extension (src : string) : string :=
  List.hd EmptyString
    (PyStr.rsplit1 "."%char (PyStr.last_piece (PyStr.split "/" src))).

(** [a, b = l]. *)
Definition unpack2 {A} (l : list A) : Result (A * A) :=
  match l with
  | [a; b] => Ok (a, b)
  | _ => Raise BuiltinValueError
  end.

(** [a, b, *_ = l]. *)
Definition unpack2_star {A} (l : list A) : Result (A * A) :=
  match l with
  | a :: b :: _ => Ok (a, b)
  | _ => Raise BuiltinValueError
  end.

(** The fields a basic member sees of a PM-only cache. *)
Definition load_pm_only_details (cache_details : option DetailsElem) : M unit :=
  cache_details <- lift (deref cache_details) ;;
  code <- lift (deref (li_gccode_text cache_details)) ;;
  set_wp (VStr (PyStr.strip code)) ;;;
  name <- lift (deref (h1_text cache_details)) ;;
  set_name (VStr (PyStr.strip name)) ;;;
  author <- lift (deref (uxCacheBy_text cache_details)) ;;
  set_author (VStr (PyStr.drop (String.length "A cache by ") author)) ;;;
  details <- lift (deref (ul_hide_details_text cache_details)) ;;
  let details := PyStr.split newline details in
  d <- lift (result_bind (index details 2) float_of_str) ;;
  set_difficulty (VFloat d) ;;;
  t <- lift (result_bind (index details 5) float_of_str) ;;
  set_terrain (VFloat t) ;;;
  s <- lift (result_bind (index details 8) Size.from_string) ;;
  set_size (VSize s) ;;;
  f <- lift (result_bind (index details 11) int_of_str) ;;
  set_favorites (VInt f).

(** [float(img.get("alt").split()[0])]. *)
Definition star_of_alt (alt : option string) : Result Q :=
  result_bind (deref alt) (fun alt =>
  result_bind (index (PyStr.split_ws alt) 0) float_of_str).

(** The same fields from the full layout. *)
Definition load_basic_details (root : Document)
    (cache_details : option DetailsElem) : M unit :=
  try_except
    (title <- lift (deref (title_string root)) ;;
     code <- lift (index (PyStr.split " " title) 0) ;;
     set_wp (VStr code))
    (fun _ => raise (LoadError "")) ;;;
  cache_details <- lift (deref cache_details) ;;
  name <- lift (deref (h2_text cache_details)) ;;
  set_name (VStr name) ;;;
  author <- lift (index (a_texts cache_details) 1) ;;
  set_author (VStr author) ;;;
  alts <- lift (deref (CacheStarLabels_img_alts root)) ;;
  size <- lift (deref (CacheSize_img_src root)) ;;
  let size := filename_without_extension size in
  size <- lift (Size.from_filename size) ;;
  set_size (VSize size) ;;;
  stars <- lift (comprehension star_of_alt alts) ;;
  stars <- lift (unpack2 stars) ;;
  set_difficulty (VFloat (fst stars)) ;;;
  set_terrain (VFloat (snd stars)).

(** [{name: appendix.startswith("yes") for name, appendix in raw
      if not appendix.startswith("blank")}]. *)
Fixpoint attributes_dict (acc : list (PyVal * PyVal)) (raw : list (list string))
  : Result (list (PyVal * PyVal)) :=
  match raw with
  | [] => Ok acc
  | item :: rest =>
      result_bind (unpack2 item) (fun '(attribute_name, appendix) =>
      if negb (PyStr.startswith appendix "blank")
      then attributes_dict
             (dict_setitem attribute_name
                (VBool (PyStr.startswith appendix "yes")) acc) rest
      else attributes_dict acc rest)
  end.

(** [_.get("src").split("/")[-1].rsplit("-", 1)]. *)
Definition attribute_raw (src : option string) : Result (list string) :=
  result_bind (deref src) (fun src =>
  Ok (PyStr.rsplit1 "-"%char (PyStr.last_piece (PyStr.split "/" src)))).

(** The attributes, from the icons of the first navigation widget. *)
Definition load_attributes (attributes_widget : Widget) : M unit :=
  attributes_raw <-
     lift (comprehension attribute_raw (widget_img_srcs attributes_widget)) ;;
  attributes <- lift (attributes_dict [] attributes_raw) ;;
  set_attributes (VDict attributes).

Definition oldLatLng_marker : string := "oldLatLng" ++ double_quote ++ ":".

(** [found and ("Found It!" or "Attended" in found.text) or False] for
    [found = root.find("div", "FoundStatus")]. *)
Definition found_status (found : option string) : Result PyVal :=
  result_bind
    (py_and (tag_or_None found) (fun _ =>
       py_or (VStr "Found It!") (fun _ =>
         result_bind (deref found) (fun text =>
         Ok (VBool (PyStr.contains "Attended" text))))))
    (fun v => py_or v (fun _ => Ok (VBool false))).

(** The fields only a full detail page has. *)
Definition load_full_details (root : Document) (cache_details : DetailsElem)
  : M unit :=
  let pm_only_warning := Warning_NoBottomSpacing_text root in
  pm <- lift (result_bind
          (py_and (tag_or_None pm_only_warning) (fun _ =>
             result_bind (deref pm_only_warning) (fun text =>
             Ok (VBool (PyStr.contains "Premium Member Only" text)))))
          (fun v => py_or v (fun _ => Ok (VBool false)))) ;;
  set_pm_only pm ;;;
  widgets <- lift (unpack2_star (NavigationWidgets root)) ;;
  let attributes_widget := fst widgets in
  let inventory_widget := snd widgets in
  divs <- lift (deref (minorCacheDetails_div_texts cache_details)) ;;
  hidden <- lift (index divs 1) ;;
  hidden <- lift (parse_date (PyStr.last_piece (PyStr.split ":" hidden))) ;;
  set_hidden (VDate hidden) ;;;
  latlon <- lift (deref (uxLatLon_text root)) ;;
  location <- lift (Point_from_string latlon) ;;
  set_location (VPoint location) ;;;
  set_state (VBool (negb (OldWarning root))) ;;;
  found_value <- lift (found_status (FoundStatus_text root)) ;;
  set_found found_value ;;;
  load_attributes attributes_widget ;;;
  let user_content := UserSuppliedContent root in
  summary <- lift (index user_content 0) ;;
  set_summary (VStr (fst summary)) ;;;
  description <- lift (index user_content 1) ;;
  set_description (VStr (snd description)) ;;;
  hint <- lift (deref (div_hint_text root)) ;;
  set_hint (VStr (rot13 (PyStr.strip hint))) ;;;
  match favorite_value_text root with
  | None => set_favorites (VInt 0)
  | Some text => n <- lift (int_of_str text) ;; set_favorites (VInt n)
  end ;;;
  let js_content := PyStr.join newline (script_texts root) in
  token <- lift (index (findall_userToken js_content) 0) ;;
  set__logbook_token (VStr token) ;;;
  (if PyStr.contains oldLatLng_marker js_content then
     after <- lift (index (PyStr.split oldLatLng_marker js_content) 1) ;;
     inner <- lift (index (PyStr.split "]" after) 0) ;;
     old_lat_long <- lift (index (PyStr.split "[" inner) 1) ;;
     p <- lift (Point_new old_lat_long) ;;
     set_original_location (VPoint p)
   else set_original_location VNone) ;;;
  (if (3 <=? widget_a_count inventory_widget)%nat then
     link <- lift (deref (widget_view_all_href inventory_widget)) ;;
     match link with
     | Some href => set__trackable_page_url (VStr (PyStr.drop 3 href))
     | None => raise TypeError
     end
   else set__trackable_page_url VNone) ;;;
  waypoints <- Waypoint_from_html root "ctl00_ContentBody_Waypoints" ;;
  set_waypoints waypoints ;;;
  wp <- getattr "_wp" ;;
  logging_call "DEBUG" ("Cache loaded: " ++ py_str wp).

(** The first half of [load]: the detail page is requested by URL or by
    GC code. *)
Definition load_request : M Document :=
  try_except
    (has_url <- self_hasattr "url" ;;
     if has_url then
       url <- getattr "url" ;;
       request_document (py_str url) []
     else
       has_wp <- self_hasattr "_wp" ;;
       if has_wp then
         wp <- getattr "_wp" ;;
         request_document (_urls "cache_details") [("wp", wp)]
       else raise (LoadError "Cache lacks info for loading"))
    (fun e =>
       if is_pycaching_Error e
       then raise (LoadError "Error in loading cache")
       else raise e).

(** The second half: the page is parsed into the fields. *)
Definition load_parse (root : Document) : M unit :=
  set_pm_only (VBool (pmo_banner root)) ;;;
  pm_only <- getattr "_pm_only" ;;
  let cache_details :=
    if truthy pm_only then divContentMain root else cacheDetails root in
  (if truthy pm_only
   then load_pm_only_details cache_details
   else load_basic_details root cache_details) ;;;
  cache_details <- lift (deref cache_details) ;;
  type <- lift (deref (img_src cache_details)) ;;
  type <- lift (Type_.from_filename (filename_without_extension type)) ;;
  set_type (VType type) ;;;
  pm_only <- getattr "_pm_only" ;;
  (if truthy pm_only then raise PMOnlyException else ret tt) ;;;
  load_full_details root cache_details.

Definition load : M unit :=
  root <- load_request ;;
  load_parse root.

(* ===================================================================== *)
(** ** Lazy loading and the properties *)
(* ===================================================================== *)

(** Modelled from the spec: the decorator [pycaching.util.lazy_loaded] is
    imported by the module and is not among its sources.  It wraps a field
    getter; on invocation, if the backing field has never been set it calls
    the full population strategy [load] once and then invokes the getter
    again, and if the field is set (to any value) it does nothing extra.  A
    failure of [load] reaches the caller unchanged. *)
Definition lazy_loaded {A} (backing : string) (getter : M A) : M A :=
  is_set <- self_hasattr backing ;;
  if is_set then getter else load ;;; getter.

(** The properties of [class Cache]. *)
Inductive property : Type :=
| p_wp | p_guid | p_geocaching | p_name | p_location | p_original_location
| p_waypoints | p_type | p_state | p_found | p_size | p_difficulty
| p_terrain | p_author | p_hidden | p_attributes | p_summary
| p_description | p_hint | p_favorites | p_pm_only | p__logbook_token
| p__trackable_page_url.

#[global] Instance property_eq_dec : EqDecision property.
Proof. solve_decision. Defined.

(** The attribute a property stores its value in. *)
Definition backing (p : property) : string :=
  match p with
  | p_wp => "_wp"
  | p_guid => "_guid"
  | p_geocaching => "_geocaching"
  | p_name => "_name"
  | p_location => "_location"
  | p_original_location => "_original_location"
  | p_waypoints => "_waypoints"
  | p_type => "_type"
  | p_state => "_state"
  | p_found => "_found"
  | p_size => "_size"
  | p_difficulty => "_difficulty"
  | p_terrain => "_terrain"
  | p_author => "_author"
  | p_hidden => "_hidden"
  | p_attributes => "_attributes"
  | p_summary => "_summary"
  | p_description => "_description"
  | p_hint => "_hint"
  | p_favorites => "_favorites"
  | p_pm_only => "_pm_only"
  | p__logbook_token => "_Cache__logbook_token"
  | p__trackable_page_url => "_Cache__trackable_page_url"
  end.

(** The properties whose getter is decorated with [@lazy_loaded]. *)
Definition is_lazy_loaded (p : property) : bool :=
  match p with
  | p_wp | p_guid | p_geocaching | p_pm_only => false
  | _ => true
  end.

Definition lazy_properties : list property :=
  [ p_name; p_location; p_type; p_state; p_found; p_size; p_difficulty;
    p_terrain; p_author; p_hidden; p_attributes; p_summary; p_description;
    p_hint; p_favorites; p__logbook_token; p__trackable_page_url;
    p_original_location; p_waypoints ].

(** [self.p = v]: the setter of the property. *)
Definition property_set (p : property) : PyVal -> M unit :=
  match p with
  | p_wp => set_wp
  | p_guid => set_guid
  | p_geocaching => set_geocaching
  | p_name => set_name
  | p_location => set_location
  | p_original_location => set_original_location
  | p_waypoints => set_waypoints
  | p_type => set_type
  | p_state => set_state
  | p_found => set_found
  | p_size => set_size
  | p_difficulty => set_difficulty
  | p_terrain => set_terrain
  | p_author => set_author
  | p_hidden => set_hidden
  | p_attributes => set_attributes
  | p_summary => set_summary
  | p_description => set_description
  | p_hint => set_hint
  | p_favorites => set_favorites
  | p_pm_only => set_pm_only
  | p__logbook_token => set__logbook_token
  | p__trackable_page_url => set__trackable_page_url
  end.

(** [self.p]: the getter of the property.  [guid] answers [None] for a
    missing attribute; the getters that are not lazy let the
    [AttributeError] through. *)
Definition property_get (p : property) : M PyVal :=
  match p with
  | p_guid =>
      is_set <- self_hasattr "_guid" ;;
      if is_set then getattr "_guid" else ret VNone
  | p_wp | p_geocaching | p_pm_only => getattr (backing p)
  | _ => lazy_loaded (backing p) (getattr (backing p))
  end.

(** The keyword arguments [__init__] knows, as the source lists them, each
    with the property it assigns; [url] is a plain attribute. *)
Definition known_kwargs : list (string * option property) :=
  [ ("name", Some p_name); ("type", Some p_type);
    ("location", Some p_location);
    ("original_location", Some p_original_location);
    ("state", Some p_state); ("found", Some p_found); ("size", Some p_size);
    ("difficulty", Some p_difficulty); ("terrain", Some p_terrain);
    ("author", Some p_author); ("hidden", Some p_hidden);
    ("attributes", Some p_attributes); ("summary", Some p_summary);
    ("description", Some p_description); ("hint", Some p_hint);
    ("favorites", Some p_favorites); ("pm_only", Some p_pm_only);
    ("url", None); ("waypoints", Some p_waypoints);
    ("_logbook_token", Some p__logbook_token);
    ("_trackable_page_url", Some p__trackable_page_url);
    ("guid", Some p_guid) ].

(** [setattr(self, name, v)] for a known keyword. *)
Definition setattr_known (kw : string * option property) (v : PyVal) : M unit :=
  match snd kw with
  | Some p => property_set p v
  | None => setattr (fst kw) v
  end.

(** [Cache.__init__(self, geocaching, wp, **kwargs)].  The source walks a
    set of the known keywords, whose order Python does not fix; the order
    here is the one they are written in. *)
Definition Cache__init__ (geocaching wp : PyVal) (kwargs : list (PyVal * PyVal))
  : M unit :=
  set_geocaching geocaching ;;;
  (if negb (type_is wp T_NoneType) then set_wp wp else ret tt) ;;;
  for_each known_kwargs (fun kw =>
    match dict_get (fst kw) kwargs with
    | Some v => setattr_known kw v
    | None => ret tt
    end).

(** The world before [__init__]: an object without attributes, a server,
    nothing requested or logged yet. *)
Definition new_world (server : nat -> Response) : World :=
  mkWorld ∅ None server [] [].

(* ===================================================================== *)
(** ** Running the generators *)
(* ===================================================================== *)

(** [next(gen)] for a generator with body [body]. *)
Definition next {A G} (sem : GeneratorSemantics) (body : G -> M (Step A G))
    (gen : Generator G) (w : World) : Next A * Generator G * World :=
  if gen_finished gen then (Exhausted, gen, w)
  else
    let done := mkGenerator (gen_state gen) true in
    match body (gen_state gen) w with
    | (Ok (Yields a g), w') => (Item a, mkGenerator g false, w')
    | (Ok Returns, w') => (Exhausted, done, w')
    | (Raise StopIteration, w') =>
        match sem with
        | Legacy => (Exhausted, done, w')
        | PEP479 => (Escapes RuntimeError, done, w')
        end
    | (Raise e, w') => (Escapes e, done, w')
    end.

(** The consumer: items are taken until the sequence ends or an exception
    escapes.  [None]: the fuel ran out first. *)
Fixpoint consume {A G} (fuel : nat) (sem : GeneratorSemantics)
    (body : G -> M (Step A G)) (gen : Generator G) (w : World)
  : option (list A * Ending * World) :=
  match fuel with
  | O => None
  | S fuel' =>
      match next sem body gen w with
      | (Item a, gen', w') =>
          match consume fuel' sem body gen' w' with
          | Some (items, ending, w'') => Some (a :: items, ending, w'')
          | None => None
          end
      | (Exhausted, _, w') => Some ([], Clean, w')
      | (Escapes e, _, w') => Some ([], Failed e, w')
      end
  end.

(** *** [Cache._logbook_get_page] and [Cache.load_logbook] *)

Definition _logbook_get_page (page per_page : Z) : M (list LogData) :=
  tkn <- property_get p__logbook_token ;;
  res <- request_json (_urls "logbook")
           [ ("tkn", tkn); ("idx", VInt (page + 1));
             ("num", VInt per_page); ("decrypt", VStr "true") ] ;;
  if negb (String.eqb (status res) "success") then
    let error_msg :=
      match msg res with
      | Some m => m
      | None => "Unknown error"
      end in
    raise (LoadError ("Logbook cannot be loaded: " ++ error_msg))
  else ret (data res).

(** The body of the [for] loop up to its [yield]: the log object built
    from one entry. *)
Definition make_log (log_data : LogData) : Result Log :=
  let img_filename :=
    List.hd EmptyString (PyStr.rsplit1 "."%char (LogTypeImage log_data)) in
  result_bind (LogType_from_filename img_filename) (fun type =>
  result_bind (Log_set_type type Log_new) (fun l =>
  result_bind (Log_set_text (LogText log_data) l) (fun l =>
  result_bind (Log_set_visited (Visited log_data) l) (fun l =>
  Log_set_author (UserName log_data) l)))).

(** The local variables of a suspended [load_logbook]: [started] is false
    until the body is entered, [lb_pending] is what the running [for] loop
    has still to visit. *)
Record LogbookFrame : Type := mkLogbookFrame
  { lb_started : bool;
    lb_limit : Limit;
    lb_page : Z;
    lb_per_page : Z;
    lb_pending : list LogData }.

Definition load_logbook (limit : Limit) : Generator LogbookFrame :=
  mkGenerator (mkLogbookFrame false limit 0 0 []) false.

(** One turn of [for log_data in logbook_page]. *)
Definition logbook_for (limit : Limit) (page per_page : Z)
    (log_data : LogData) (rest : list LogData) : M (Step Log LogbookFrame) :=
  let limit := limit_pred limit in
  if limit_negative limit then raise StopIteration
  else
    l <- lift (make_log log_data) ;;
    ret (Yields l (mkLogbookFrame true limit page per_page rest)).

(** The body from where it stands to the next [yield]. *)
Definition load_logbook_body (f : LogbookFrame) : M (Step Log LogbookFrame) :=
  f <- (if lb_started f then ret f
        else
          wp <- getattr "_wp" ;;
          logging_call "INFO" ("Loading logbook for " ++ py_str wp ++ "...") ;;;
          ret (mkLogbookFrame true (lb_limit f) 0
                 (limit_min_100 (lb_limit f)) [])) ;;
  match lb_pending f with
  | log_data :: rest =>
      logbook_for (lb_limit f) (lb_page f) (lb_per_page f) log_data rest
  | [] =>
      logbook_page <- _logbook_get_page (lb_page f) (lb_per_page f) ;;
      let page := lb_page f + 1 in
      match logbook_page with
      | [] => raise StopIteration
      | log_data :: rest =>
          logbook_for (lb_limit f) page (lb_per_page f) log_data rest
      end
  end.

(** *** [Cache.load_trackables] *)

Record TrackablesFrame : Type := mkTrackablesFrame
  { tb_started : bool;
    tb_limit : Limit;
    tb_pending : list (string * string) }.

Definition load_trackables (limit : Limit) : Generator TrackablesFrame :=
  mkGenerator (mkTrackablesFrame false limit []) false.

(** [[f(link) for link in links if "track" in link.get("href")]]. *)
Fixpoint track_links (links : list Link) : Result (list Link) :=
  match links with
  | [] => Ok []
  | link :: rest =>
      match href link with
      | None => Raise TypeError
      | Some h =>
          result_bind (track_links rest) (fun ls =>
          Ok (if PyStr.contains "track" h then link :: ls else ls))
      end
  end.

Definition link_url (link : Link) : Result string :=
  match href link with
  | Some h => Ok h
  | None => Raise TypeError
  end.

Definition link_name (link : Link) : Result string :=
  index (PyStr.split_angle (link_html link)) 2.

(** [self.trackables.append(t)]. *)
Definition trackables_append (t : Trackable) : M unit :=
  fun w =>
    match self_trackables w with
    | Some l => (Ok tt, with_trackables (Some (l ++ [t])%list) w)
    | None => (Raise AttributeError, w)
    end.

(** One turn of [for name, url in zip(names, urls)]. *)
Definition trackables_for (limit : Limit) (pending : list (string * string))
  : M (Step Trackable TrackablesFrame) :=
  match pending with
  | [] => ret Returns
  | (name, url) :: rest =>
      let limit := limit_pred limit in
      if limit_negative limit then raise StopIteration
      else
        getattr "_geocaching" ;;;
        t <- lift (result_bind Trackable_new (fun t =>
                   result_bind (Trackable_set_name name t)
                               (Trackable_set_url url))) ;;
        trackables_append t ;;;
        ret (Yields t (mkTrackablesFrame true limit rest))
  end.

Definition load_trackables_body (f : TrackablesFrame)
  : M (Step Trackable TrackablesFrame) :=
  if tb_started f then trackables_for (tb_limit f) (tb_pending f)
  else
    wp <- getattr "_wp" ;;
    logging_call "INFO" ("Loading trackables for " ++ py_str wp ++ "...") ;;;
    (fun w => (Ok tt, with_trackables (Some []) w)) ;;;
    url <- property_get p__trackable_page_url ;;
    if negb (truthy url) then raise StopIteration
    else
      res <- request_document (py_str url) [] ;;
      links <- lift (index (tables_links res) 1) ;;
      urls <- lift (result_bind (track_links links) (comprehension link_url)) ;;
      names <- lift (result_bind (track_links links) (comprehension link_name)) ;;
      trackables_for (tb_limit f) (List.combine names urls).

(* ===================================================================== *)
(** ** Notions the properties are stated with *)
(* ===================================================================== *)

(** The token of an icon is the last segment of its [src]; its name and
    suffix are what stands before and after its last dash. *)
Definition icon_token (src : string) : string :=
  PyStr.last_piece (PyStr.split "/" src).

Definition token_parts (src : string) : option (string * string) :=
  PyStr.rcut "-"%char (icon_token src).

Definition normalise (name : string) : string := PyStr.lower (PyStr.strip name).

(** Successive [d[k] = v]. *)
Definition insert_all (l : list (string * PyVal)) (acc : list (PyVal * PyVal))
  : list (PyVal * PyVal) :=
  fold_left (fun a kv => dict_setitem (fst kv) (snd kv) a) l acc.

(** The items the dictionary comprehension of [load] inserts, and the
    items and warnings the setter makes of a dictionary. *)
Definition retained (srcs : list string) : list (string * PyVal) :=
  flat_map (fun src =>
    match token_parts src with
    | Some (name, sfx) =>
        if negb (PyStr.startswith sfx "blank")
        then [(name, VBool (PyStr.startswith sfx "yes"))] else []
    | None => []
    end) srcs.

Definition known_items (d : list (PyVal * PyVal)) : list (string * PyVal) :=
  flat_map (fun item =>
    match fst item with
    | VStr k =>
        if is_possible_attribute (normalise k)
        then [(normalise k, snd item)] else []
    | _ => []
    end) d.

Definition unknown_warning (name : string) : string * string :=
  ("WARNING", "Unknown attribute " ++ name ++ ", ignoring.").

Definition warnings (d : list (PyVal * PyVal)) : list (string * string) :=
  flat_map (fun item =>
    match fst item with
    | VStr k =>
        if is_possible_attribute (normalise k)
        then [] else [unknown_warning (normalise k)]
    | _ => []
    end) d.

(** [establishes m names]: [m] makes no request, removes no attribute, and
    when it returns normally the attributes [names] exist. *)
Definition establishes {A} (m : M A) (names : list string) : Prop :=
  forall w r w', m w = (r, w') ->
    requests w' = requests w /\ responses w' = responses w
    /\ (forall k, is_Some (self w !! k) -> is_Some (self w' !! k))
    /\ (forall a, r = Ok a -> Forall (fun k => is_Some (self w' !! k)) names).

(** [keeps m k]: [m] does not change the attribute [k]. *)
Definition keeps {A} (m : M A) (k : string) : Prop :=
  forall w r w', m w = (r, w') -> self w' !! k = self w !! k.

Definition reduced_fields : list string :=
  ["_wp"; "_name"; "_author"; "_difficulty"; "_terrain"; "_size"; "_favorites"].

Definition basic_fields : list string :=
  ["_wp"; "_name"; "_author"; "_size"; "_difficulty"; "_terrain"].

Definition full_fields : list string :=
  [ "_pm_only"; "_hidden"; "_location"; "_state"; "_found"; "_attributes";
    "_summary"; "_description"; "_hint"; "_favorites";
    "_Cache__logbook_token"; "_original_location";
    "_Cache__trackable_page_url"; "_waypoints" ].

(** Every field [load] can fill, in the order it fills them. *)
Definition loaded_fields : list string :=
  "_pm_only" :: basic_fields ++ "_type" :: full_fields.

(** The reduced field set of a PM-only page, well formed: the GC code, the
    name, the author line, the four entries of the detail list and the type
    icon are there and pass the validation of their setters. *)
Record reduced_page (root : Document) (code name author : string)
    (difficulty terrain : Q) (size : Size.t) (favorites : Z) (type : Type_.t)
  : Prop :=
  { rp_banner : pmo_banner root = true;
    rp_fields :
      exists cd code0 name0 author0 details s2 s5 s8 s11 src,
        divContentMain root = Some cd
        /\ li_gccode_text cd = Some code0
        /\ code = PyStr.strip (PyStr.upper (PyStr.strip code0))
        /\ PyStr.startswith code "GC" = true
        /\ h1_text cd = Some name0
        /\ name = PyStr.strip (PyStr.strip name0)
        /\ uxCacheBy_text cd = Some author0
        /\ author = PyStr.strip (PyStr.drop 11 author0)
        /\ ul_hide_details_text cd = Some details
        /\ index (PyStr.split newline details) 2 = Ok s2
        /\ float_of_str s2 = Ok difficulty
        /\ out_of_scale difficulty = false
        /\ index (PyStr.split newline details) 5 = Ok s5
        /\ float_of_str s5 = Ok terrain
        /\ out_of_scale terrain = false
        /\ index (PyStr.split newline details) 8 = Ok s8
        /\ Size.from_string s8 = Ok size
        /\ index (PyStr.split newline details) 11 = Ok s11
        /\ int_of_str s11 = Ok favorites
        /\ img_src cd = Some src
        /\ Type_.from_filename (filename_without_extension src) = Ok type }.

(** The instance dictionary after the reduced fields were stored. *)
Definition with_reduced_fields (code name author : string)
    (difficulty terrain : Q) (size : Size.t) (favorites : Z) (type : Type_.t)
    (attrs : gmap string PyVal) : gmap string PyVal :=
  <["_type" := VType type]>
    (<["_favorites" := VInt favorites]>
      (<["_size" := VSize size]>
        (<["_terrain" := VFloat terrain]>
          (<["_difficulty" := VFloat difficulty]>
            (<["_author" := VStr author]>
              (<["_name" := VStr name]>
                (<["_wp" := VStr code]>
                  (<["_pm_only" := VBool true]> attrs)))))))).

(** How a sequence ends for the consumer when the generator body raises
    [StopIteration]. *)
Definition stop_signal (sem : GeneratorSemantics) : Ending :=
  match sem with
  | Legacy => Clean
  | PEP479 => Failed RuntimeError
  end.

(** The world once [load_trackables] has logged and reset the list. *)
Definition trackables_entered (wp : PyVal) (w : World) : World :=
  with_trackables (Some [])
    (with_log "INFO" ("Loading trackables for " ++ py_str wp ++ "...") w).

(** The entries the server has to offer: those of the pages before the
    first empty one. *)
Fixpoint available (pages : list (list LogData)) : list LogData :=
  match pages with
  | [] => []
  | [] :: _ => []
  | page :: rest => (page ++ available rest)%list
  end.

(** The first [limit] entries. *)
Definition take_limit (limit : Limit) (entries : list LogData) : list LogData :=
  match limit with
  | Infinite => entries
  | Finite n => firstn (Z.to_nat n) entries
  end.

(** The server answers the requests from the [n0]-th on with the scripted
    pages, one after the other, and with empty pages after the last. *)
Definition serves (w : World) (n0 : nat) (pages : list (list LogData)) : Prop :=
  forall j, exists m,
    responses w (n0 + j)
    = Json {| status := "success"; msg := m; data := nth j pages [] |}.

(** The entity can fetch page [k]: it has a session and a token, and [k]
    pages were fetched since the [n0]-th request. *)
Record logbook_ready (n0 : nat) (pages : list (list LogData)) (k : nat)
    (w : World) : Prop :=
  { lr_geocaching : is_Some (self w !! "_geocaching");
    lr_token : is_Some (self w !! "_Cache__logbook_token");
    lr_requests : length (requests w) = (n0 + k)%nat;
    lr_serves : serves w n0 pages }.

(** The world once [load_logbook] has logged its first line. *)
Definition logbook_entered (wp : PyVal) (w : World) : World :=
  with_log "INFO" ("Loading logbook for " ++ py_str wp ++ "...") w.

End Model.

Notation "x <- m ;; k" := (bind m (fun x => k))
  (at level 100, m at next level, right associativity).
Notation "m ;;; k" := (bind m (fun _ => k))
  (at level 100, right associativity).

(* ===================================================================== *)
(** ** The other constructors, loaders and the posting of a log *)
(* ===================================================================== *)

(** [d[k]] on decoded JSON or on the attributes of a tag: a missing key is
    a [KeyError]. *)
Definition getitem {A} (o : option A) : Result A :=
  match o with
  | Some a => Ok a
  | None => Raise KeyError
  end.

(** [l[-1]]. *)
Definition index_last {A} (l : list A) : Result A :=
  match List.rev l with
  | a :: _ => Ok a
  | [] => Raise IndexError
  end.

(** [os.path.basename(p)] and [os.path.splitext(name)[0]] for a name
    without a directory: the text before the last dot, unless only dots
    stand before it. *)
Definition basename (p : string) : string :=
  PyStr.last_piece (PyStr.split "/" p).

Fixpoint only_dots (s : string) : bool :=
  match s with
  | EmptyString => true
  | String c s' => Ascii.eqb c "."%char && only_dots s'
  end.

Definition splitext_root (name : string) : string :=
  match PyStr.rcut "."%char name with
  | Some (before, _) => if only_dots before then name else before
  | None => name
  end.

Definition crlf : string :=
  String (ascii_of_nat 13) (String (ascii_of_nat 10) EmptyString).

(** The reply of the tile server as [load_quick] reads it: the envelope,
    and of an item the entries the method takes ([data["type"]["text"]] is
    [tile_type_text], and so on).  Entries handed to a setter are values of
    any kind; those handed to a parser of texts are texts. *)
Record TileData : Type :=
  { tile_name : PyVal;
    tile_type_text : string;
    tile_available : PyVal;
    tile_container_text : string;
    tile_difficulty_text : PyVal;
    tile_terrain_text : PyVal;
    tile_hidden : string;
    tile_owner_text : PyVal;
    tile_fp : PyVal;
    tile_subrOnly : PyVal;
    tile_g : PyVal }.

Record TileReply : Type :=
  { tile_status : string;
    tile_msg : option string;
    tile_data : option (list TileData) }.

(** The print page as [load_by_guid] queries it.  A field is [None] where
    the chain of queries ends in an [AttributeError]; the [src] of the first
    image is [Some None] when the image has no such attribute. *)
Record PrintContent : Type :=
  { print_h2_text : option string;
    LatLong_Meta_text : option string;
    print_img_src : option (option string);
    container_img_alt : option string;
    DiffTerr_img_alts : option (list (option string));
    Placed_by_text : option string;
    Placed_Date_text : option string;
    attribute_img_srcs : list string;
    Short_Description_text : option string;
    Long_Description_text : option string;
    uxEncryptedHint_text : option string;
    Favorites_parent_text : option string;
    print_table_rows : string -> option (list (list Cell)) }.

Record PrintPage : Type :=
  { print_Warning : bool;
    print_Content : option PrintContent }.

(** The log page as [_load_log_page] queries it: the [value] of the options
    of the select named [LogTypeId] (outer [None]: no such select), and the
    [name] and [value] of the inputs of type hidden or submit. *)
Record LogPage : Type :=
  { LogTypeId_option_values : option (list (option string));
    hidden_inputs : list (option string * option string) }.

(** What [post_log] reads of the log it is given: [log.text],
    [log.type.value] and [log.visited.strftime("%Y-%m-%d")]. *)
Record LogFields : Type :=
  { log_text : string;
    log_type_value : string;
    log_visited_ymd : string }.

(** A form handed to [Geocaching._request] with [method="POST"]. *)
Record Posted : Type :=
  { post_url : string;
    post_data : list (PyVal * PyVal) }.

(** The services the methods below talk to, each answering a request: the
    tile server of [load_quick], the print page of [load_by_guid], the log
    page and the handler of the posted form of [post_log].  An answer is
    what [Geocaching._request] returns, or the exception it raises. *)
Class Services : Type :=
  { tile_server : Request -> Result TileReply;
    print_server : Request -> Result PrintPage;
    log_page_server : Request -> Result LogPage;
    form_handler : Posted -> Result unit }.

Section Methods.

Context `{collab : Collaborators} `{services : Services}.

(** [Cache.__init__] for any order in which the set of known keywords is
    walked; [Cache__init__] is the walk in the order they are written. *)
Definition Cache__init__walk (order : list (string * option property))
    (geocaching wp : PyVal) (kwargs : list (PyVal * PyVal)) : M unit :=
  set_geocaching geocaching ;;;
  (if negb (type_is wp T_NoneType) then set_wp wp else ret tt) ;;;
  for_each order (fun kw =>
    match dict_get (fst kw) kwargs with
    | Some v => setattr_known kw v
    | None => ret tt
    end).

(** [Cache.__str__]. *)
Definition Cache__str__ : M string :=
  wp <- getattr "_wp" ;;
  ret (py_str wp).

(** [Cache.from_trackable(trackable)], with [trackable.geocaching] and
    [trackable.location_url]. *)
Definition Cache_from_trackable (geocaching location_url : PyVal) : M unit :=
  Cache__init__ geocaching VNone [(VStr "url", location_url)].

(** [Cache.from_block(block)], with [block.tile.geocaching],
    [block.cache_wp], [block.cache_name] and what [Point.from_block(block)]
    gives. *)
Definition Cache_from_block (geocaching cache_wp cache_name : PyVal)
    (point : Result Point) : M unit :=
  Cache__init__ geocaching cache_wp [(VStr "name", cache_name)] ;;;
  p <- lift point ;;
  set_location (VPoint p).

(** [self.geocaching._request(...)] answered by one of the services. *)
Definition _request_from {A} (server : Request -> Result A) (url : string)
    (params : list (string * PyVal)) (expect_json : bool) : M A :=
  getattr "_geocaching" ;;;
  fun w =>
    let rq := {| req_url := url; req_params := params;
                 req_expect_json := expect_json |} in
    (server rq, with_request rq w).

(** The part of [load_quick] after the request: the reply is checked and
    the fields are filled from its one item. *)
Definition load_quick_parse (res : TileReply) : M unit :=
  failed <- (if String.eqb (tile_status res) "failed" then ret true
             else
               data <- lift (getitem (tile_data res)) ;;
               ret (negb (length data =? 1)%nat)) ;;
  if failed : bool then
    let msg :=
      match tile_msg res with
      | Some m => m
      | None => "Unknown error (probably not existing cache)"
      end in
    self_str <- Cache__str__ ;;
    raise (LoadError ("Cache " ++ self_str ++ " cannot be loaded: " ++ msg))
  else
    data <- lift (result_bind (getitem (tile_data res)) (fun l => index l 0)) ;;
    set_name (tile_name data) ;;;
    type <- lift (Type_.from_string (tile_type_text data)) ;;
    set_type (VType type) ;;;
    set_state (tile_available data) ;;;
    size <- lift (Size.from_string (tile_container_text data)) ;;
    set_size (VSize size) ;;;
    set_difficulty (tile_difficulty_text data) ;;;
    set_terrain (tile_terrain_text data) ;;;
    hidden <- lift (parse_date (tile_hidden data)) ;;
    set_hidden (VDate hidden) ;;;
    set_author (tile_owner_text data) ;;;
    fp <- lift (py_int (tile_fp data)) ;;
    set_favorites (VInt fp) ;;;
    set_pm_only (tile_subrOnly data) ;;;
    data0 <- lift (result_bind (getitem (tile_data res)) (fun l => index l 0)) ;;
    set_guid (tile_g data0) ;;;
    self_str <- Cache__str__ ;;
    logging_call "DEBUG" ("Cache loaded: " ++ self_str).

(** [Cache.load_quick]. *)
Definition load_quick : M unit :=
  getattr "_geocaching" ;;;
  wp <- property_get p_wp ;;
  res <- _request_from tile_server (_urls "tiles_server") [("i", wp)] true ;;
  load_quick_parse res.

(** [Waypoint.from_html] from the rows of the table it looks up. *)
Definition Waypoint_from_table (waypoints_table : option (list (list Cell)))
  : M PyVal :=
  match waypoints_table with
  | Some waypoints_table =>
      d <- waypoints_loop []
             (List.combine (every_other (List.tl waypoints_table))
                           (every_other (List.tl (List.tl waypoints_table)))) ;;
      ret (VDict d)
  | None => ret (VDict [])
  end.

(** The part of [load_by_guid] that fills the fields from the print page. *)
Definition load_by_guid_parse (content : PrintContent) : M unit :=
  name <- lift (deref (print_h2_text content)) ;;
  set_name (VStr name) ;;;
  latlong <- lift (deref (LatLong_Meta_text content)) ;;
  location <- lift (Point_from_string latlong) ;;
  set_location (VPoint location) ;;;
  src <- lift (deref (print_img_src content)) ;;
  type_img <- lift (match src with
                    | Some src => Ok (basename src)
                    | None => Raise TypeError
                    end) ;;
  type <- lift (Type_.from_filename (splitext_root type_img)) ;;
  set_type (VType type) ;;;
  alt <- lift (deref (container_img_alt content)) ;;
  size <- lift (result_bind (index (PyStr.split ": " alt) 1) Size.from_string) ;;
  set_size (VSize size) ;;;
  alts <- lift (deref (DiffTerr_img_alts content)) ;;
  stars <- lift (comprehension star_of_alt alts) ;;
  stars <- lift (unpack2 stars) ;;
  set_difficulty (VFloat (fst stars)) ;;;
  set_terrain (VFloat (snd stars)) ;;;
  placed_by <- lift (deref (Placed_by_text content)) ;;
  author <- lift (index (PyStr.split crlf placed_by) 2) ;;
  set_author (VStr (PyStr.strip author)) ;;;
  hidden_p <- lift (deref (Placed_Date_text content)) ;;
  set_hidden (VStr (PyStr.strip (PyStr.replace "Placed Date:" "" hidden_p))) ;;;
  attributes_raw <-
    lift (comprehension attribute_raw
            (List.map Some (attribute_img_srcs content))) ;;
  attributes <- lift (attributes_dict [] attributes_raw) ;;
  set_attributes (VDict attributes) ;;;
  summary <- lift (deref (Short_Description_text content)) ;;
  set_summary (VStr summary) ;;;
  description <- lift (deref (Long_Description_text content)) ;;
  set_description (VStr description) ;;;
  hint <- lift (deref (uxEncryptedHint_text content)) ;;
  set_hint (VStr hint) ;;;
  favorites <- lift (deref (Favorites_parent_text content)) ;;
  favorites <- lift (index_last (PyStr.split_ws favorites)) ;;
  set_favorites (VStr favorites) ;;;
  waypoints <- Waypoint_from_table (print_table_rows content "Waypoints") ;;
  set_waypoints waypoints.

(** [Cache.load_by_guid]. *)
Definition load_by_guid : M unit :=
  guid <- property_get p_guid ;;
  (if negb (truthy guid) then load_quick else ret tt) ;;;
  getattr "_geocaching" ;;;
  guid <- property_get p_guid ;;
  res <- _request_from print_server (_urls "print_page") [("guid", guid)] false ;;
  if print_Warning res then raise PMOnlyException
  else
    content <- lift (deref (print_Content res)) ;;
    load_by_guid_parse content.

(** [Cache._get_log_page_url]: the template with the GC code in lower
    case. *)
Definition _get_log_page_url : M string :=
  wp <- property_get p_wp ;;
  wp <- lift (str_methods wp) ;;
  ret (PyStr.replace "{wp}" (PyStr.lower wp) (_urls "log_page")).

(** [{i["name"]: i.get("value", "") for i in hidden_inputs}]. *)
Fixpoint inputs_dict (acc : list (PyVal * PyVal))
    (inputs : list (option string * option string))
  : Result (list (PyVal * PyVal)) :=
  match inputs with
  | [] => Ok acc
  | (name, value) :: rest =>
      result_bind (getitem name) (fun name =>
      inputs_dict
        (dict_setitem name
           (VStr (match value with Some v => v | None => "" end)) acc)
        rest)
  end.

(** [Cache._load_log_page]. *)
Definition _load_log_page : M (list string * list (PyVal * PyVal)) :=
  getattr "_geocaching" ;;;
  url <- _get_log_page_url ;;
  log_page <- _request_from log_page_server url [] false ;;
  options <- lift (deref (LogTypeId_option_values log_page)) ;;
  valid_types <- lift (comprehension getitem options) ;;
  hidden_inputs <- lift (inputs_dict [] (hidden_inputs log_page)) ;;
  ret (valid_types, hidden_inputs).

(** [Cache.post_log] up to its last line: the form it assembles and the
    URL it is about to post it to. *)
Definition post_log_form (log : LogFields) : M Posted :=
  if negb (truthy (VStr (log_text log))) then
    raise (ValueError "Log text is empty")
  else
    page <- _load_log_page ;;
    let valid_types := fst page in
    let hidden_inputs := snd page in
    if negb (existsb (String.eqb (log_type_value log)) valid_types) then
      raise (ValueError "The cache does not accept this type of log")
    else
      let post := dict_setitem "LogTypeId" (VStr (log_type_value log))
                    hidden_inputs in
      let post := dict_setitem "LogDate" (VStr (log_visited_ymd log)) post in
      let post := dict_setitem "LogText" (VStr (log_text log)) post in
      getattr "_geocaching" ;;;
      url <- _get_log_page_url ;;
      ret {| post_url := url; post_data := post |}.

(** The entity and its surroundings together with the forms posted so
    far. *)
Record Outbox : Type := mkOutbox
  { entity : World;
    posts : list Posted }.

(** [Cache.post_log]: the form is posted, which counts as a request, and
    the answer of the handler is dropped unless it is an exception. *)
Definition post_log (log : LogFields) (o : Outbox) : Result unit * Outbox :=
  match post_log_form log (entity o) with
  | (Ok form, w) =>
      (form_handler form,
       mkOutbox (with_request {| req_url := post_url form; req_params := [];
                                 req_expect_json := false |} w)
                (posts o ++ [form])%list)
  | (Raise e, w) => (Raise e, mkOutbox w (posts o))
  end.

(** The setter of [Waypoint.location]. *)
Definition Waypoint_set_location (location : PyVal) (wpt : Waypoint.t)
  : Result Waypoint.t :=
  let store p :=
    Ok (Waypoint.mk (Waypoint._identifier wpt) (Waypoint._type wpt) (Some p)
          (Waypoint._note wpt)) in
  if type_is location T_str then
    result_bind (str_methods location) (fun s =>
    result_bind (Point_from_string s) store)
  else if negb (type_is location T_Point) then Raise (ValueError not_a_point)
  else
    match location with
    | VPoint p => store p
    | _ => Raise (ValueError not_a_point)
    end.

(** *** Notions the further properties are stated with *)

(** The waypoint a pair of table rows stands for, with its identifier:
    cells 4, 2, 6 and 10 of the two rows together hold the identifier, the
    image with the type, the coordinates and the note. *)
Definition waypoint_entry (rows : list Cell * list Cell)
  : option (string * Waypoint.t) :=
  let columns := (fst rows ++ snd rows)%list in
  match nth_error columns 4, nth_error columns 2,
        nth_error columns 6, nth_error columns 10 with
  | Some c4, Some c2, Some c6, Some c10 =>
      match td_img_title c2 with
      | Some type =>
          let identifier := PyStr.strip (td_text c4) in
          Some (identifier,
                Waypoint.mk identifier type
                  (match Point_new (PyStr.strip (td_text c6)) with
                   | Ok p => Some p
                   | Raise _ => None
                   end)
                  (PyStr.strip (td_text c10)))
      | None => None
      end
  | _, _, _, _ => None
  end.

(** The pairs of rows [Waypoint.from_html] walks: the rows after the
    header, two by two. *)
Definition waypoint_rows (waypoints_table : list (list Cell))
  : list (list Cell * list Cell) :=
  List.combine (every_other (List.tl waypoints_table))
               (every_other (List.tl (List.tl waypoints_table))).

(** The first [limit] items of a list, and whether the limit lets a loop
    over [n] items run to its end. *)
Definition take_first {A} (limit : Limit) (l : list A) : list A :=
  match limit with
  | Infinite => l
  | Finite n => firstn (Z.to_nat n) l
  end.

Definition within_limit (limit : Limit) (n : nat) : bool :=
  match limit with
  | Infinite => true
  | Finite k => (n <=? Z.to_nat k)%nat
  end.

(** The trackable [load_trackables] builds of a name and a URL. *)
Definition make_trackable (name_url : string * string) : Result Trackable :=
  result_bind Trackable_new (fun t =>
  result_bind (Trackable_set_name (fst name_url) t)
              (Trackable_set_url (snd name_url))).

(** The request [_logbook_get_page] makes. *)
Definition logbook_request (tkn : PyVal) (page per_page : Z) : Request :=
  {| req_url := "seek/geocache.logbook";
     req_params := [ ("tkn", tkn); ("idx", VInt (page + 1));
                     ("num", VInt per_page); ("decrypt", VStr "true") ];
     req_expect_json := true |}.

(** The requests of [load_quick], [load_by_guid] and [post_log]. *)
Definition tile_request (wp : PyVal) : Request :=
  {| req_url := "http://tiles01.geocaching.com/map.details";
     req_params := [("i", wp)];
     req_expect_json := true |}.

Definition print_request (guid : PyVal) : Request :=
  {| req_url := "seek/cdpf.aspx";
     req_params := [("guid", guid)];
     req_expect_json := false |}.

Definition log_page_request (url : string) : Request :=
  {| req_url := url; req_params := []; req_expect_json := false |}.

(** The fields [load_quick] and [load_by_guid] fill. *)
Definition quick_fields : list string :=
  [ "_name"; "_type"; "_state"; "_size"; "_difficulty"; "_terrain";
    "_hidden"; "_author"; "_favorites"; "_pm_only"; "_guid" ].

Definition print_fields : list string :=
  [ "_name"; "_location"; "_type"; "_size"; "_difficulty"; "_terrain";
    "_author"; "_hidden"; "_attributes"; "_summary"; "_description";
    "_hint"; "_favorites"; "_waypoints" ].

End Methods.

(* ===================================================================== *)
(** ** A session to run the methods in *)
(* ===================================================================== *)

(** Stand-ins for the collaborators, a session object, pages and a logbook,
    on which the methods can be evaluated. *)
Module Example.

(** A string of decimal digits as a number. *)
Fixpoint digits_value (acc : Z) (s : string) : option Z :=
  match s with
  | EmptyString => Some acc
  | String c s' =>
      let n := nat_of_ascii c in
      if ((48 <=? n) && (n <=? 57))%nat
      then digits_value (10 * acc + Z.of_nat (n - 48)) s'
      else None
  end.

Definition number (s : string) : option Z :=
  match s with
  | EmptyString => None
  | _ => digits_value 0 s
  end.

Definition integer (s : string) : Result Z :=
  match number (PyStr.strip s) with
  | Some n => Ok n
  | None => Raise BuiltinValueError
  end.

(** Decimals with at most one digit after the point. *)
Definition decimal (s : string) : Result Q :=
  match PyStr.split "." (PyStr.strip s) with
  | [i] =>
      match number i with
      | Some n => Ok (inject_Z n)
      | None => Raise BuiltinValueError
      end
  | [i; f] =>
      match number i, number f with
      | Some n, Some m =>
          if (String.length f =? 1)%nat
          then Ok (Qred (inject_Z n + inject_Z m / 10))
          else Raise BuiltinValueError
      | _, _ => Raise BuiltinValueError
      end
  | _ => Raise BuiltinValueError
  end.

(** Dates written year-month-day. *)
Definition iso_date (s : string) : Result Date :=
  match List.map number (PyStr.split "-" (PyStr.strip s)) with
  | [Some y; Some m; Some d] => Ok (mkDate y m d)
  | _ => Raise (ValueError "Unknown date format.")
  end.

(** Coordinates written as two decimals separated by a comma. *)
Definition coordinates (s : string) : option Point :=
  match List.map decimal (PyStr.split "," s) with
  | [Ok lat; Ok lon] => Some (mkPoint lat lon)
  | _ => None
  end.

Definition point_from_string (s : string) : Result Point :=
  match coordinates s with
  | Some p => Ok p
  | None => Raise (ValueError "Could not parse the coordinates.")
  end.

Definition point_new (s : string) : Result Point :=
  match coordinates s with
  | Some p => Ok p
  | None => Raise BuiltinValueError
  end.

Definition caesar13_char (c : ascii) : ascii :=
  let n := nat_of_ascii c in
  if ((97 <=? n) && (n <=? 122))%nat
  then ascii_of_nat (97 + (n - 97 + 13) mod 26)
  else if ((65 <=? n) && (n <=? 90))%nat
  then ascii_of_nat (65 + (n - 65 + 13) mod 26)
  else c.

Definition caesar13 : string -> string := PyStr.map_chars caesar13_char.

(** The text between the quotes of the first [userToken = '...']. *)
Definition user_tokens (js : string) : list string :=
  match PyStr.split "userToken = '" js with
  | _ :: after :: _ =>
      match PyStr.split "'" after with
      | EmptyString :: _ => []
      | token :: _ :: _ => [token]
      | _ => []
      end
  | _ => []
  end.

Definition log_type (filename : string) : Result string :=
  if String.eqb filename "2" then Ok "found_it"
  else if String.eqb filename "3" then Ok "didnt_find_it"
  else if String.eqb filename "4" then Ok "note"
  else Raise BuiltinValueError.

(** A [Log] or a [Trackable] as the list of the fields assigned so far. *)
Definition assign (field value : string) (object : list (string * string))
  : Result (list (string * string)) :=
  Ok (object ++ [(field, value)])%list.

Definition assign_date (field value : string) (object : list (string * string))
  : Result (list (string * string)) :=
  match iso_date value with
  | Ok _ => assign field value object
  | Raise e => Raise e
  end.

#[local] Instance collaborators : Collaborators :=
  {| parse_date := iso_date;
     Point_from_string := point_from_string;
     Point_new := point_new;
     rot13 := caesar13;
     float_of_str := decimal;
     int_of_str := integer;
     repr := fun _ => "<object>";
     findall_userToken := user_tokens;
     LogType := string;
     LogType_from_filename := log_type;
     Log := list (string * string);
     Log_new := [];
     Log_set_type := assign "type";
     Log_set_text := fun text => assign "text" (PyStr.strip text);
     Log_set_visited := assign_date "visited";
     Log_set_author := fun author => assign "author" (PyStr.strip author);
     Trackable := list (string * string);
     Trackable_new := Ok [];
     Trackable_set_name := assign "name";
     Trackable_set_url := assign "url" |}.

Definition geocaching : PyVal :=
  VObject "pycaching.geocaching.Geocaching" ["_request"].

(** A full detail page.  Its found-status element is there, with a text
    that has neither marker phrase. *)
Definition detail_page : Document :=
  {| pmo_banner := false;
     divContentMain := None;
     cacheDetails := Some
       {| li_gccode_text := None; h1_text := None; uxCacheBy_text := None;
          ul_hide_details_text := None;
          h2_text := Some "Journey to the Centre";
          a_texts := ["profile"; "Jules"];
          img_src := Some "/images/WptTypes/2.gif";
          minorCacheDetails_div_texts :=
            Some ["A cache by Jules"; "Hidden : 2016-05-04"] |};
     title_string := Some "GC1PAR2 Journey to the Centre";
     CacheSize_img_src := Some "/images/icons/container/small.gif";
     CacheStarLabels_img_alts := Some [Some "2.5 out of 5"; Some "4 out of 5"];
     Warning_NoBottomSpacing_text := None;
     NavigationWidgets :=
       [ {| widget_img_srcs :=
              [ Some "/images/attributes/dogs-yes.gif";
                Some "/images/attributes/kids-no.gif";
                Some "/images/attributes/parking-blank.gif" ];
            widget_a_count := 0%nat; widget_view_all_href := None |};
         {| widget_img_srcs := []; widget_a_count := 1%nat;
            widget_view_all_href := None |} ];
     uxLatLon_text := Some "49.5,14.2";
     OldWarning := false;
     FoundStatus_text := Some "Did Not Find";
     UserSuppliedContent :=
       [ ("A short walk.", "<div>A short walk.</div>");
         ("Bring a torch.", "<div><b>Bring</b> a torch.</div>") ];
     div_hint_text := Some " haqre gur fgbar ";
     favorite_value_text := Some "12";
     script_texts := ["var x = 1;"; "userToken = 'ABCDEF';"];
     table_rows := fun _ => None;
     tables_links := [] |}.

(** A page with the PM-only banner and the reduced field set. *)
Definition pm_only_page : Document :=
  {| pmo_banner := true;
     divContentMain := Some
       {| li_gccode_text := Some " GC2PMO ";
          h1_text := Some " Twenty Thousand Leagues ";
          uxCacheBy_text := Some "A cache by Nemo";
          ul_hide_details_text :=
            Some (PyStr.join newline
                    [ "Difficulty"; ""; "3.5"; "Terrain"; ""; "2";
                      "Size"; ""; "Regular"; "Favorites"; ""; "7" ]);
          h2_text := None; a_texts := [];
          img_src := Some "/images/WptTypes/3.gif";
          minorCacheDetails_div_texts := None |};
     cacheDetails := None;
     title_string := Some "Premium Member Only Cache";
     CacheSize_img_src := None;
     CacheStarLabels_img_alts := None;
     Warning_NoBottomSpacing_text := None;
     NavigationWidgets := [];
     uxLatLon_text := None;
     OldWarning := false;
     FoundStatus_text := None;
     UserSuppliedContent := [];
     div_hint_text := None;
     favorite_value_text := None;
     script_texts := [];
     table_rows := fun _ => None;
     tables_links := [] |}.

(** An entity made by [Cache(geocaching, " gc1par2 ")] against a server
    that answers with the full page, and the same after one [load]. *)
Definition fresh : World :=
  snd (Cache__init__ geocaching (VStr " gc1par2 ") []
         (new_world (fun _ => Html detail_page))).

Definition loaded : World := snd (load fresh).

(** An entity against a server that answers with the PM-only page. *)
Definition restricted : World :=
  snd (Cache__init__ geocaching (VStr "GC2PMO") []
         (new_world (fun _ => Html pm_only_page))).

(** A logbook of two pages of 25 entries and an empty third page, and an
    entity that has its logbook token. *)
Definition entry : LogData :=
  {| LogTypeImage := "2.png";
     LogText := " Found it quickly. ";
     Visited := "2016-05-04";
     UserName := "Axel" |}.

Definition logbook_pages : list (list LogData) :=
  [ List.repeat entry 25; List.repeat entry 25; [] ].

Definition logbook_reply (k : nat) : Response :=
  Json {| status := "success"; msg := None; data := nth k logbook_pages [] |}.

Definition with_logbook : World :=
  snd (Cache__init__ geocaching (VStr "GC1PAR2")
         [(VStr "_logbook_token", VStr "ABCDEF")] (new_world logbook_reply)).

(** The icon tokens of the specification and one with an unknown name. *)
Definition icons : list string :=
  ["dogs-yes"; "kids-no"; "parking-blank"; "bogus-yes"].

Definition icon_widget : Widget :=
  {| widget_img_srcs := List.map Some icons;
     widget_a_count := 0%nat;
     widget_view_all_href := None |}.

Definition entry_log : list (string * string) :=
  [ ("type", "found_it"); ("text", "Found it quickly.");
    ("visited", "2016-05-04"); ("author", "Axel") ].

(** A page like [d] with another title, waypoint table and link tables. *)
Definition amend (d : Document) (title : option string)
    (waypoints_table : option (list (list Cell)))
    (links : list (list Link)) : Document :=
  {| pmo_banner := pmo_banner d;
     divContentMain := divContentMain d;
     cacheDetails := cacheDetails d;
     title_string := title;
     CacheSize_img_src := CacheSize_img_src d;
     CacheStarLabels_img_alts := CacheStarLabels_img_alts d;
     Warning_NoBottomSpacing_text := Warning_NoBottomSpacing_text d;
     NavigationWidgets := NavigationWidgets d;
     uxLatLon_text := uxLatLon_text d;
     OldWarning := OldWarning d;
     FoundStatus_text := FoundStatus_text d;
     UserSuppliedContent := UserSuppliedContent d;
     div_hint_text := div_hint_text d;
     favorite_value_text := favorite_value_text d;
     script_texts := script_texts d;
     table_rows := fun table_id =>
       if String.eqb table_id "ctl00_ContentBody_Waypoints"
       then waypoints_table else None;
     tables_links := links |}.

(** The full page with a title that has no GC code, and an entity served
    with it. *)
Definition untitled_page : Document :=
  amend detail_page (Some "Geocaching - Page not found") None [].

Definition mistitled : World :=
  snd (Cache__init__ geocaching (VStr "GC1PAR2") []
         (new_world (fun _ => Html untitled_page))).

(** An entity whose server is down. *)
Definition offline : World :=
  snd (Cache__init__ geocaching (VStr "GC1PAR2") []
         (new_world (fun _ => HttpError "503"))).

(** A table of two waypoints after its header, the second with
    coordinates that do not parse. *)
Definition cell (text : string) : Cell :=
  {| td_text := text; td_img_title := None |}.

Definition icon (title : string) : Cell :=
  {| td_text := ""; td_img_title := Some (Some title) |}.

Definition waypoints_table : list (list Cell) :=
  [ [cell "Prefix"; cell "Lookup"; cell "Name"; cell "Coordinate"];
    [ cell ""; cell ""; icon "Parking Area"; cell "PK"; cell " PK1PAR2 ";
      cell "Parking"; cell " 49.6,14.3 "; cell "" ];
    [ cell ""; cell "Note:"; cell " Mind the gate. " ];
    [ cell ""; cell ""; icon "Final Location"; cell "FN"; cell " FN1PAR2 ";
      cell "Final"; cell " ??? "; cell "" ];
    [ cell ""; cell "Note:"; cell "" ] ].

Definition waypoints_page : Document :=
  amend detail_page (title_string detail_page) (Some waypoints_table) [].

(** The listing of the trackables of a cache, and an entity that knows its
    URL. *)
Definition track_one : Link :=
  {| href := Some "/track/details.aspx?id=1";
     link_html := "<a href=/track/details.aspx?id=1>Travel Bug One</a>" |}.

Definition profile_link : Link :=
  {| href := Some "/profile/?guid=7";
     link_html := "<a href=/profile/?guid=7>Axel</a>" |}.

Definition track_two : Link :=
  {| href := Some "/track/details.aspx?id=2";
     link_html := "<a href=/track/details.aspx?id=2>Coin Two</a>" |}.

Definition listing_page : Document :=
  amend detail_page None None [ []; [track_one; profile_link; track_two] ].

Definition with_listing : World :=
  snd (Cache__init__ geocaching (VStr "GC1PAR2")
         [(VStr "_trackable_page_url", VStr "track/search.aspx?wid=1")]
         (new_world (fun _ => Html listing_page))).

(** The services: a tile server and a print page that know one cache, a
    log page, and a handler that takes every form. *)
Definition asked (rq : Request) (key value : string) : bool :=
  existsb (fun kv =>
             String.eqb (fst kv) key
             && match snd kv with
                | VStr s => String.eqb s value
                | _ => false
                end)
          (req_params rq).

Definition guid : string := "0a1b2c3d-0000-4abc-8def-0123456789ab".

Definition tile_item : TileData :=
  {| tile_name := VStr " Journey to the Centre ";
     tile_type_text := "Traditional Cache";
     tile_available := VBool true;
     tile_container_text := "Small";
     tile_difficulty_text := VStr "2.5";
     tile_terrain_text := VInt 4;
     tile_hidden := "2016-05-04";
     tile_owner_text := VStr "Jules";
     tile_fp := VStr "12";
     tile_subrOnly := VBool false;
     tile_g := VStr guid |}.

Definition tile_found : TileReply :=
  {| tile_status := "success"; tile_msg := None; tile_data := Some [tile_item] |}.

Definition tile_failed : TileReply :=
  {| tile_status := "failed"; tile_msg := Some "No such cache";
     tile_data := None |}.

Definition print_content : PrintContent :=
  {| print_h2_text := Some "Journey to the Centre";
     LatLong_Meta_text := Some "49.5,14.2";
     print_img_src := Some (Some "/images/WptTypes/2.gif");
     container_img_alt := Some "Size: Small";
     DiffTerr_img_alts := Some [Some "2.5 out of 5"; Some "4 out of 5"];
     Placed_by_text :=
       Some ("Placed by:" ++ crlf ++ "    " ++ crlf ++ "  Jules  " ++ crlf);
     Placed_Date_text := Some "Placed Date: 2016-05-04";
     attribute_img_srcs := ["/images/attributes/dogs-yes.gif"];
     Short_Description_text := Some " A short walk. ";
     Long_Description_text := Some "Bring a torch.";
     uxEncryptedHint_text := Some " haqre gur fgbar ";
     Favorites_parent_text := Some "Favorites: 12";
     print_table_rows := fun _ => None |}.

Definition log_page : LogPage :=
  {| LogTypeId_option_values := Some [Some "2"; Some "3"; Some "4"];
     hidden_inputs :=
       [ (Some "__RequestVerificationToken", Some "TOKEN");
         (Some "LogText", Some "old text");
         (Some "submit", None) ] |}.

#[local] Instance services : Services :=
  {| tile_server := fun rq =>
       Ok (if asked rq "i" "GC1PAR2" then tile_found else tile_failed);
     print_server := fun rq =>
       Ok {| print_Warning := negb (asked rq "guid" guid);
             print_Content := Some print_content |};
     log_page_server := fun rq =>
       if String.eqb (req_url rq) "play/geocache/gc1par2/log"
       then Ok log_page else Raise (Error "404");
     form_handler := fun _ => Ok tt |}.

(** Entities with a GUID: the one the print page knows, and another. *)
Definition with_guid : World :=
  snd (Cache__init__ geocaching (VStr "GC1PAR2") [(VStr "guid", VStr guid)]
         (new_world (fun _ => Html detail_page))).

Definition with_other_guid : World :=
  snd (Cache__init__ geocaching (VStr "GC2PMO")
         [(VStr "guid", VStr "ffffffff-0000-4abc-8def-0123456789ab")]
         (new_world (fun _ => Html pm_only_page))).

(** An entity the tile server does not know. *)
Definition unknown : World :=
  snd (Cache__init__ geocaching (VStr "GC404") []
         (new_world (fun _ => HttpError "404"))).

(** A log to post. *)
Definition found_it : LogFields :=
  {| log_text := "Found it quickly.";
     log_type_value := "2";
     log_visited_ymd := "2016-05-04" |}.

End Example.


(* ===================================================================== *)
(** * Properties *)
(* ===================================================================== *)

Section Properties.

Context `{collab : Collaborators}.

(** ** Python string methods *)

Example split_slash :
  PyStr.split "/" "/images/attributes/dogs-yes.gif"
  = [""; "images"; "attributes"; "dogs-yes.gif"].
Proof. reflexivity. Qed.

Example rsplit1_dash : PyStr.rsplit1 "-" "s-tool-yes.gif" = ["s-tool"; "yes.gif"].
Proof. reflexivity. Qed.

Example strip_upper : PyStr.strip (PyStr.upper "  gc1par2 ") = "GC1PAR2".
Proof. reflexivity. Qed.

Example replace_cache : PyStr.replace " Cache" "" "Traditional Cache" = "Traditional".
Proof. reflexivity. Qed.


(** ** The enumerations *)

Lemma Type_of_value_value (m : Type_.t) : Type_.of_value (Type_.value m) = Ok m.
Proof. destruct m; reflexivity. Qed.

Lemma Type_value_not_alias (m : Type_.t) : Type_.value m <> "earthcache".
Proof. destruct m; discriminate. Qed.

(** C8. The constructors of the enumerations round-trip: for every member
    [m] of [Type] whose value is not the special-cased file name
    ["earthcache"], [Type.from_filename(m.value)] is a member with the
    value of [m] (it is [m] itself); and for every member [s] of [Size],
    [Size.from_string(s.value)] is [s]. *)
Theorem enum_constructors_roundtrip :
  (forall m : Type_.t,
      Type_.value m <> "earthcache" ->
      exists m', Type_.from_filename (Type_.value m) = Ok m'
                 /\ Type_.value m' = Type_.value m /\ m' = m)
  /\ (forall s : Size.t, Size.from_string (Size.value s) = Ok s).
Proof.
  split.
  - intros m _. exists m. split; [|split; reflexivity].
    unfold Type_.from_filename.
    destruct (String.eqb (Type_.value m) "earthcache") eqn:E.
    + apply String.eqb_eq in E. exfalso. exact (Type_value_not_alias m E).
    + apply Type_of_value_value.
  - intros s. destruct s; reflexivity.
Qed.

(** ** The scale of difficulty and terrain *)

Lemma Qmod_multiple_of_half (q : Q) :
  (Qmod (q * 10) 5 == 0 <-> exists k : Z, q == inject_Z k / 2)%Q.
Proof.
  unfold Qmod. split.
  - intros H. exists (Qfloor (q * 10 / 5)).
    set (k := inject_Z (Qfloor (q * 10 / 5))) in *.
    assert (E : (q * 10 == 5 * k)%Q).
    { rewrite <- (Qplus_0_r (5 * k)). rewrite <- H. ring. }
    assert (E2 : (q == (q * 10) / 10)%Q) by (field; discriminate).
    rewrite E2, E. field; discriminate.
  - intros [k Hk].
    assert (E : (q * 10 / 5 == inject_Z k)%Q) by (rewrite Hk; field; discriminate).
    rewrite (Qfloor_comp _ _ E), Qfloor_Z, Hk. field; discriminate.
Qed.

Lemma out_of_scale_false (q : Q) :
  out_of_scale q = false <-> (1 <= q /\ q <= 5 /\ Qmod (q * 10) 5 == 0)%Q.
Proof.
  unfold out_of_scale.
  rewrite !orb_false_iff, !negb_false_iff, !Qle_bool_iff, Qeq_bool_iff.
  tauto.
Qed.

Lemma half_steps_in_range (q : Q) (k : Z) :
  (q == inject_Z k / 2)%Q -> ((1 <= q /\ q <= 5)%Q <-> 2 <= k <= 10).
Proof.
  intros E. rewrite E. unfold Qle, Qdiv, Qmult, Qinv, inject_Z. simpl. lia.
Qed.

(** The scale in the words of the specification: the number lies in the
    closed interval from 1.0 to 5.0 and ten times the number, modulo 5,
    is 0. *)
Definition on_scale (q : Q) : Prop :=
  (1 <= q /\ q <= 5 /\ Qmod (q * 10) 5 == 0)%Q.

(** The three outcomes of assigning [v] to [difficulty] and to [terrain]:
    the number [q] is stored as a float; the validation error is raised; the
    exception [e] is raised.  In the last two the world is left as it
    was. *)
Definition scale_stores (v : PyVal) (q : Q) (w : World) : Prop :=
  set_difficulty v w = (Ok tt, with_self (insert "_difficulty" (VFloat q)) w)
  /\ set_terrain v w = (Ok tt, with_self (insert "_terrain" (VFloat q)) w).

Definition scale_refuses (v : PyVal) (w : World) : Prop :=
  (exists m, set_difficulty v w = (Raise (ValueError m), w))
  /\ (exists m, set_terrain v w = (Raise (ValueError m), w)).

Definition scale_fails (v : PyVal) (e : exn) (w : World) : Prop :=
  set_difficulty v w = (Raise e, w) /\ set_terrain v w = (Raise e, w).

Lemma on_scale_half_steps (q : Q) :
  on_scale q <-> exists k : Z, 2 <= k <= 10 /\ (q == inject_Z k / 2)%Q.
Proof.
  unfold on_scale. split.
  - intros (H1 & H5 & Hm). apply Qmod_multiple_of_half in Hm as [k Hk].
    exists k. split; [|exact Hk]. apply (half_steps_in_range q k Hk). tauto.
  - intros (k & Hr & Hk).
    pose proof (proj2 (half_steps_in_range q k Hk) Hr) as [? ?].
    split; [assumption|]. split; [assumption|].
    apply Qmod_multiple_of_half. eauto.
Qed.

Lemma on_scale_integer (z : Z) : on_scale (inject_Z z) <-> 1 <= z <= 5.
Proof.
  rewrite on_scale_half_steps. split.
  - intros (k & Hr & Hk).
    unfold Qeq, Qdiv, Qmult, Qinv, inject_Z in Hk. simpl in Hk. lia.
  - intros Hz. exists (2 * z). split; [lia|].
    unfold Qeq, Qdiv, Qmult, Qinv, inject_Z. simpl. lia.
Qed.

Lemma float_overflow_above_scale : 5 < float_overflow.
Proof. vm_compute. reflexivity. Qed.

(** What the two setters do, by what [float] makes of the value. *)
Lemma scale_setters_by_float (v : PyVal) (w : World) :
  match py_float v with
  | Ok q =>
      if out_of_scale q then scale_refuses v w else scale_stores v q w
  | Raise e => scale_fails v e w
  end.
Proof.
  unfold scale_refuses, scale_stores, scale_fails, set_difficulty, set_terrain,
    bind, lift, raise, setattr.
  destruct (py_float v) as [q|e]; [destruct (out_of_scale q)|];
    split; eauto.
Qed.

Lemma scale_converted (v : PyVal) (q : Q) (w : World) :
  py_float v = Ok q ->
  (on_scale q <-> scale_stores v q w) /\ (~ on_scale q <-> scale_refuses v w).
Proof.
  intros Hv. pose proof (scale_setters_by_float v w) as H. rewrite Hv in H.
  pose proof (out_of_scale_false q) as Hacc. fold (on_scale q) in Hacc.
  destruct (out_of_scale q) eqn:E.
  - assert (Hno : ~ on_scale q) by (rewrite <- Hacc; discriminate).
    split; split; try tauto.
    intros [Hd _]. destruct H as [[m Hm] _]. congruence.
  - assert (Hyes : on_scale q) by (apply Hacc; reflexivity).
    split; split; try tauto.
    intros [[m Hm] _]. destruct H as [Hd _]. congruence.
Qed.

Lemma scale_unconverted (v : PyVal) (e : exn) (w : World) :
  py_float v = Raise e -> scale_fails v e w.
Proof.
  intros Hv. pose proof (scale_setters_by_float v w) as H. rewrite Hv in H.
  exact H.
Qed.

Lemma py_float_int (z : Z) :
  (Z.abs z < float_overflow -> py_float (VInt z) = Ok (inject_Z z))
  /\ (float_overflow <= Z.abs z -> py_float (VInt z) = Raise OverflowError).
Proof.
  cbn [py_float]. split; intros H.
  - apply Z.ltb_lt in H. rewrite H. reflexivity.
  - apply Z.ltb_ge in H. rewrite H. reflexivity.
Qed.

(** C7 (as the code has it). The setters of [difficulty] and [terrain]
    first convert the value with [float].  For every value that [float]
    converts to a number [q] (floats are read as exact rationals): the
    assignment succeeds, storing [q], if and only if [1 <= q <= 5] and
    [q * 10 % 5 == 0], that is if and only if [q] is one of the multiples
    of 0.5 from 1.0 to 5.0; any other such value raises the validation
    error.  [float] converts a float to itself, an integer below
    [float_overflow] in absolute value to that number, [True] to 1.0 and
    [False] to 0.0, and a string to what its text reads as.  A value that
    [float] does not convert raises the exception of [float], not the
    validation error: [OverflowError] for an integer from [float_overflow]
    on, the exception of the conversion for a string, [TypeError] for
    [None], a dictionary, a date, a point, a member of an enumeration, a
    waypoint or another object.  Nothing is stored when an exception is
    raised.  Of the values the specification names, 1.0, 2.5 and 5.0 are
    on the scale and 0.5, 5.5 and 2.3 are not. *)
Theorem difficulty_terrain_accept_iff (v : PyVal) (w : World) :
  (forall q, on_scale q
             <-> exists k : Z, 2 <= k <= 10 /\ (q == inject_Z k / 2)%Q)
  /\ (forall q, py_float v = Ok q ->
        (on_scale q <-> scale_stores v q w)
        /\ (~ on_scale q <-> scale_refuses v w))
  /\ (forall e, py_float v = Raise e -> scale_fails v e w)
  /\ (forall q,
        (on_scale q <-> scale_stores (VFloat q) q w)
        /\ (~ on_scale q <-> scale_refuses (VFloat q) w))
  /\ (forall z,
        (1 <= z <= 5 <-> scale_stores (VInt z) (inject_Z z) w)
        /\ (~ 1 <= z <= 5 /\ Z.abs z < float_overflow
            <-> scale_refuses (VInt z) w)
        /\ (float_overflow <= Z.abs z
            <-> scale_fails (VInt z) OverflowError w))
  /\ scale_stores (VBool true) 1 w
  /\ scale_refuses (VBool false) w
  /\ (forall s q, float_of_str s = Ok q ->
        (on_scale q <-> scale_stores (VStr s) q w)
        /\ (~ on_scale q <-> scale_refuses (VStr s) w))
  /\ (forall s e, float_of_str s = Raise e -> scale_fails (VStr s) e w)
  /\ (forall cls b,
        set_difficulty (VInstance cls b) w = set_difficulty b w
        /\ set_terrain (VInstance cls b) w = set_terrain b w)
  /\ match v with
     | VFloat _ | VInt _ | VBool _ | VStr _ | VInstance _ _ => True
     | _ => scale_fails v TypeError w
     end
  /\ (on_scale 1 /\ on_scale (5 # 2) /\ on_scale 5
      /\ ~ on_scale (1 # 2) /\ ~ on_scale (11 # 2) /\ ~ on_scale (23 # 10)).
Proof.
  split; [exact on_scale_half_steps|].
  split; [intros q; apply scale_converted|].
  split; [intros e; apply scale_unconverted|].
  split; [intros q; apply scale_converted; reflexivity|].
  split.
  { intros z. pose proof float_overflow_above_scale as Hbig.
    destruct (py_float_int z) as [Hsmall Hlarge].
    destruct (Z_lt_le_dec (Z.abs z) float_overflow) as [Hz|Hz].
    - destruct (scale_converted (VInt z) (inject_Z z) w (Hsmall Hz))
        as [Hs Hr].
      rewrite on_scale_integer in Hs, Hr.
      split; [exact Hs|]. split; [rewrite <- Hr; tauto|].
      split; [lia|]. intros [Hd _].
      pose proof (scale_setters_by_float (VInt z) w) as H.
      rewrite (Hsmall Hz) in H.
      destruct (out_of_scale (inject_Z z)).
      + destruct H as [[m Hm] _]. congruence.
      + destruct H as [Hm _]. congruence.
    - pose proof (scale_unconverted (VInt z) OverflowError w (Hlarge Hz))
        as Hf.
      split; [|split].
      + split; [lia|]. intros [Hd _]. destruct Hf as [Hf _]. congruence.
      + split; [lia|]. intros [[m Hm] _]. destruct Hf as [Hf _]. congruence.
      + tauto. }
  split.
  { destruct (scale_converted (VBool true) 1 w eq_refl) as [Hs _].
    apply Hs. repeat split; try discriminate. }
  split.
  { destruct (scale_converted (VBool false) 0 w eq_refl) as [_ Hr].
    apply Hr. intros [H _]. apply H. reflexivity. }
  split; [intros s q Hs; apply scale_converted; exact Hs|].
  split; [intros s e Hs; apply scale_unconverted; exact Hs|].
  split; [intros cls b; split; reflexivity|].
  split; [destruct v; try exact I; apply scale_unconverted; reflexivity|].
  assert (Hon : forall q, out_of_scale q = false -> on_scale q)
    by (intros q; apply out_of_scale_false).
  assert (Hoff : forall q, out_of_scale q = true -> ~ on_scale q).
  { intros q E H. apply out_of_scale_false in H. congruence. }
  split; [apply Hon; reflexivity|]. split; [apply Hon; reflexivity|].
  split; [apply Hon; reflexivity|]. split; [apply Hoff; reflexivity|].
  split; apply Hoff; reflexivity.
Qed.

(** The values the specification names: 1.0, 2.5 and 5.0 are on the scale,
    0.5, 5.5 and 2.3 are not. *)
Example scale_examples :
  out_of_scale 1 = false /\ out_of_scale (5 # 2) = false
  /\ out_of_scale 5 = false /\ out_of_scale (1 # 2) = true
  /\ out_of_scale (11 # 2) = true /\ out_of_scale (23 # 10) = true.
Proof. repeat split; reflexivity. Qed.

(** ** Validation in the setters *)

Ltac run :=
  unfold bind, lift, raise, ret, setattr, getattr, self_hasattr,
         logging_call, try_except in *.

Lemma type_is_false (v : PyVal) (c : PyType) :
  type_of v <> c -> type_is v c = false.
Proof. intros H. unfold type_is. apply bool_decide_eq_false. exact H. Qed.

Lemma type_is_true (v : PyVal) (c : PyType) :
  type_of v = c -> type_is v c = true.
Proof. intros H. unfold type_is. apply bool_decide_eq_true. exact H. Qed.





(** ** Attributes from icons *)

Lemma dict_get_setitem_eq k v l : dict_get k (dict_setitem k v l) = Some v.
Proof.
  induction l as [|[k' v'] l IH]; simpl.
  - rewrite String.eqb_refl. reflexivity.
  - destruct k'; simpl; try exact IH.
    destruct (String.eqb s k) eqn:E; simpl; rewrite E; [reflexivity|exact IH].
Qed.

Lemma dict_get_setitem_ne k k' v l :
  k <> k' -> dict_get k' (dict_setitem k v l) = dict_get k' l.
Proof.
  intros Hne. induction l as [|[k0 v0] l IH]; simpl.
  - destruct (String.eqb k k') eqn:E; [|reflexivity].
    apply String.eqb_eq in E. contradiction.
  - destruct k0; simpl; try exact IH.
    destruct (String.eqb s k) eqn:E; simpl.
    + apply String.eqb_eq in E. subst s.
      destruct (String.eqb k k') eqn:E'; [|reflexivity].
      apply String.eqb_eq in E'. contradiction.
    + destruct (String.eqb s k'); [reflexivity|exact IH].
Qed.

Lemma In_dict_setitem it k v l :
  In it (dict_setitem k v l) -> it = (VStr k, v) \/ In it l.
Proof.
  induction l as [|[k0 v0] l IH]; simpl.
  - intros [<-|[]]. left. reflexivity.
  - destruct k0; simpl; try (intros [H|H]; [right; left; exact H|];
      destruct (IH H); [left|right; right]; assumption).
    destruct (String.eqb s k) eqn:E; simpl.
    + apply String.eqb_eq in E. subst s.
      intros [<-|H]; [left; reflexivity|right; right; exact H].
    + intros [H|H]; [right; left; exact H|].
      destruct (IH H); [left|right; right]; assumption.
Qed.

Lemma dict_setitem_has_key k v l : exists v', In (VStr k, v') (dict_setitem k v l).
Proof.
  induction l as [|[k0 v0] l IH]; simpl.
  - eexists. left. reflexivity.
  - destruct k0; simpl; try (destruct IH as [v' H]; exists v'; right; exact H).
    destruct (String.eqb s k) eqn:E; simpl.
    + apply String.eqb_eq in E. subst s. eexists. left. reflexivity.
    + destruct IH as [v' H]. exists v'. right. exact H.
Qed.

Lemma dict_setitem_keeps_key k v k' v0 l :
  In (VStr k', v0) l -> exists v', In (VStr k', v') (dict_setitem k v l).
Proof.
  induction l as [|[k0 v1] l IH]; simpl; [intros []|].
  intros [H|H].
  - injection H as -> ->.
    destruct (String.eqb k' k) eqn:E; simpl; eexists; left; reflexivity.
  - destruct (IH H) as [v' H'].
    destruct k0; simpl; try (exists v'; right; exact H').
    destruct (String.eqb s k); simpl; [|exists v'; right; exact H'].
    eexists. right. exact H.
Qed.

Lemma insert_all_sound l : forall acc n v,
  dict_get n (insert_all l acc) = Some v ->
  In (n, v) l \/ dict_get n acc = Some v.
Proof.
  induction l as [|[k x] l IH]; intros acc n v H; simpl in *.
  - right. exact H.
  - destruct (IH _ _ _ H) as [Hin|Hget]; [left; right; exact Hin|].
    destruct (string_dec k n) as [->|Hne].
    + rewrite dict_get_setitem_eq in Hget. injection Hget as ->.
      left. left. reflexivity.
    + rewrite dict_get_setitem_ne in Hget by exact Hne. right. exact Hget.
Qed.

Lemma insert_all_keeps l : forall acc n,
  is_Some (dict_get n acc) -> is_Some (dict_get n (insert_all l acc)).
Proof.
  induction l as [|[k x] l IH]; intros acc n H; simpl; [exact H|].
  apply IH. destruct (string_dec k n) as [->|Hne].
  - rewrite dict_get_setitem_eq. eauto.
  - rewrite dict_get_setitem_ne by exact Hne. exact H.
Qed.

Lemma insert_all_complete l : forall acc n v0,
  In (n, v0) l -> is_Some (dict_get n (insert_all l acc)).
Proof.
  induction l as [|[k x] l IH]; intros acc n v0 H; simpl in *; [destruct H|].
  destruct H as [H|H].
  - injection H as -> ->. apply insert_all_keeps.
    rewrite dict_get_setitem_eq. eauto.
  - eapply IH. exact H.
Qed.

Lemma In_insert_all l : forall acc it,
  In it (insert_all l acc) ->
  (exists n v, it = (VStr n, v) /\ In (n, v) l) \/ In it acc.
Proof.
  induction l as [|[k x] l IH]; intros acc it H; simpl in *; [right; exact H|].
  destruct (IH _ _ H) as [(n & v & -> & Hin)|Hin].
  - left. exists n, v. split; [reflexivity|right; exact Hin].
  - apply In_dict_setitem in Hin as [->|Hin]; [|right; exact Hin].
    left. exists k, x. split; [reflexivity|left; reflexivity].
Qed.

Lemma insert_all_keeps_key l : forall acc k v0,
  In (VStr k, v0) acc -> exists v, In (VStr k, v) (insert_all l acc).
Proof.
  induction l as [|[k' x] l IH]; intros acc k v0 H; simpl; [eauto|].
  destruct (dict_setitem_keeps_key k' x _ _ _ H) as [v' H']. eapply IH. exact H'.
Qed.

Lemma insert_all_has_key l : forall acc k v0,
  In (k, v0) l -> exists v, In (VStr k, v) (insert_all l acc).
Proof.
  induction l as [|[k' x] l IH]; intros acc k v0 H; simpl in *; [destruct H|].
  destruct H as [H|H].
  - injection H as -> ->. destruct (dict_setitem_has_key k v0 acc) as [v' H'].
    eapply insert_all_keeps_key. exact H'.
  - eapply IH. exact H.
Qed.

Lemma attribute_raw_all (srcs : list string) :
  comprehension attribute_raw (map Some srcs)
  = Ok (map (fun src => PyStr.rsplit1 "-"%char (icon_token src)) srcs).
Proof.
  induction srcs as [|src srcs IH]; [reflexivity|].
  simpl. rewrite IH. reflexivity.
Qed.

Lemma attributes_dict_retained (srcs : list string) :
  (forall src, In src srcs -> is_Some (token_parts src)) ->
  forall acc,
    attributes_dict acc
      (map (fun src => PyStr.rsplit1 "-"%char (icon_token src)) srcs)
    = Ok (insert_all (retained srcs) acc).
Proof.
  induction srcs as [|src srcs IH]; intros Hwf acc; [reflexivity|].
  destruct (Hwf src (or_introl eq_refl)) as [[name sfx] Hp].
  assert (IH' := IH (fun s Hs => Hwf s (or_intror Hs))).
  cbn [map attributes_dict retained flat_map].
  unfold PyStr.rsplit1. unfold token_parts in Hp. rewrite Hp.
  cbn [unpack2 result_bind].
  unfold token_parts. rewrite Hp.
  destruct (negb (PyStr.startswith sfx "blank")).
  - rewrite IH'. reflexivity.
  - rewrite IH'. reflexivity.
Qed.

Lemma set_attributes_loop (d : list (PyVal * PyVal)) :
  Forall (fun item => exists k, fst item = VStr k) d ->
  forall (w : World) (acc : list (PyVal * PyVal)),
    self w !! "_attributes" = Some (VDict acc) ->
    for_each d set_attributes_item w
    = (Ok tt,
       mkWorld (<["_attributes" := VDict (insert_all (known_items d) acc)]> (self w))
               (self_trackables w) (responses w) (requests w)
               (logging w ++ warnings d)).
Proof.
  induction 1 as [|[key v] d [k Hk] _ IH]; intros w acc Hw.
  - simpl. unfold ret. rewrite app_nil_r, insert_id by exact Hw.
    destruct w; reflexivity.
  - simpl in Hk. subst key.
    cbn [for_each known_items warnings flat_map fst snd].
    unfold bind at 1. unfold set_attributes_item at 1. cbn [fst snd str_methods].
    unfold bind at 1, lift at 1. fold (normalise k).
    destruct (is_possible_attribute (normalise k)) eqn:E.
    + unfold attributes_setitem, bind, getattr, setattr. rewrite Hw.
      cbn [dict_items].
      erewrite IH by (simpl; apply lookup_insert_eq).
      simpl. rewrite insert_insert_eq. reflexivity.
    + unfold logging_call.
      erewrite IH by (simpl; exact Hw).
      simpl. rewrite <- app_assoc. reflexivity.
Qed.

Lemma insert_all_keys l : forall acc,
  Forall (fun item : PyVal * PyVal => exists k, fst item = VStr k) acc ->
  Forall (fun item : PyVal * PyVal => exists k, fst item = VStr k) (insert_all l acc).
Proof.
  intros acc Hacc. apply Forall_forall. intros it Hin.
  apply list_elem_of_In, In_insert_all in Hin as [(n & v & -> & _)|Hin].
  - simpl. eauto.
  - rewrite Forall_forall in Hacc. apply Hacc, list_elem_of_In, Hin.
Qed.

Lemma In_retained (srcs : list string) (n : string) (v : PyVal) :
  In (n, v) (retained srcs) <->
  exists src sfx, In src srcs /\ token_parts src = Some (n, sfx)
    /\ PyStr.startswith sfx "blank" = false
    /\ v = VBool (PyStr.startswith sfx "yes").
Proof.
  unfold retained. rewrite in_flat_map. split.
  - intros (src & Hin & H). destruct (token_parts src) as [[name sfx]|] eqn:E;
      [|destruct H].
    destruct (PyStr.startswith sfx "blank") eqn:B; simpl in H; [destruct H|].
    destruct H as [H|[]]. injection H as -> <-. exists src, sfx. auto.
  - intros (src & sfx & Hin & E & B & ->). exists src. split; [exact Hin|].
    rewrite E, B. simpl. left. reflexivity.
Qed.

Lemma In_known_items (d : list (PyVal * PyVal)) (n : string) (v : PyVal) :
  In (n, v) (known_items d) <->
  exists k, In (VStr k, v) d /\ normalise k = n
            /\ is_possible_attribute n = true.
Proof.
  unfold known_items. rewrite in_flat_map. split.
  - intros ([key x] & Hin & H). simpl in H. destruct key; try destruct H.
    destruct (is_possible_attribute (normalise s)) eqn:E; [|destruct H].
    destruct H as [H|[]]. injection H as <- <-. exists s. auto.
  - intros (k & Hin & <- & E). exists (VStr k, v). split; [exact Hin|].
    simpl. rewrite E. left. reflexivity.
Qed.

Lemma In_warnings (d : list (PyVal * PyVal)) (k : string) (v : PyVal) :
  In (VStr k, v) d -> is_possible_attribute (normalise k) = false ->
  In (unknown_warning (normalise k)) (warnings d).
Proof.
  intros Hin E. unfold warnings. apply in_flat_map.
  exists (VStr k, v). split; [exact Hin|]. simpl. rewrite E. left. reflexivity.
Qed.

(** C9. Attributes from icon tokens.  For icons whose tokens all have a
    dash, the attribute part of [load] succeeds and stores a map such that:
    every entry comes from a token whose suffix does not start with
    ["blank"] and whose normalised name is in the registry, and is true
    exactly when the suffix of that token starts with ["yes"]; every such
    token has an entry under its normalised name, true exactly when its own
    suffix starts with ["yes"] (unless another kept token carries the same
    name with the other answer: then one of them decides); a token whose
    name is not in the registry raises nothing, logs a warning and has no
    entry; a name that only tokens with a ["blank"] suffix carry has no
    entry. *)
Theorem attributes_from_icon_tokens (srcs : list string) (widget : Widget)
    (w : World) :
  widget_img_srcs widget = map Some srcs ->
  (forall src, In src srcs -> is_Some (token_parts src)) ->
  exists (items : list (PyVal * PyVal)) (w' : World),
    load_attributes widget w = (Ok tt, w')
    /\ self w' = <["_attributes" := VDict items]> (self w)
    /\ (forall n v, dict_get n items = Some v ->
          exists src name sfx,
            In src srcs /\ token_parts src = Some (name, sfx)
            /\ PyStr.startswith sfx "blank" = false
            /\ normalise name = n /\ is_possible_attribute n = true
            /\ v = VBool (PyStr.startswith sfx "yes"))
    /\ (forall src name sfx,
          In src srcs -> token_parts src = Some (name, sfx) ->
          PyStr.startswith sfx "blank" = false ->
          is_possible_attribute (normalise name) = true ->
          exists b,
            dict_get (normalise name) items = Some (VBool b)
            /\ ((forall src' name' sfx',
                    In src' srcs -> token_parts src' = Some (name', sfx') ->
                    PyStr.startswith sfx' "blank" = false ->
                    normalise name' = normalise name ->
                    PyStr.startswith sfx' "yes" = PyStr.startswith sfx "yes") ->
                b = PyStr.startswith sfx "yes"))
    /\ (forall src name sfx,
          In src srcs -> token_parts src = Some (name, sfx) ->
          PyStr.startswith sfx "blank" = false ->
          is_possible_attribute (normalise name) = false ->
          dict_get (normalise name) items = None
          /\ In (unknown_warning (normalise name)) (logging w'))
    /\ (forall n,
          (forall src name sfx,
              In src srcs -> token_parts src = Some (name, sfx) ->
              normalise name = n -> PyStr.startswith sfx "blank" = true) ->
          dict_get n items = None).
Proof.
  intros Hsrcs Hwf.
  set (d := insert_all (retained srcs) []).
  assert (Hkeys : Forall (fun item : PyVal * PyVal => exists k, fst item = VStr k) d)
    by (apply insert_all_keys; constructor).
  exists (insert_all (known_items d) []).
  eexists. split; [|split].
  - unfold load_attributes, bind, lift. rewrite Hsrcs, attribute_raw_all.
    rewrite (attributes_dict_retained srcs Hwf). fold d.
    unfold set_attributes.
    change (type_is (VDict d) T_dict) with true. cbn [negb].
    unfold bind, setattr. cbn [dict_items].
    rewrite (set_attributes_loop d Hkeys _ [])
      by (simpl; apply lookup_insert_eq).
    reflexivity.
  - simpl. rewrite insert_insert_eq. reflexivity.
  - assert (Hsound : forall n v,
        dict_get n (insert_all (known_items d) []) = Some v ->
        exists src name sfx,
          In src srcs /\ token_parts src = Some (name, sfx)
          /\ PyStr.startswith sfx "blank" = false
          /\ normalise name = n /\ is_possible_attribute n = true
          /\ v = VBool (PyStr.startswith sfx "yes")).
    { intros n v H. apply insert_all_sound in H as [H|H]; [|discriminate].
      apply In_known_items in H as (k & Hin & Hn & Hp).
      apply In_insert_all in Hin as [(k' & v' & E & Hin)|[]].
      injection E as <- <-.
      apply In_retained in Hin as (src & sfx & Hin & Ht & Hb & ->).
      exists src, k, sfx. tauto. }
    split; [exact Hsound|]. split; [|split].
    + intros src name sfx Hin Ht Hb Hp.
      assert (Hr : In (name, VBool (PyStr.startswith sfx "yes")) (retained srcs))
        by (apply In_retained; eauto 6).
      destruct (insert_all_has_key _ [] _ _ Hr) as [v Hd]. fold d in Hd.
      assert (Hk : In (normalise name, v) (known_items d))
        by (apply In_known_items; eauto).
      destruct (insert_all_complete _ [] _ _ Hk) as [v' Hv'].
      destruct (Hsound _ _ Hv')
        as (src' & name' & sfx' & Hin' & Ht' & Hb' & Hn' & _ & ->).
      eexists. split; [exact Hv'|].
      intros Hagree. exact (Hagree _ _ _ Hin' Ht' Hb' Hn').
    + intros src name sfx Hin Ht Hb Hp. split.
      * destruct (dict_get _ _) eqn:E; [|reflexivity].
        destruct (Hsound _ _ E) as (? & ? & ? & _ & _ & _ & _ & Hp' & _).
        congruence.
      * assert (Hr : In (name, VBool (PyStr.startswith sfx "yes")) (retained srcs))
          by (apply In_retained; eauto 6).
        destruct (insert_all_has_key _ [] _ _ Hr) as [v Hd]. fold d in Hd.
        simpl. apply in_or_app. right. eapply In_warnings; eassumption.
    + intros n Hblank. destruct (dict_get _ _) eqn:E; [|reflexivity].
      destruct (Hsound _ _ E) as (src & name & sfx & Hin & Ht & Hb & Hn & _).
      rewrite (Hblank _ _ _ Hin Ht Hn) in Hb. discriminate.
Qed.

(** ** What a method leaves in the instance dictionary *)

Lemma establishes_ret {A} (a : A) : establishes (ret a) [].
Proof. intros w r w' H. injection H as <- <-. auto. Qed.

Lemma establishes_raise {A} (e : exn) names : establishes (raise e : M A) names.
Proof.
  intros w r w' H. injection H as <- <-.
  repeat split; auto. intros a Ha. discriminate.
Qed.

Lemma establishes_lift {A} (x : Result A) : establishes (lift x) [].
Proof. intros w r w' H. injection H as <- <-. auto. Qed.

Lemma establishes_getattr k : establishes (getattr k) [].
Proof.
  intros w r w' H. unfold getattr in H.
  destruct (self w !! k); injection H as <- <-; auto.
Qed.

Lemma establishes_hasattr k : establishes (self_hasattr k) [].
Proof. intros w r w' H. injection H as <- <-. auto. Qed.

Lemma establishes_logging l m : establishes (logging_call l m) [].
Proof. intros w r w' H. injection H as <- <-. simpl. auto. Qed.

Lemma establishes_setattr k v : establishes (setattr k v) [k].
Proof.
  intros w r w' H. injection H as <- <-. simpl. repeat split.
  - intros k' Hk'. destruct (decide (k = k')) as [->|Hne].
    + rewrite lookup_insert_eq. eauto.
    + rewrite lookup_insert_ne by exact Hne. exact Hk'.
  - intros _ _. constructor; [|constructor]. rewrite lookup_insert_eq. eauto.
Qed.

Lemma establishes_setattr_nil k v : establishes (setattr k v) [].
Proof.
  intros w r w' H. destruct (establishes_setattr k v w r w' H) as (?&?&?&_).
  auto.
Qed.

Lemma establishes_bind {A B} (m : M A) (f : A -> M B) n1 n2 :
  establishes m n1 -> (forall a, establishes (f a) n2) ->
  establishes (bind m f) (n1 ++ n2).
Proof.
  intros Hm Hf w r w' H. unfold bind in H.
  destruct (m w) as [[a|e] w1] eqn:E.
  - destruct (Hm _ _ _ E) as (Hq1 & Hs1 & Hmono1 & Hset1).
    destruct (Hf a _ _ _ H) as (Hq2 & Hs2 & Hmono2 & Hset2).
    repeat split; try congruence; auto.
    intros b Hb. apply Forall_app. split; [|eauto].
    eapply Forall_impl; [exact (Hset1 a eq_refl)|]. simpl. auto.
  - injection H as <- <-. destruct (Hm _ _ _ E) as (Hq1 & Hs1 & Hmono1 & _).
    repeat split; auto. intros b Hb. discriminate.
Qed.

Lemma establishes_bind_set {A B} (m : M A) (f : A -> M B) k names :
  establishes m [k] -> (forall a, establishes (f a) names) ->
  establishes (bind m f) (k :: names).
Proof. intros Hm Hf. exact (establishes_bind m f [k] names Hm Hf). Qed.

Lemma establishes_bind_frame {A B} (m : M A) (f : A -> M B) names :
  establishes m [] -> (forall a, establishes (f a) names) ->
  establishes (bind m f) names.
Proof. intros Hm Hf. exact (establishes_bind m f [] names Hm Hf). Qed.

Lemma establishes_try {A} (m : M A) (h : exn -> M A) names :
  establishes m names -> (forall e, establishes (h e) names) ->
  establishes (try_except m h) names.
Proof.
  intros Hm Hh w r w' H. unfold try_except in H.
  destruct (m w) as [[a|e] w1] eqn:E.
  - injection H as <- <-. exact (Hm _ _ _ E).
  - destruct (Hm _ _ _ E) as (Hq1 & Hs1 & Hmono1 & _).
    destruct (Hh e _ _ _ H) as (Hq2 & Hs2 & Hmono2 & Hset2).
    repeat split; try congruence; auto.
Qed.

Lemma establishes_for_each {A} (l : list A) (body : A -> M unit) :
  (forall x, establishes (body x) []) -> establishes (for_each l body) [].
Proof.
  intros Hb. induction l as [|x l IH]; simpl.
  - apply establishes_ret.
  - apply (establishes_bind_frame (body x)); [apply Hb|intros _; exact IH].
Qed.

Lemma keeps_ret {A} (a : A) k : keeps (ret a) k.
Proof. intros w r w' H. injection H as <- <-. reflexivity. Qed.

Lemma keeps_raise {A} (e : exn) k : keeps (raise e : M A) k.
Proof. intros w r w' H. injection H as <- <-. reflexivity. Qed.

Lemma keeps_lift {A} (x : Result A) k : keeps (lift x) k.
Proof. intros w r w' H. injection H as <- <-. reflexivity. Qed.

Lemma keeps_getattr k' k : keeps (getattr k') k.
Proof.
  intros w r w' H. unfold getattr in H.
  destruct (self w !! k'); injection H as <- <-; reflexivity.
Qed.

Lemma keeps_logging l m k : keeps (logging_call l m) k.
Proof. intros w r w' H. injection H as <- <-. reflexivity. Qed.

Lemma keeps_setattr k' v k : k' <> k -> keeps (setattr k' v) k.
Proof.
  intros Hne w r w' H. injection H as <- <-. simpl.
  apply lookup_insert_ne. exact Hne.
Qed.

Lemma keeps_bind {A B} (m : M A) (f : A -> M B) k :
  keeps m k -> (forall a, keeps (f a) k) -> keeps (bind m f) k.
Proof.
  intros Hm Hf w r w' H. unfold bind in H.
  destruct (m w) as [[a|e] w1] eqn:E.
  - rewrite (Hf a _ _ _ H). exact (Hm _ _ _ E).
  - injection H as <- <-. exact (Hm _ _ _ E).
Qed.

Lemma keeps_try {A} (m : M A) (h : exn -> M A) k :
  keeps m k -> (forall e, keeps (h e) k) -> keeps (try_except m h) k.
Proof.
  intros Hm Hh w r w' H. unfold try_except in H.
  destruct (m w) as [[a|e] w1] eqn:E.
  - injection H as <- <-. exact (Hm _ _ _ E).
  - rewrite (Hh e _ _ _ H). exact (Hm _ _ _ E).
Qed.

Lemma keeps_for_each {A} (l : list A) (body : A -> M unit) k :
  (forall x, keeps (body x) k) -> keeps (for_each l body) k.
Proof.
  intros Hb. induction l as [|x l IH]; simpl.
  - apply keeps_ret.
  - apply keeps_bind; [apply Hb|intros _; exact IH].
Qed.

Ltac unfold_setters :=
  unfold set_wp, set_guid, set_geocaching, set_name, set_location,
    set_original_location, set_waypoints, set_type, set_state, set_found,
    set_size, set_difficulty, set_terrain, set_author, set_hidden,
    set_summary, set_description, set_hint, set_favorites, set_pm_only,
    set__logbook_token, set__trackable_page_url, attributes_setitem,
    set_attributes_item.

(** Proof search for [establishes] and [keeps] along the structure of a
    method. *)
Ltac est :=
  lazymatch goal with
  | |- establishes (bind _ _) _ =>
      first [ apply establishes_bind_frame; [solve [est] | intros; est]
            | apply establishes_bind_set; [solve [est] | intros; est] ]
  | |- establishes (try_except _ _) _ =>
      apply establishes_try; [est | intros; est]
  | |- establishes (if ?b then _ else _) _ => destruct b; est
  | |- establishes (match ?x with _ => _ end) _ => destruct x; est
  | |- establishes (let _ := _ in _) _ => cbv zeta; est
  | |- establishes _ _ =>
      first [ apply establishes_ret | apply establishes_raise
            | apply establishes_lift | apply establishes_getattr
            | apply establishes_hasattr | apply establishes_logging
            | apply establishes_setattr | apply establishes_setattr_nil
            | apply establishes_for_each; intros; est
            | solve [auto with establishes]
            | progress unfold_setters; est ]
  end.

Ltac kp :=
  lazymatch goal with
  | |- keeps (bind _ _) _ => apply keeps_bind; [kp | intros; kp]
  | |- keeps (try_except _ _) _ => apply keeps_try; [kp | intros; kp]
  | |- keeps (if ?b then _ else _) _ => destruct b; kp
  | |- keeps (match ?x with _ => _ end) _ => destruct x; kp
  | |- keeps (let _ := _ in _) _ => cbv zeta; kp
  | |- keeps _ _ =>
      first [ apply keeps_ret | apply keeps_raise | apply keeps_lift
            | apply keeps_getattr | apply keeps_logging
            | apply keeps_setattr; discriminate
            | apply keeps_for_each; intros; kp
            | solve [auto with keeps]
            | progress unfold_setters; kp ]
  end.

Lemma establishes_property_set (p : property) (v : PyVal) :
  p <> p_attributes -> establishes (property_set p v) [backing p].
Proof. intros Hp. destruct p; simpl; try congruence; est. Qed.

Lemma establishes_set_attributes (v : PyVal) :
  establishes (set_attributes v) ["_attributes"].
Proof. unfold set_attributes. est. Qed.

Lemma keeps_property_set (p : property) (v : PyVal) (k : string) :
  backing p <> k -> keeps (property_set p v) k.
Proof.
  intros Hk. destruct p; simpl in *; unfold set_attributes; unfold_setters;
    repeat first
      [ apply keeps_setattr; exact Hk
      | apply keeps_bind; [|intros]
      | apply keeps_for_each; intros
      | match goal with
        | |- keeps (if ?b then _ else _) _ => destruct b
        end
      | apply keeps_raise | apply keeps_lift | apply keeps_getattr
      | apply keeps_logging ].
Qed.

Create HintDb establishes.
Create HintDb keeps.

Lemma establishes_set_attributes_nil (v : PyVal) :
  establishes (set_attributes v) [].
Proof. unfold set_attributes. est. Qed.

#[local] Hint Resolve establishes_set_attributes : establishes.

Lemma establishes_waypoints_loop pairs : forall acc,
  establishes (waypoints_loop acc pairs) [].
Proof.
  induction pairs as [|rows pairs IH]; intros acc; simpl.
  - apply establishes_ret.
  - apply establishes_bind_frame; [|intros; apply IH].
    unfold waypoint_of_rows. est.
Qed.

#[local] Hint Resolve establishes_waypoints_loop : establishes.

Lemma establishes_Waypoint_from_html soup table_id :
  establishes (Waypoint_from_html soup table_id) [].
Proof. unfold Waypoint_from_html. est. Qed.

#[local] Hint Resolve establishes_Waypoint_from_html : establishes.

Lemma establishes_load_attributes widget :
  establishes (load_attributes widget) ["_attributes"].
Proof. unfold load_attributes. est. Qed.

#[local] Hint Resolve establishes_load_attributes : establishes.

Lemma establishes_load_pm_only_details cache_details :
  establishes (load_pm_only_details cache_details) reduced_fields.
Proof. unfold load_pm_only_details, reduced_fields. est. Qed.

Lemma establishes_load_basic_details root cache_details :
  establishes (load_basic_details root cache_details) basic_fields.
Proof. unfold load_basic_details, basic_fields. est. Qed.

Lemma establishes_load_full_details root cache_details :
  establishes (load_full_details root cache_details) full_fields.
Proof. unfold load_full_details, full_fields. est. Qed.

Lemma establishes_incl {A} (m : M A) names names' :
  establishes m names -> (forall k, In k names' -> In k names) ->
  establishes m names'.
Proof.
  intros Hm Hincl w r w' H. destruct (Hm _ _ _ H) as (Hq & Hs & Hmono & Hset).
  repeat split; auto. intros a Ha. apply Forall_forall. intros k Hk.
  specialize (Hset a Ha). rewrite Forall_forall in Hset.
  apply Hset, list_elem_of_In, Hincl, list_elem_of_In, Hk.
Qed.

Lemma establishes_load_parse root :
  establishes (load_parse root) loaded_fields.
Proof.
  unfold load_parse, loaded_fields.
  apply establishes_bind_set; [est|intros _].
  apply establishes_bind_frame; [est|intros pm_only]. cbv zeta.
  apply establishes_bind.
  - destruct (truthy pm_only).
    + eapply establishes_incl; [apply establishes_load_pm_only_details|].
      unfold reduced_fields, basic_fields. simpl. tauto.
    + apply establishes_load_basic_details.
  - intros _. pose proof establishes_load_full_details. unfold full_fields in *.
    est.
Qed.

(** The request of [load]: at most one, which is the next one the server
    answers; the instance dictionary is not touched. *)
Lemma load_request_spec (w w' : World) (r : Result Document) :
  load_request w = (r, w') ->
  self w' = self w /\ responses w' = responses w
  /\ (length (requests w') <= S (length (requests w)))%nat
  /\ (forall d, r = Ok d ->
        responses w (length (requests w)) = Html d
        /\ length (requests w') = S (length (requests w))).
Proof.
  unfold load_request, try_except, request_document, _request. run.
  intros H.
  repeat (case_match; simplify_eq; simpl in *);
    repeat split; auto; try lia; try discriminate;
    rewrite ?length_app; simpl; try lia; intros; simplify_eq; auto;
    rewrite ?length_app; simpl; lia.
Qed.

Lemma bind_inv {A B} (m : M A) (f : A -> M B) w r w' :
  bind m f w = (r, w') ->
  (exists a w1, m w = (Ok a, w1) /\ f a w1 = (r, w'))
  \/ (exists e, m w = (Raise e, w') /\ r = Raise e).
Proof.
  unfold bind. destruct (m w) as [[a|e] w1]; intros H.
  - left. eauto.
  - right. injection H as <- <-. eauto.
Qed.

(** On a page with the PM-only banner the parse never returns normally,
    and the flag it set first is still true when it stops. *)
Lemma load_parse_restricted (root : Document) (w w' : World) (r : Result unit) :
  pmo_banner root = true ->
  load_parse root w = (r, w') ->
  (exists e, r = Raise e) /\ self w' !! "_pm_only" = Some (VBool true).
Proof.
  intros Hpm H. unfold load_parse in H. rewrite Hpm in H.
  apply bind_inv in H as [(a & w1 & H1 & H)|(e & H1 & ->)]; [|discriminate].
  injection H1 as <- <-.
  apply bind_inv in H as [(pm & w2 & H2 & H)|(e & H2 & ->)].
  2:{ unfold getattr in H2. simpl in H2. rewrite lookup_insert_eq in H2.
      discriminate. }
  unfold getattr in H2. simpl in H2. rewrite lookup_insert_eq in H2.
  injection H2 as <- <-. cbv zeta in H. cbn [truthy] in H.
  assert (K1 : keeps (load_pm_only_details (divContentMain root)) "_pm_only")
    by (unfold load_pm_only_details; kp).
  assert (K2 : forall v, keeps (set_type v) "_pm_only") by (intros; kp).
  apply bind_inv in H as [(a & w3 & H3 & H)|(e & H3 & ->)].
  2:{ split; [eauto|]. rewrite (K1 _ _ _ H3). simpl. apply lookup_insert_eq. }
  assert (L3 : self w3 !! "_pm_only" = Some (VBool true))
    by (rewrite (K1 _ _ _ H3); simpl; apply lookup_insert_eq).
  clear H3.
  apply bind_inv in H as [(cd & w4 & H4 & H)|(e & H4 & ->)];
    (injection H4 as ? <-); [|split; [eauto|exact L3]].
  apply bind_inv in H as [(ty & w4 & H5 & H)|(e & H5 & ->)];
    (injection H5 as ? <-); [|split; [eauto|exact L3]].
  apply bind_inv in H as [(ty' & w4 & H6 & H)|(e & H6 & ->)];
    (injection H6 as ? <-); [|split; [eauto|exact L3]].
  apply bind_inv in H as [(u & w4 & H7 & H)|(e & H7 & ->)].
  2:{ split; [eauto|]. rewrite (K2 _ _ _ _ H7). exact L3. }
  assert (L4 : self w4 !! "_pm_only" = Some (VBool true))
    by (rewrite (K2 _ _ _ _ H7); exact L3).
  unfold bind at 1 in H. unfold getattr in H. rewrite L4 in H.
  cbn [truthy] in H. unfold bind, raise in H. injection H as <- <-.
  split; [eauto|exact L4].
Qed.

(** ** Lazy loading *)

Lemma lazy_properties_spec (p : property) :
  In p lazy_properties <-> is_lazy_loaded p = true.
Proof.
  split.
  - unfold lazy_properties. simpl. intros H.
    repeat (destruct H as [<-|H]; [reflexivity|]). destruct H.
  - destruct p; simpl; intros H; try discriminate; tauto.
Qed.

Lemma lazy_backing_loaded (p : property) :
  is_lazy_loaded p = true -> In (backing p) loaded_fields.
Proof. destruct p; simpl; intros H; try discriminate; tauto. Qed.

Lemma property_get_lazy (p : property) :
  is_lazy_loaded p = true ->
  property_get p = lazy_loaded (backing p) (getattr (backing p)).
Proof. destruct p; simpl; intros H; try discriminate; reflexivity. Qed.

(** A normal return of [load]: one request, answered by a page without
    the PM-only banner, and every field of [loaded_fields] exists. *)
Lemma load_returns (w w1 : World) :
  load w = (Ok tt, w1) ->
  length (requests w1) = S (length (requests w))
  /\ responses w1 = responses w
  /\ (exists d, responses w (length (requests w)) = Html d
                /\ pmo_banner d = false)
  /\ (forall k, is_Some (self w !! k) -> is_Some (self w1 !! k))
  /\ Forall (fun k => is_Some (self w1 !! k)) loaded_fields.
Proof.
  intros H. unfold load in H.
  apply bind_inv in H as [(root & w0 & Hreq & H)|(e & _ & ?)]; [|discriminate].
  destruct (load_request_spec _ _ _ Hreq) as (Hself & Hresp & _ & Hd).
  destruct (Hd root eq_refl) as [Hserved Hlen].
  destruct (establishes_load_parse root _ _ _ H) as (Hq & Hs & Hmono & Hset).
  repeat split.
  - congruence.
  - congruence.
  - exists root. split; [exact Hserved|].
    destruct (pmo_banner root) eqn:E; [|reflexivity].
    destruct (load_parse_restricted root _ _ _ E H) as [[e He] _]. discriminate.
  - intros k Hk. apply Hmono. rewrite Hself. exact Hk.
  - exact (Hset tt eq_refl).
Qed.

(** C1. When [load] returns normally (the entity has a URL or a GC code
    and the detail page it is served parses; such a page has no PM-only
    banner), one invocation has set every lazy-loaded field: name,
    location, type, state, found, size, difficulty, terrain, author,
    hidden, attributes, summary, description, hint, favorites, logbook
    token, trackable page URL, original location and waypoints.  Hence
    reading any two lazy-loaded fields, the first of which has never been
    set, returns both values after exactly one request in total: the world
    after the two reads is the world after the one [load]. *)
Theorem load_sets_every_lazy_field (w w1 : World) :
  load w = (Ok tt, w1) ->
  (forall p, In p lazy_properties -> is_Some (self w1 !! backing p))
  /\ length (requests w1) = S (length (requests w))
  /\ (exists d, responses w (length (requests w)) = Html d
                /\ pmo_banner d = false)
  /\ (forall p q,
        In p lazy_properties -> In q lazy_properties ->
        self w !! backing p = None ->
        exists vp vq,
          (x <- property_get p ;; y <- property_get q ;; ret (x, y)) w
          = (Ok (vp, vq), w1)).
Proof.
  intros H.
  destruct (load_returns w w1 H) as (Hlen & Hresp & Hdoc & Hmono & Hset).
  assert (Hall : forall p, In p lazy_properties -> is_Some (self w1 !! backing p)).
  { intros p Hp. rewrite Forall_forall in Hset.
    apply Hset, list_elem_of_In, lazy_backing_loaded, lazy_properties_spec, Hp. }
  split; [exact Hall|]. split; [exact Hlen|]. split; [exact Hdoc|].
  intros p q Hp Hq Hunset.
  destruct (Hall p Hp) as [vp Hvp]. destruct (Hall q Hq) as [vq Hvq].
  exists vp, vq.
  rewrite !property_get_lazy by (apply lazy_properties_spec; assumption).
  unfold bind at 1. unfold lazy_loaded at 1. unfold bind at 1.
  unfold self_hasattr at 1. rewrite Hunset.
  rewrite bool_decide_eq_false_2 by (intros [? ?]; discriminate).
  unfold bind at 1. rewrite H. unfold getattr at 1. rewrite Hvp.
  unfold bind at 1. unfold lazy_loaded, bind, self_hasattr, getattr.
  rewrite bool_decide_eq_true_2 by eauto. rewrite Hvq. reflexivity.
Qed.

(** ** PM-only caches *)

Lemma load_request_ok (w : World) (g : PyVal) (root : Document) :
  self w !! "_geocaching" = Some g ->
  is_Some (self w !! "url") \/ is_Some (self w !! "_wp") ->
  responses w (length (requests w)) = Html root ->
  exists rq, load_request w = (Ok root, with_request rq w).
Proof.
  intros Hg Hid Hresp.
  unfold load_request, try_except, request_document, _request. run.
  destruct (self w !! "url") as [u|] eqn:Eu.
  - rewrite bool_decide_eq_true_2 by eauto.
    repeat (progress (rewrite ?Eu, ?Hg, ?Hresp; cbn beta iota zeta)). eauto.
  - rewrite bool_decide_eq_false_2 by (intros [? ?]; discriminate).
    destruct Hid as [[? ?]|[v Hv]]; [discriminate|].
    rewrite bool_decide_eq_true_2 by eauto.
    repeat (progress (rewrite ?Hv, ?Hg, ?Hresp; cbn beta iota zeta)). eauto.
Qed.

(** When the server does not answer with a page free of the banner, [load]
    raises. *)
Lemma load_raises_unless_unrestricted (w w' : World) (r : Result unit) :
  (forall d, responses w (length (requests w)) = Html d -> pmo_banner d = true) ->
  load w = (r, w') ->
  exists e, r = Raise e.
Proof.
  intros Hserver H. unfold load in H.
  apply bind_inv in H as [(root & w0 & Hreq & H)|(e & _ & ->)]; [|eauto].
  destruct (load_request_spec _ _ _ Hreq) as (_ & _ & _ & Hd).
  destruct (Hd root eq_refl) as [Hserved _].
  exact (proj1 (load_parse_restricted root _ _ _ (Hserver _ Hserved) H)).
Qed.

Lemma set_wp_ok (s : string) (w : World) :
  PyStr.startswith (PyStr.strip (PyStr.upper s)) "GC" = true ->
  set_wp (VStr s) w
  = (Ok tt, with_self (insert "_wp" (VStr (PyStr.strip (PyStr.upper s)))) w).
Proof. intros H. unfold set_wp. cbn [py_str str_methods]. rewrite H. reflexivity. Qed.

Lemma set_difficulty_ok (d : Q) (w : World) :
  out_of_scale d = false ->
  set_difficulty (VFloat d) w
  = (Ok tt, with_self (insert "_difficulty" (VFloat d)) w).
Proof. intros H. unfold set_difficulty, bind, lift. simpl. rewrite H. reflexivity. Qed.

Lemma set_terrain_ok (d : Q) (w : World) :
  out_of_scale d = false ->
  set_terrain (VFloat d) w = (Ok tt, with_self (insert "_terrain" (VFloat d)) w).
Proof. intros H. unfold set_terrain, bind, lift. simpl. rewrite H. reflexivity. Qed.

Lemma set_name_str (s : string) (w : World) :
  set_name (VStr s) w = (Ok tt, with_self (insert "_name" (VStr (PyStr.strip s))) w).
Proof. reflexivity. Qed.

Lemma set_author_str (s : string) (w : World) :
  set_author (VStr s) w
  = (Ok tt, with_self (insert "_author" (VStr (PyStr.strip s))) w).
Proof. reflexivity. Qed.

Lemma set_size_exact (s : Size.t) (w : World) :
  set_size (VSize s) w = (Ok tt, with_self (insert "_size" (VSize s)) w).
Proof. reflexivity. Qed.

Lemma set_favorites_int (n : Z) (w : World) :
  set_favorites (VInt n) w = (Ok tt, with_self (insert "_favorites" (VInt n)) w).
Proof. reflexivity. Qed.

Lemma set_type_exact (t : Type_.t) (w : World) :
  set_type (VType t) w = (Ok tt, with_self (insert "_type" (VType t)) w).
Proof. reflexivity. Qed.

Lemma load_parse_reduced_page (w : World) (root : Document)
    (code name author : string) (difficulty terrain : Q) (size : Size.t)
    (favorites : Z) (type : Type_.t) :
  reduced_page root code name author difficulty terrain size favorites type ->
  load_parse root w
  = (Raise PMOnlyException,
     with_self (with_reduced_fields code name author difficulty terrain size
                  favorites type) w).
Proof.
  intros [Hpm (cd & code0 & name0 & author0 & details & s2 & s5 & s8 & s11 & src
               & Hcd & Hcode & -> & Hgc & Hname & -> & Hauthor & -> & Hdetails
               & H2 & Hd & Hdok & H5 & Ht & Htok & H8 & Hsize & H11 & Hfav
               & Hsrc & Htype)].
  unfold load_parse. rewrite Hpm.
  unfold bind at 1. unfold set_pm_only at 1. cbn [truthy]. unfold setattr at 1.
  unfold bind at 1. unfold getattr at 1. cbn [self with_self].
  rewrite lookup_insert_eq. cbv zeta. cbn [truthy].
  rewrite Hcd.
  unfold load_pm_only_details, bind, lift.
  repeat (progress
    (cbn beta iota zeta delta [deref result_bind];
     rewrite ?Hcode, ?Hname, ?Hauthor, ?Hdetails, ?H2, ?H5, ?H8, ?H11,
             ?Hd, ?Ht, ?Hsize, ?Hfav, ?Hsrc, ?Htype;
     rewrite ?(set_wp_ok _ _ Hgc), ?(set_difficulty_ok _ _ Hdok),
             ?(set_terrain_ok _ _ Htok), ?set_name_str, ?set_author_str,
             ?set_size_exact, ?set_favorites_int, ?set_type_exact)).
  unfold getattr. cbn [self with_self].
  rewrite !lookup_insert_ne by discriminate. rewrite lookup_insert_eq.
  reflexivity.
Qed.

(** Reading a property whose backing field exists returns the field and
    leaves the world as it is. *)
Lemma property_get_set (p : property) (v : PyVal) (w : World) :
  self w !! backing p = Some v -> property_get p w = (Ok v, w).
Proof.
  intros H.
  destruct p; simpl in *;
    unfold lazy_loaded, bind, self_hasattr, getattr; rewrite ?H;
    rewrite ?bool_decide_eq_true_2 by eauto; rewrite ?H; reflexivity.
Qed.

(** Reading a lazy-loaded property whose backing field does not exist
    calls [load]; if [load] raises, so does the read. *)
Lemma property_get_unset_raises (p : property) (w w' : World) (e : exn) :
  In p lazy_properties -> self w !! backing p = None ->
  load w = (Raise e, w') -> property_get p w = (Raise e, w').
Proof.
  intros Hp Hunset Hload.
  rewrite property_get_lazy by (apply lazy_properties_spec; exact Hp).
  unfold lazy_loaded, bind, self_hasattr. rewrite Hunset.
  rewrite bool_decide_eq_false_2 by (intros [? ?]; discriminate).
  rewrite Hload. reflexivity.
Qed.

Ltac solve_lookup :=
  cbn [self with_self]; unfold with_reduced_fields;
  repeat (rewrite lookup_insert_ne by discriminate);
  first [apply lookup_insert_eq | assumption | reflexivity].

(** C2. When the detail page carries the PM-only banner and its reduced
    field set is well formed, [load] stores the flag [pm_only = True], the
    GC code, name, author, difficulty, terrain, size, favorite count and
    type, and then raises [PMOnlyException] (which is not [LoadError]).
    The fields stored before the exception are in the instance dictionary
    after it, and their getters return them without a request.  A field
    that was never stored, such as [location], is still missing: reading it
    calls [load] again and raises, with [PMOnlyException] when the server
    answers with the same page, and with some exception whenever the answer
    is not a page free of the banner. *)
Theorem restricted_page_partial_load (w : World) (g : PyVal) (root : Document)
    (code name author : string) (difficulty terrain : Q) (size : Size.t)
    (favorites : Z) (type : Type_.t) :
  self w !! "_geocaching" = Some g ->
  is_Some (self w !! "url") \/ is_Some (self w !! "_wp") ->
  responses w (length (requests w)) = Html root ->
  reduced_page root code name author difficulty terrain size favorites type ->
  exists w',
    load w = (Raise PMOnlyException, w')
    /\ is_validation_error PMOnlyException = false
    /\ (forall m, PMOnlyException <> LoadError m)
    /\ self w' = with_reduced_fields code name author difficulty terrain size
                    favorites type (self w)
    /\ length (requests w') = S (length (requests w))
    /\ Forall (fun pv => property_get (fst pv) w' = (Ok (snd pv), w'))
         [ (p_pm_only, VBool true); (p_wp, VStr code); (p_name, VStr name);
           (p_author, VStr author); (p_difficulty, VFloat difficulty);
           (p_terrain, VFloat terrain); (p_size, VSize size);
           (p_favorites, VInt favorites); (p_type, VType type) ]
    /\ (self w !! "_location" = None ->
         self w' !! "_location" = None
         /\ (responses w' (length (requests w')) = Html root ->
              exists w'', property_get p_location w'
                          = (Raise PMOnlyException, w''))
         /\ ((forall d, responses w' (length (requests w')) = Html d ->
                        pmo_banner d = true) ->
              exists e w'', property_get p_location w' = (Raise e, w''))).
Proof.
  intros Hg Hid Hresp Hpage.
  destruct (load_request_ok w g root Hg Hid Hresp) as [rq Hreq].
  set (w' := with_self (with_reduced_fields code name author difficulty terrain
                          size favorites type) (with_request rq w)).
  assert (Hload : load w = (Raise PMOnlyException, w')).
  { unfold load, bind. rewrite Hreq.
    apply (load_parse_reduced_page _ root _ _ _ _ _ _ _ _ Hpage). }
  exists w'. split; [exact Hload|]. split; [reflexivity|].
  split; [discriminate|]. split; [reflexivity|]. split.
  { simpl. rewrite length_app. simpl. lia. }
  split.
  { repeat constructor; apply property_get_set; simpl backing; subst w';
      solve_lookup. }
  intros Hloc.
  assert (Hloc' : self w' !! "_location" = None) by (subst w'; solve_lookup).
  split; [exact Hloc'|]. split.
  - intros Hagain.
    assert (Hg' : self w' !! "_geocaching" = Some g) by (subst w'; solve_lookup).
    assert (Hid' : is_Some (self w' !! "url") \/ is_Some (self w' !! "_wp")).
    { right. exists (VStr code). subst w'. solve_lookup. }
    destruct (load_request_ok w' g root Hg' Hid' Hagain) as [rq' Hreq'].
    eexists. apply property_get_unset_raises; [simpl; tauto|exact Hloc'|].
    unfold load, bind. rewrite Hreq'.
    apply (load_parse_reduced_page _ root _ _ _ _ _ _ _ _ Hpage).
  - intros Hserver.
    destruct (load w') as [r w''] eqn:E.
    destruct (load_raises_unless_unrestricted w' w'' r Hserver E) as [e ->].
    exists e, w''. apply property_get_unset_raises; [simpl; tauto|exact Hloc'|].
    exact E.
Qed.

(** ** The found flag *)

Lemma bind_ok_inv {A B} (m : M A) (f : A -> M B) w b w' :
  bind m f w = (Ok b, w') ->
  exists a w1, m w = (Ok a, w1) /\ f a w1 = (Ok b, w').
Proof.
  intros H. apply bind_inv in H as [H|(e & _ & ?)]; [exact H|discriminate].
Qed.

Lemma lift_ok_inv {A} (x : Result A) w a w' :
  lift x w = (Ok a, w') -> x = Ok a /\ w' = w.
Proof. intros H. injection H as -> ->. auto. Qed.

Lemma keeps_waypoints_loop pairs k : forall acc,
  keeps (waypoints_loop acc pairs) k.
Proof.
  induction pairs as [|rows pairs IH]; intros acc; simpl.
  - apply keeps_ret.
  - apply keeps_bind; [|intros; apply IH]. unfold waypoint_of_rows. kp.
Qed.

#[local] Hint Resolve keeps_waypoints_loop : keeps.

(** What the expression of the source evaluates to: the marker phrase
    itself whenever the element exists, whatever its text. *)
Lemma found_status_value (found : option string) :
  found_status found
  = Ok (match found with
        | Some _ => VStr "Found It!"
        | None => VBool false
        end).
Proof. destruct found; reflexivity. Qed.

(** The steps of [load_full_details] after [self.found = ...] leave the
    flag alone. *)
Lemma found_flag_stays (root : Document) (cache_details : DetailsElem)
    (w w1 : World) :
  load_full_details root cache_details w = (Ok tt, w1) ->
  self w1 !! "_found"
  = Some (VBool (bool_decide (is_Some (FoundStatus_text root)))).
Proof.
  intros H. unfold load_full_details in H.
  apply bind_ok_inv in H as (pm & w2 & _ & H).
  apply bind_ok_inv in H as (? & w3 & _ & H).
  apply bind_ok_inv in H as (widgets & w4 & _ & H). cbv zeta in H.
  apply bind_ok_inv in H as (divs & w5 & _ & H).
  apply bind_ok_inv in H as (hidden & w6 & _ & H).
  apply bind_ok_inv in H as (hidden' & w7 & _ & H).
  apply bind_ok_inv in H as (? & w8 & _ & H).
  apply bind_ok_inv in H as (latlon & w9 & _ & H).
  apply bind_ok_inv in H as (location & w10 & _ & H).
  apply bind_ok_inv in H as (? & w11 & _ & H).
  apply bind_ok_inv in H as (? & w12 & _ & H).
  apply bind_ok_inv in H as (found_value & w13 & Hfound & H).
  apply lift_ok_inv in Hfound as [Hfound ->].
  rewrite found_status_value in Hfound. injection Hfound as <-.
  apply bind_ok_inv in H as (? & w14 & Hset & H).
  injection Hset as _ <-.
  match type of H with
  | ?rest _ = _ => assert (K : keeps rest "_found")
  end.
  { unfold load_attributes, set_attributes, Waypoint_from_html. kp. }
  rewrite (K _ _ _ H). simpl. rewrite lookup_insert_eq.
  destruct (FoundStatus_text root); reflexivity.
Qed.

(** C4 (what the code does).  After a full load of a page without the
    banner the found flag is true if and only if the found-status element
    exists; its text is not consulted. *)
Theorem found_flag_is_element_presence (w w1 : World) :
  load w = (Ok tt, w1) ->
  exists d, responses w (length (requests w)) = Html d
    /\ self w1 !! "_found"
       = Some (VBool (bool_decide (is_Some (FoundStatus_text d)))).
Proof.
  intros H. unfold load in H.
  apply bind_ok_inv in H as (root & w0 & Hreq & H).
  destruct (load_request_spec _ _ _ Hreq) as (_ & _ & _ & Hd).
  destruct (Hd root eq_refl) as [Hserved _].
  exists root. split; [exact Hserved|].
  unfold load_parse in H.
  apply bind_ok_inv in H as (? & w2 & _ & H).
  apply bind_ok_inv in H as (pm & w3 & _ & H). cbv zeta in H.
  apply bind_ok_inv in H as (? & w4 & _ & H).
  apply bind_ok_inv in H as (cd & w5 & _ & H).
  apply bind_ok_inv in H as (ty & w6 & _ & H).
  apply bind_ok_inv in H as (ty' & w7 & _ & H).
  apply bind_ok_inv in H as (? & w8 & _ & H).
  apply bind_ok_inv in H as (pm' & w9 & _ & H).
  apply bind_ok_inv in H as (? & w10 & _ & H).
  exact (found_flag_stays _ _ _ _ H).
Qed.

(** ** The generators *)

(** C6 (the behaviour under both generator semantics).  If the
    trackable-page URL of the entity is absent ([None], or an empty text),
    the body of [load_trackables] raises [StopIteration] before any item
    and before any request: the consumer gets no item and no listing is
    fetched.  Under the semantics before PEP 479 the sequence ends
    cleanly; under PEP 479 the consumer gets a [RuntimeError].  When the
    field was never set, the only request is the one of the [load] that
    resolves it. *)
Theorem load_trackables_without_url (sem : GeneratorSemantics) (limit : Limit)
    (fuel : nat) (w : World) (wp : PyVal) :
  self w !! "_wp" = Some wp ->
  (forall url,
      self w !! "_Cache__trackable_page_url" = Some url -> truthy url = false ->
      consume (S fuel) sem load_trackables_body (load_trackables limit) w
      = Some ([], stop_signal sem, trackables_entered wp w)
      /\ requests (trackables_entered wp w) = requests w)
  /\ (forall w1 url,
      self w !! "_Cache__trackable_page_url" = None ->
      load (trackables_entered wp w) = (Ok tt, w1) ->
      self w1 !! "_Cache__trackable_page_url" = Some url -> truthy url = false ->
      consume (S fuel) sem load_trackables_body (load_trackables limit) w
      = Some ([], stop_signal sem, w1)
      /\ length (requests w1) = S (length (requests w))).
Proof.
  intros Hwp. split.
  - intros url Hurl Hfalse. split; [|reflexivity].
    cbn [consume]. unfold next, load_trackables. cbn [gen_finished gen_state].
    unfold load_trackables_body. cbn [tb_started].
    unfold bind at 1. unfold getattr at 1. rewrite Hwp.
    unfold bind at 1. unfold logging_call at 1.
    unfold bind at 1.
    fold (trackables_entered wp w).
    unfold bind at 1.
    rewrite (property_get_set p__trackable_page_url url)
      by (simpl; exact Hurl).
    rewrite Hfalse. cbn [negb]. unfold raise.
    destruct sem; reflexivity.
  - intros w1 url Hunset Hload Hurl Hfalse.
    split.
    + cbn [consume]. unfold next, load_trackables. cbn [gen_finished gen_state].
      unfold load_trackables_body. cbn [tb_started].
      unfold bind at 1. unfold getattr at 1. rewrite Hwp.
      unfold bind at 1. unfold logging_call at 1.
      unfold bind at 1.
      fold (trackables_entered wp w).
      unfold bind at 1.
      rewrite (property_get_lazy p__trackable_page_url) by reflexivity.
      unfold lazy_loaded, bind at 1, self_hasattr. cbn [backing].
      replace (self (trackables_entered wp w)) with (self w) by reflexivity.
      rewrite Hunset.
      rewrite bool_decide_eq_false_2 by (intros [? ?]; discriminate).
      unfold bind. rewrite Hload. unfold getattr. rewrite Hurl.
      rewrite Hfalse. cbn [negb]. unfold raise.
      destruct sem; reflexivity.
    + destruct (load_returns _ _ Hload) as (Hlen & _). exact Hlen.
Qed.

Lemma available_skipn (pages : list (list LogData)) : forall k,
  available (skipn k pages)
  = match nth k pages [] with
    | [] => []
    | page => (page ++ available (skipn (S k) pages))%list
    end.
Proof.
  induction pages as [|page pages IH]; intros k.
  - destruct k; reflexivity.
  - destruct k as [|k].
    + simpl. destruct page; reflexivity.
    + simpl. rewrite IH. reflexivity.
Qed.

Lemma logbook_get_page_ready n0 pages k w per_page :
  logbook_ready n0 pages k w ->
  exists w', _logbook_get_page (Z.of_nat k) per_page w = (Ok (nth k pages []), w')
             /\ logbook_ready n0 pages (S k) w'.
Proof.
  intros [[g Hg] [tkn Htkn] Hlen Hserves].
  destruct (Hserves k) as [m Hm]. rewrite <- Hlen in Hm.
  unfold _logbook_get_page. unfold bind at 1.
  rewrite (property_get_set p__logbook_token tkn) by exact Htkn.
  unfold request_json, _request. unfold bind at 1 2 3. unfold getattr at 1.
  rewrite Hg, Hm. unfold ret. cbn [status msg data]. cbn [String.eqb negb].
  eexists. split; [reflexivity|].
  constructor; simpl; eauto.
  rewrite length_app. simpl. lia.
Qed.

Lemma take_limit_exhausted (l : Limit) (entries : list LogData) :
  limit_negative (limit_pred l) = true -> take_limit l entries = [].
Proof.
  destruct l as [n|]; simpl; [|discriminate].
  intros H. apply Z.ltb_lt in H.
  replace (Z.to_nat n) with O by lia. reflexivity.
Qed.

Lemma take_limit_cons (l : Limit) (entry : LogData) (entries : list LogData) :
  limit_negative (limit_pred l) = false ->
  take_limit l (entry :: entries) = entry :: take_limit (limit_pred l) entries.
Proof.
  destruct l as [n|]; simpl; [|reflexivity].
  intros H. apply Z.ltb_ge in H.
  replace (Z.to_nat n) with (S (Z.to_nat (n - 1))) by lia. reflexivity.
Qed.

Lemma comprehension_cons_inv {A B} (f : A -> Result B) x l ys :
  comprehension f (x :: l) = Ok ys ->
  exists y ys', f x = Ok y /\ comprehension f l = Ok ys' /\ ys = y :: ys'.
Proof.
  simpl. destruct (f x) as [y|]; [|discriminate]. simpl.
  destruct (comprehension f l) as [ys'|]; [|discriminate]. simpl.
  intros H. injection H as <-. eauto.
Qed.

Lemma logbook_for_eq limit page per_page entry rest (w : World) :
  logbook_for limit page per_page entry rest w
  = if limit_negative (limit_pred limit) then (Raise StopIteration, w)
    else match make_log entry with
         | Ok l =>
             (Ok (Yields l (mkLogbookFrame true (limit_pred limit) page
                              per_page rest)), w)
         | Raise e => (Raise e, w)
         end.
Proof.
  unfold logbook_for. destruct (limit_negative (limit_pred limit)); [reflexivity|].
  unfold bind, lift. destruct (make_log entry); reflexivity.
Qed.

Lemma load_logbook_body_pending limit page per_page entry rest (w : World) :
  load_logbook_body (mkLogbookFrame true limit page per_page (entry :: rest)) w
  = logbook_for limit page per_page entry rest w.
Proof. reflexivity. Qed.

Lemma load_logbook_body_fetch limit page per_page (w : World) :
  load_logbook_body (mkLogbookFrame true limit page per_page []) w
  = match _logbook_get_page page per_page w with
    | (Ok [], w') => (Raise StopIteration, w')
    | (Ok (entry :: rest), w') =>
        logbook_for limit (page + 1) per_page entry rest w'
    | (Raise e, w') => (Raise e, w')
    end.
Proof.
  unfold load_logbook_body. cbn [lb_started]. unfold bind at 1. unfold ret at 1.
  cbn [lb_pending lb_page lb_per_page lb_limit]. unfold bind.
  destruct (_logbook_get_page page per_page w) as [[[|entry rest]|e] w'];
    reflexivity.
Qed.

Lemma logbook_get_page_self n0 pages k w per_page r w' :
  logbook_ready n0 pages k w ->
  _logbook_get_page (Z.of_nat k) per_page w = (r, w') -> self w' = self w.
Proof.
  intros [[g Hg] [tkn Htkn] _ _] Hget.
  unfold _logbook_get_page, request_json, _request in Hget.
  unfold bind at 1 in Hget.
  rewrite (property_get_set p__logbook_token tkn) in Hget by exact Htkn.
  run. rewrite Hg in Hget. repeat case_match; simplify_eq; reflexivity.
Qed.

(** The suspended generator, [k] pages fetched, [pending] left of the
    last one: the consumer gets the logs of the next [limit] entries the
    server has, and then the sequence stops. *)
Lemma load_logbook_resumed (sem : GeneratorSemantics) (n0 : nat)
    (pages : list (list LogData)) (per_page : Z) :
  forall (rem pending : list LogData) (k : nat) (limit : Limit) (w : World)
         (made : list Log) (fuel : nat),
    logbook_ready n0 pages k w ->
    rem = (pending ++ available (skipn k pages))%list ->
    comprehension make_log (take_limit limit rem) = Ok made ->
    (length made < fuel)%nat ->
    exists w',
      consume fuel sem load_logbook_body
        (mkGenerator (mkLogbookFrame true limit (Z.of_nat k) per_page pending)
                     false) w
      = Some (made, stop_signal sem, w')
      /\ self w' = self w.
Proof.
  induction rem as [|entry rem IH];
    intros pending k limit w made fuel Hready Hrem Hmade Hfuel;
    (destruct fuel as [|fuel]; [lia|]);
    cbn [consume]; unfold next; cbn [gen_finished gen_state].
  - (* nothing left: the next page is empty *)
    symmetry in Hrem. apply app_eq_nil in Hrem as [-> Hav].
    rewrite available_skipn in Hav.
    assert (Hpage : nth k pages [] = []).
    { destruct (nth k pages []); [reflexivity|discriminate]. }
    assert (made = []) as ->.
    { destruct limit; simpl in Hmade; rewrite ?firstn_nil in Hmade;
        injection Hmade as <-; reflexivity. }
    destruct (logbook_get_page_ready n0 pages k w per_page Hready)
      as (w' & Hget & Hready').
    exists w'. split; [|exact (logbook_get_page_self _ _ _ _ _ _ _ Hready Hget)].
    rewrite load_logbook_body_fetch, Hget, Hpage. destruct sem; reflexivity.
  - destruct pending as [|entry' rest].
    + (* a new page is fetched, and it is not empty *)
      simpl in Hrem. rewrite available_skipn in Hrem.
      destruct (nth k pages []) as [|entry' rest] eqn:Hpage; [discriminate|].
      injection Hrem as <- ->.
      destruct (logbook_get_page_ready n0 pages k w per_page Hready)
        as (w1 & Hget & Hready1).
      pose proof (logbook_get_page_self _ _ _ _ _ _ _ Hready Hget) as Hself1.
      rewrite load_logbook_body_fetch, Hget, Hpage, logbook_for_eq.
      destruct (limit_negative (limit_pred limit)) eqn:Hneg.
      * rewrite (take_limit_exhausted _ _ Hneg) in Hmade.
        injection Hmade as <-. exists w1. split; [|exact Hself1].
        destruct sem; reflexivity.
      * rewrite (take_limit_cons _ _ _ Hneg) in Hmade.
        apply comprehension_cons_inv in Hmade as (lg & made' & Hlg & Hmade' & ->).
        rewrite Hlg.
        replace (Z.of_nat k + 1) with (Z.of_nat (S k)) by lia.
        destruct (IH rest (S k) (limit_pred limit) w1 made' fuel Hready1
                    eq_refl Hmade') as (w' & Hrest & Hself');
          [simpl in Hfuel; lia|].
        rewrite Hrest. exists w'. split; [reflexivity|congruence].
    + (* the running [for] loop goes on *)
      simpl in Hrem. injection Hrem as <- ->.
      rewrite load_logbook_body_pending, logbook_for_eq.
      destruct (limit_negative (limit_pred limit)) eqn:Hneg.
      * rewrite (take_limit_exhausted _ _ Hneg) in Hmade.
        injection Hmade as <-. exists w. split; [|reflexivity].
        destruct sem; reflexivity.
      * rewrite (take_limit_cons _ _ _ Hneg) in Hmade.
        apply comprehension_cons_inv in Hmade as (lg & made' & Hlg & Hmade' & ->).
        rewrite Hlg.
        destruct (IH rest k (limit_pred limit) w made' fuel Hready
                    eq_refl Hmade') as (w' & Hrest & Hself');
          [simpl in Hfuel; lia|].
        rewrite Hrest. exists w'. split; [reflexivity|exact Hself'].
Qed.

Lemma comprehension_length {A B} (f : A -> Result B) (l : list A) (ys : list B) :
  comprehension f l = Ok ys -> length ys = length l.
Proof.
  revert ys. induction l as [|x l IH]; intros ys H.
  - injection H as <-. reflexivity.
  - apply comprehension_cons_inv in H as (y & ys' & _ & H & ->).
    simpl. f_equal. apply IH. exact H.
Qed.

Lemma load_logbook_body_enter limit (w : World) (wp : PyVal) :
  self w !! "_wp" = Some wp ->
  load_logbook_body (mkLogbookFrame false limit 0 0 []) w
  = load_logbook_body (mkLogbookFrame true limit 0 (limit_min_100 limit) [])
      (logbook_entered wp w).
Proof.
  intros Hwp. unfold load_logbook_body. cbn [lb_started].
  unfold bind at 1. unfold bind at 1. unfold getattr at 1. rewrite Hwp.
  unfold bind at 1. unfold logging_call at 1. unfold ret at 1.
  fold (logbook_entered wp w). cbn [lb_limit].
  unfold bind at 2. unfold ret at 1. reflexivity.
Qed.

(** C3 (the behaviour under both generator semantics).  For every limit
    and every script of successful log pages (empty pages after its end),
    on an entity with a GC code, a session and a logbook token, and when
    the entries to be yielded are well formed: the consumer of
    [load_logbook(limit)] gets exactly the logs of the first [limit]
    entries of the pages before the first empty page, that is
    [min(limit, available)] logs, each fully built, and then the body
    raises [StopIteration].  Under the semantics before PEP 479 this ends
    the sequence cleanly; under PEP 479 the consumer gets a
    [RuntimeError] after the last log. *)
Theorem load_logbook_yields_limit (sem : GeneratorSemantics) (limit : Limit)
    (pages : list (list LogData)) (w : World) (wp : PyVal) (made : list Log)
    (fuel : nat) :
  self w !! "_wp" = Some wp ->
  is_Some (self w !! "_geocaching") ->
  is_Some (self w !! "_Cache__logbook_token") ->
  serves w (length (requests w)) pages ->
  comprehension make_log (take_limit limit (available pages)) = Ok made ->
  (length made < fuel)%nat ->
  (exists w',
      consume fuel sem load_logbook_body (load_logbook limit) w
      = Some (made, stop_signal sem, w'))
  /\ length made
     = match limit with
       | Finite n => Nat.min (Z.to_nat n) (length (available pages))
       | Infinite => length (available pages)
       end.
Proof.
  intros Hwp Hg Htkn Hserves Hmade Hfuel. split.
  - assert (Hready : logbook_ready (length (requests w)) pages 0
                       (logbook_entered wp w)).
    { constructor; simpl; auto. }
    destruct (load_logbook_resumed sem (length (requests w)) pages
                (limit_min_100 limit) (available pages) [] 0%nat limit
                (logbook_entered wp w) made fuel Hready eq_refl Hmade Hfuel)
      as (w' & Hrun & _).
    exists w'. rewrite <- Hrun.
    destruct fuel as [|fuel]; [reflexivity|].
    cbn [consume]. unfold next, load_logbook. cbn [gen_finished gen_state].
    rewrite (load_logbook_body_enter limit w wp Hwp).
    destruct (load_logbook_body _ (logbook_entered wp w)) as [[[a g|]|e] w''];
      try reflexivity.
    destruct e, sem; reflexivity.
  - rewrite (comprehension_length _ _ _ Hmade).
    destruct limit as [n|]; simpl; [|reflexivity].
    apply length_firstn.
Qed.


(* ===================================================================== *)
(** * Further properties of the module *)
(* ===================================================================== *)

Context `{services : Services}.

(** ** The enumerations, beyond the round trips *)

Lemma Type_of_value_inv (f : string) (m : Type_.t) :
  Type_.of_value f = Ok m -> Type_.value m = f.
Proof.
  unfold Type_.of_value.
  destruct (List.find _ _) as [m'|] eqn:E; [|discriminate].
  intros [= <-]. apply find_some in E as [_ E].
  apply String.eqb_eq in E. exact E.
Qed.

Lemma Type_of_value_none (f : string) :
  (forall m, f <> Type_.value m) -> Type_.of_value f = Raise BuiltinValueError.
Proof.
  intros H. unfold Type_.of_value.
  destruct (List.find _ _) as [m'|] eqn:E; [|reflexivity].
  apply find_some in E as [_ E]. apply String.eqb_eq in E.
  destruct (H m'). symmetry. exact E.
Qed.

(** X1. [Type.from_filename] accepts exactly the values of the members and the
    second name of the earthcache icon; any other text raises the built-in
    [ValueError] of the enumeration, not [errors.ValueError]. *)
Theorem Type_from_filename_accepts :
  (forall f m,
      Type_.from_filename f = Ok m
      <-> f = Type_.value m \/ (f = "earthcache" /\ m = Type_.earthcache))
  /\ (forall f,
        (forall m, f <> Type_.value m) -> f <> "earthcache" ->
        Type_.from_filename f = Raise BuiltinValueError
        /\ is_validation_error BuiltinValueError = false).
Proof.
  split.
  - intros f m. unfold Type_.from_filename. split.
    + destruct (String.eqb f "earthcache") eqn:E.
      * apply String.eqb_eq in E. intros H. right. split; [exact E|].
        apply Type_of_value_inv in H. destruct m; try discriminate H.
        reflexivity.
      * intros H. left. symmetry. exact (Type_of_value_inv _ _ H).
    + intros [->|[-> ->]]; [|reflexivity].
      destruct (String.eqb (Type_.value m) "earthcache") eqn:E.
      * apply String.eqb_eq in E. destruct (Type_value_not_alias m E).
      * apply Type_of_value_value.
  - intros f Hv He. split; [|reflexivity]. unfold Type_.from_filename.
    destruct (String.eqb f "earthcache") eqn:E.
    + apply String.eqb_eq in E. contradiction.
    + apply Type_of_value_none. exact Hv.
Qed.

Lemma find_key_unique {A} (l : list (string * A)) (k : string) (kv : string * A) :
  NoDup (List.map fst l) ->
  (List.find (fun kv => String.eqb (fst kv) k) l = Some kv
   <-> In kv l /\ fst kv = k).
Proof.
  induction l as [|[k0 a0] l IH]; intros Hnd; simpl.
  - split; [discriminate|intros [[] _]].
  - inversion Hnd as [|? ? Hnot Hnd']; subst.
    destruct (String.eqb k0 k) eqn:E.
    + apply String.eqb_eq in E. subst k0. split.
      * intros [= <-]. split; [left; reflexivity|reflexivity].
      * intros [[<-|Hin] Hk]; [reflexivity|].
        destruct Hnot. apply list_elem_of_In. rewrite <- Hk. apply in_map. exact Hin.
    + apply String.eqb_neq in E. rewrite (IH Hnd'). split.
      * intros [Hin Hk]. split; [right; exact Hin|exact Hk].
      * intros [[<-|Hin] Hk]; [simpl in Hk; contradiction|].
        split; assumption.
Qed.

Lemma name_mapping_keys : NoDup (List.map fst Type_.name_mapping).
Proof. apply (bool_decide_unpack _). vm_compute. exact I. Qed.

(** X2. [Type.from_string] removes [" Geocache"] and [" Cache"] as they are
    written, then lowers the case and strips blanks, and looks the result
    up in the table of names: it returns a member exactly for the names of
    the table, and raises [errors.ValueError] with the looked-up name for
    anything else.  Every name of the table is accepted as it stands, with
    either suffix, and in upper case between blanks. *)
Theorem Type_from_string_accepts :
  let lookup s :=
    PyStr.strip (PyStr.lower
      (PyStr.replace " Cache" "" (PyStr.replace " Geocache" "" s))) in
  (forall s m,
      Type_.from_string s = Ok m <-> In (lookup s, m) Type_.name_mapping)
  /\ (forall s,
        (forall m, ~ In (lookup s, m) Type_.name_mapping) ->
        Type_.from_string s
        = Raise (ValueError ("Unknown cache type '" ++ lookup s ++ "'.")))
  /\ Forall (fun kv =>
               Type_.from_string (fst kv) = Ok (snd kv)
               /\ Type_.from_string (fst kv ++ " Cache") = Ok (snd kv)
               /\ Type_.from_string (fst kv ++ " Geocache") = Ok (snd kv)
               /\ Type_.from_string ("  " ++ PyStr.upper (fst kv) ++ " ")
                  = Ok (snd kv))
            Type_.name_mapping.
Proof.
  cbv zeta. split; [|split].
  - intros s m. unfold Type_.from_string. cbv zeta.
    set (n := PyStr.strip _).
    destruct (List.find _ _) as [kv|] eqn:E.
    + apply (find_key_unique _ _ _ name_mapping_keys) in E as [Hin Hk].
      split.
      * intros [= <-]. rewrite <- Hk. destruct kv. exact Hin.
      * intros Hin'. f_equal.
        assert (H : List.find (fun kv => String.eqb (fst kv) n)
                      Type_.name_mapping = Some (n, m)).
        { apply (find_key_unique _ _ _ name_mapping_keys). split; [exact Hin'|reflexivity]. }
        assert (H' : List.find (fun kv => String.eqb (fst kv) n)
                      Type_.name_mapping = Some kv).
        { apply (find_key_unique _ _ _ name_mapping_keys). split; assumption. }
        rewrite H in H'. injection H' as <-. reflexivity.
    + split; [discriminate|]. intros Hin.
      assert (H : List.find (fun kv => String.eqb (fst kv) n)
                    Type_.name_mapping = Some (n, m)).
      { apply (find_key_unique _ _ _ name_mapping_keys). split; [exact Hin|reflexivity]. }
      rewrite H in E. discriminate.
  - intros s Hnone. unfold Type_.from_string. cbv zeta.
    set (n := PyStr.strip _) in *.
    destruct (List.find _ _) as [kv|] eqn:E; [|reflexivity].
    apply (find_key_unique _ _ _ name_mapping_keys) in E as [Hin Hk].
    destruct (Hnone (snd kv)). rewrite <- Hk. destruct kv. exact Hin.
  - unfold Type_.name_mapping.
    repeat (constructor; [vm_compute; repeat split; reflexivity|]).
    constructor.
Qed.

Lemma Size_of_value_inv (v : string) (m : Size.t) :
  Size.of_value v = Ok m <-> v = Size.value m.
Proof.
  unfold Size.of_value. split.
  - destruct (List.find _ _) as [m'|] eqn:E; [|discriminate].
    intros [= <-]. apply find_some in E as [_ E].
    apply String.eqb_eq in E. symmetry. exact E.
  - intros ->. destruct m; reflexivity.
Qed.

Lemma Size_of_name_inv (n : string) (m : Size.t) :
  Size.of_name n = Ok m <-> n = Size.name m.
Proof.
  unfold Size.of_name. split.
  - destruct (List.find _ _) as [m'|] eqn:E; [|discriminate].
    intros [= <-]. apply find_some in E as [_ E].
    apply String.eqb_eq in E. symmetry. exact E.
  - intros ->. destruct m; reflexivity.
Qed.

(** X3. [Size.from_filename] looks a member up by its name and raises
    [KeyError] for any other text; [Size.from_string] looks it up by its
    value after stripping blanks and lowering the case and raises
    [errors.ValueError] for any other text.  The two differ on the member
    whose name and value differ. *)
Theorem Size_by_name_and_by_value :
  (forall n m, Size.from_filename n = Ok m <-> n = Size.name m)
  /\ (forall n, (forall m, n <> Size.name m) ->
                Size.from_filename n = Raise KeyError)
  /\ (forall s m,
        Size.from_string s = Ok m
        <-> PyStr.lower (PyStr.strip s) = Size.value m)
  /\ (forall s, (forall m, PyStr.lower (PyStr.strip s) <> Size.value m) ->
        Size.from_string s
        = Raise (ValueError ("Unknown cache size '"
                             ++ PyStr.lower (PyStr.strip s) ++ "'.")))
  /\ Size.from_filename "not_chosen" = Ok Size.not_chosen
  /\ Size.from_filename "not chosen" = Raise KeyError
  /\ Size.from_string "Not chosen" = Ok Size.not_chosen
  /\ (exists msg, Size.from_string "not_chosen" = Raise (ValueError msg)).
Proof.
  split; [|split; [|split; [|split]]].
  - intros n m. apply Size_of_name_inv.
  - intros n H. unfold Size.from_filename, Size.of_name.
    destruct (List.find _ _) as [m'|] eqn:E; [|reflexivity].
    apply find_some in E as [_ E]. apply String.eqb_eq in E.
    destruct (H m'). symmetry. exact E.
  - intros s m. unfold Size.from_string. cbv zeta.
    rewrite <- Size_of_value_inv.
    destruct (Size.of_value _) as [m'|e] eqn:E.
    + reflexivity.
    + split; [|discriminate].
      destruct (is_builtin_ValueError e); discriminate.
  - intros s H. unfold Size.from_string. cbv zeta.
    destruct (Size.of_value _) as [m'|e] eqn:E.
    + apply Size_of_value_inv in E. destruct (H m' E).
    + unfold Size.of_value in E.
      destruct (List.find _ _); [discriminate|].
      injection E as <-. reflexivity.
  - repeat split; try reflexivity. eexists. vm_compute. reflexivity.
Qed.

(** ** The setters of [guid], [wp] and the texts *)

Lemma take_hex_spec (n : nat) : forall (s r : string),
  take_hex n s = Some r
  <-> exists h, s = h ++ r /\ String.length h = n
                /\ forallb is_hex (list_ascii_of_string h) = true.
Proof.
  induction n as [|n IH]; intros s r; simpl.
  - split.
    + intros [= <-]. exists "". repeat split.
    + intros (h & -> & Hl & _). destruct h; [reflexivity|discriminate].
  - destruct s as [|c s'].
    + split; [discriminate|].
      intros (h & Hs & Hl & _). destruct h; discriminate.
    + destruct (is_hex c) eqn:Ec.
      * rewrite IH. split.
        -- intros (h & -> & Hl & Hh). exists (String c h).
           simpl. rewrite Ec, Hl, Hh. repeat split.
        -- intros (h & Hs & Hl & Hh). destruct h as [|c' h]; [discriminate|].
           simpl in Hs, Hl, Hh. injection Hs as <- ->. injection Hl as Hl.
           apply andb_true_iff in Hh as [_ Hh]. exists h. repeat split; assumption.
      * split; [discriminate|].
        intros (h & Hs & Hl & Hh). destruct h as [|c' h]; [discriminate|].
        simpl in Hs, Hh. injection Hs as <- _. rewrite Ec in Hh. discriminate.
Qed.

Lemma append_empty_r (s : string) : s ++ "" = s.
Proof.
  induction s as [|c s IH]; [reflexivity|].
  change (String c (s ++ "") = String c s). f_equal. exact IH.
Qed.

Lemma match_hex_groups_last (n : nat) (s : string) :
  match_hex_groups [n] s = true
  <-> String.length s = n /\ forallb is_hex (list_ascii_of_string s) = true.
Proof.
  simpl. split.
  - destruct (take_hex n s) as [[|]|] eqn:E; try discriminate. intros _.
    apply take_hex_spec in E as (h & -> & Hl & Hh).
    rewrite append_empty_r. split; assumption. 
  - intros [Hl Hh].
    assert (E : take_hex n s = Some "").
    { apply take_hex_spec. exists s. rewrite append_empty_r. repeat split; assumption. }
    rewrite E. reflexivity.
Qed.

Lemma match_hex_groups_cons (n m : nat) (rest : list nat) (s : string) :
  match_hex_groups (n :: m :: rest) s = true
  <-> exists h s', s = h ++ "-" ++ s' /\ String.length h = n
        /\ forallb is_hex (list_ascii_of_string h) = true
        /\ match_hex_groups (m :: rest) s' = true.
Proof.
  change (match_hex_groups (n :: m :: rest) s)
    with (match take_hex n s with
          | Some (String c s') =>
              Ascii.eqb c "-"%char && match_hex_groups (m :: rest) s'
          | _ => false
          end).
  split.
  - destruct (take_hex n s) as [[|c s']|] eqn:E; try discriminate.
    intros H. apply andb_true_iff in H as [Hc H].
    apply Ascii.eqb_eq in Hc. subst c.
    apply take_hex_spec in E as (h & -> & Hl & Hh).
    exists h, s'. repeat split; assumption.
  - intros (h & s' & -> & Hl & Hh & H).
    assert (E : take_hex n (h ++ "-" ++ s') = Some ("-" ++ s')).
    { apply take_hex_spec. exists h. repeat split; assumption. }
    rewrite E. simpl. exact H.
Qed.

(** X4. The setter of [guid] strips its argument and accepts it exactly when
    what is left has the shape 8-4-4-4-12 of digits and of the letters [a]
    to [f] in lower case; it stores the stripped text.  Any other text
    raises [errors.ValueError] and changes nothing; a value without the
    methods of [str] raises [AttributeError]. *)
Theorem guid_setter_accepts (s : string) (w : World) :
  let hex n h :=
    String.length h = n /\ forallb is_hex (list_ascii_of_string h) = true in
  let shaped g :=
    exists a b c d e,
      g = a ++ "-" ++ b ++ "-" ++ c ++ "-" ++ d ++ "-" ++ e
      /\ hex 8%nat a /\ hex 4%nat b /\ hex 4%nat c /\ hex 4%nat d
      /\ hex 12%nat e in
  (shaped (PyStr.strip s)
   <-> set_guid (VStr s) w
       = (Ok tt, with_self (insert "_guid" (VStr (PyStr.strip s))) w))
  /\ (~ shaped (PyStr.strip s)
      <-> set_guid (VStr s) w
          = (Raise (ValueError ("GUID not well formatted: " ++ PyStr.strip s)),
             w))
  /\ (forall v, str_methods v = Raise AttributeError ->
        set_guid v w = (Raise AttributeError, w)).
Proof.
  cbv zeta.
  assert (Hshape : forall g,
    guid_regex_match g = true
    <-> exists a b c d e,
      g = a ++ "-" ++ b ++ "-" ++ c ++ "-" ++ d ++ "-" ++ e
      /\ (String.length a = 8%nat /\ forallb is_hex (list_ascii_of_string a) = true)
      /\ (String.length b = 4%nat /\ forallb is_hex (list_ascii_of_string b) = true)
      /\ (String.length c = 4%nat /\ forallb is_hex (list_ascii_of_string c) = true)
      /\ (String.length d = 4%nat /\ forallb is_hex (list_ascii_of_string d) = true)
      /\ (String.length e = 12%nat /\ forallb is_hex (list_ascii_of_string e) = true)).
  { intros g. unfold guid_regex_match. split.
    - intros H.
      apply match_hex_groups_cons in H as (a & g1 & -> & Ha1 & Ha2 & H).
      apply match_hex_groups_cons in H as (b & g2 & -> & Hb1 & Hb2 & H).
      apply match_hex_groups_cons in H as (c & g3 & -> & Hc1 & Hc2 & H).
      apply match_hex_groups_cons in H as (d & g4 & -> & Hd1 & Hd2 & H).
      apply match_hex_groups_last in H as [He1 He2].
      exists a, b, c, d, g4. repeat split; assumption.
    - intros (a & b & c & d & e & -> & [Ha1 Ha2] & [Hb1 Hb2] & [Hc1 Hc2]
              & [Hd1 Hd2] & [He1 He2]).
      apply match_hex_groups_cons. exists a. eexists.
      split; [reflexivity|]. split; [assumption|]. split; [assumption|].
      apply match_hex_groups_cons. exists b. eexists.
      split; [reflexivity|]. split; [assumption|]. split; [assumption|].
      apply match_hex_groups_cons. exists c. eexists.
      split; [reflexivity|]. split; [assumption|]. split; [assumption|].
      apply match_hex_groups_cons. exists d. eexists.
      split; [reflexivity|]. split; [assumption|]. split; [assumption|].
      apply match_hex_groups_last. split; assumption. }
  unfold set_guid. run. cbn [str_methods].
  destruct (guid_regex_match (PyStr.strip s)) eqn:E; cbn [negb].
  - apply Hshape in E. split; [|split].
    + split; [reflexivity|intros _; exact E].
    + split; [intros H; destruct (H E)|discriminate].
    + intros v ->. reflexivity.
  - assert (Hn : ~ guid_regex_match (PyStr.strip s) = true)
      by (rewrite E; discriminate).
    rewrite Hshape in Hn. split; [|split].
    + split; [intros H; destruct (Hn H)|discriminate].
    + split; [reflexivity|intros _; exact Hn].
    + intros v ->. reflexivity.
Qed.

Lemma rstrip_idempotent (s : string) : PyStr.rstrip (PyStr.rstrip s) = PyStr.rstrip s.
Proof.
  induction s as [|c s IH]; [reflexivity|]. simpl.
  destruct (PyStr.rstrip s) as [|c' r] eqn:E.
  - destruct (PyStr.is_space c) eqn:Ec; [reflexivity|].
    simpl. rewrite Ec. reflexivity.
  - simpl in IH |- *. rewrite IH. reflexivity.
Qed.

Lemma lstrip_rstrip_lstrip (s : string) :
  PyStr.lstrip (PyStr.rstrip (PyStr.lstrip s)) = PyStr.rstrip (PyStr.lstrip s).
Proof.
  induction s as [|c s IH]; [reflexivity|]. simpl.
  destruct (PyStr.is_space c) eqn:Ec; [exact IH|].
  simpl. destruct (PyStr.rstrip s) as [|c' r]; simpl; rewrite ?Ec; simpl;
    rewrite ?Ec; reflexivity.
Qed.

Lemma strip_idempotent (s : string) : PyStr.strip (PyStr.strip s) = PyStr.strip s.
Proof.
  unfold PyStr.strip. rewrite lstrip_rstrip_lstrip. apply rstrip_idempotent.
Qed.

Lemma is_space_upper_char (c : ascii) :
  PyStr.is_space (PyStr.upper_char c) = PyStr.is_space c.
Proof. destruct c as [[] [] [] [] [] [] [] []]; reflexivity. Qed.

Lemma upper_char_idempotent (c : ascii) :
  PyStr.upper_char (PyStr.upper_char c) = PyStr.upper_char c.
Proof. destruct c as [[] [] [] [] [] [] [] []]; reflexivity. Qed.

Lemma upper_idempotent (s : string) : PyStr.upper (PyStr.upper s) = PyStr.upper s.
Proof.
  induction s as [|c s IH]; [reflexivity|].
  unfold PyStr.upper in *. simpl. rewrite upper_char_idempotent, IH. reflexivity.
Qed.

Lemma upper_lstrip (s : string) :
  PyStr.upper (PyStr.lstrip s) = PyStr.lstrip (PyStr.upper s).
Proof.
  induction s as [|c s IH]; [reflexivity|].
  unfold PyStr.upper in *. simpl. rewrite is_space_upper_char.
  destruct (PyStr.is_space c); [exact IH|reflexivity].
Qed.

Lemma upper_rstrip (s : string) :
  PyStr.upper (PyStr.rstrip s) = PyStr.rstrip (PyStr.upper s).
Proof.
  induction s as [|c s IH]; [reflexivity|].
  unfold PyStr.upper in *. simpl. rewrite <- IH, is_space_upper_char.
  destruct (PyStr.rstrip s); simpl; [|reflexivity].
  destruct (PyStr.is_space c); reflexivity.
Qed.

Lemma upper_strip (s : string) :
  PyStr.upper (PyStr.strip s) = PyStr.strip (PyStr.upper s).
Proof. unfold PyStr.strip. rewrite upper_rstrip, upper_lstrip. reflexivity. Qed.

Lemma with_self_insert_twice (k : string) (v : PyVal) (w : World) :
  with_self (insert k v) (with_self (insert k v) w) = with_self (insert k v) w.
Proof. unfold with_self. simpl. rewrite insert_insert_eq. reflexivity. Qed.

(** X5. The setter of [wp] stores the text of its argument in upper case and
    without surrounding blanks, provided that it then starts with ["GC"];
    otherwise it raises [errors.ValueError] and changes nothing.  The
    stored code is a fixed point: assigning it again stores the same code
    and leaves the entity as it is. *)
Theorem wp_setter_normal_form (v : PyVal) (w : World) :
  let code := PyStr.strip (PyStr.upper (py_str v)) in
  let w1 := with_self (insert "_wp" (VStr code)) w in
  (PyStr.startswith code "GC" = true
   /\ set_wp v w = (Ok tt, w1)
   /\ property_get p_wp w1 = (Ok (VStr code), w1)
   /\ set_wp (VStr code) w1 = (Ok tt, w1))
  \/ (PyStr.startswith code "GC" = false
      /\ set_wp v w
         = (Raise (ValueError ("GC code '" ++ code ++ "' doesn't start with 'GC'.")),
            w)).
Proof.
  cbv zeta. unfold set_wp. run.
  destruct (PyStr.startswith (PyStr.strip (PyStr.upper (py_str v))) "GC") eqn:E;
    cbn [negb]; [left|right; split; reflexivity].
  split; [reflexivity|]. split; [reflexivity|]. split.
  - cbn. unfold getattr. cbn. rewrite lookup_insert_eq. reflexivity.
  - assert (Hfix : PyStr.strip (PyStr.upper (py_str
                     (VStr (PyStr.strip (PyStr.upper (py_str v))))))
                   = PyStr.strip (PyStr.upper (py_str v))).
    { unfold py_str at 1. cbn [str_methods].
      rewrite upper_strip, upper_idempotent. apply strip_idempotent. }
    rewrite Hfix, E. cbn [negb]. rewrite with_self_insert_twice. reflexivity.
Qed.

Lemma lstrip_cut (s : string) :
  (exists pre, s = (pre ++ PyStr.lstrip s)%string /\ PyStr.blank pre = true)
  /\ (forall c r, PyStr.lstrip s = String c r -> PyStr.is_space c = false).
Proof.
  induction s as [|c s [[pre [Hpre Hblank]] Hhead]].
  - split; [exists ""; split; reflexivity|discriminate].
  - cbn [PyStr.lstrip]. destruct (PyStr.is_space c) eqn:Ec.
    + split; [|exact Hhead]. exists (String c pre). split.
      * change (String c s = String c (pre ++ PyStr.lstrip s)%string).
        rewrite <- Hpre. reflexivity.
      * unfold PyStr.blank in *. cbn [list_ascii_of_string forallb].
        rewrite Ec, Hblank. reflexivity.
    + split; [exists ""; split; reflexivity|].
      intros c' r H. injection H as <- _. exact Ec.
Qed.

Lemma append_one_inv (r : string) (c a : ascii) (u : string) :
  String a u = (r ++ String c "")%string ->
  (r = "" /\ a = c /\ u = "")
  \/ (exists r', r = String a r' /\ u = (r' ++ String c "")%string).
Proof.
  destruct r as [|a' r']; intros H.
  - change (String a u = String c "") in H. injection H as -> ->.
    left. repeat split.
  - change (String a u = String a' (r' ++ String c "")%string) in H.
    injection H as -> ->. right. exists r'. split; reflexivity.
Qed.

Lemma rstrip_cut (s : string) :
  (exists post, s = (PyStr.rstrip s ++ post)%string /\ PyStr.blank post = true)
  /\ (forall r c, PyStr.rstrip s = (r ++ String c "")%string ->
        PyStr.is_space c = false).
Proof.
  induction s as [|a s [[post [Hpost Hblank]] Hlast]].
  - split; [exists ""; split; reflexivity|].
    intros [|a r] c H; discriminate H.
  - cbn [PyStr.rstrip]. destruct (PyStr.rstrip s) as [|a' u] eqn:E.
    + change (s = post) in Hpost. subst post.
      destruct (PyStr.is_space a) eqn:Ea.
      * split.
        -- exists (String a s). split; [reflexivity|].
           unfold PyStr.blank in *. cbn [list_ascii_of_string forallb].
           rewrite Ea, Hblank. reflexivity.
        -- intros [|a0 r] c H; discriminate H.
      * split; [exists s; split; [reflexivity|exact Hblank]|].
        intros r c H. apply append_one_inv in H as [(_ & -> & _)|(r' & _ & H)].
        -- exact Ea.
        -- destruct r'; discriminate H.
    + split.
      * exists post. split; [|exact Hblank].
        change (String a s = String a (String a' u ++ post)%string).
        rewrite <- Hpost. reflexivity.
      * intros r c H. apply append_one_inv in H as [(_ & _ & H)|(r' & _ & H)].
        -- discriminate H.
        -- exact (Hlast r' c H).
Qed.

Lemma rstrip_head (s : string) (c : ascii) (r : string) :
  PyStr.rstrip s = String c r -> exists r', s = String c r'.
Proof.
  destruct s as [|a s]; [discriminate|]. cbn [PyStr.rstrip].
  destruct (PyStr.rstrip s); [destruct (PyStr.is_space a)|];
    intros H; try discriminate H; injection H as -> _; eauto.
Qed.

(** [strip] cuts blanks from both ends and nothing else. *)
Lemma strip_cut (s : string) :
  (exists pre post,
     s = (pre ++ PyStr.strip s ++ post)%string
     /\ PyStr.blank pre = true /\ PyStr.blank post = true)
  /\ (forall c r, PyStr.strip s = String c r -> PyStr.is_space c = false)
  /\ (forall r c, PyStr.strip s = (r ++ String c "")%string ->
        PyStr.is_space c = false).
Proof.
  unfold PyStr.strip.
  destruct (lstrip_cut s) as [[pre [Hpre Hbpre]] Hhead].
  destruct (rstrip_cut (PyStr.lstrip s)) as [[post [Hpost Hbpost]] Hlast].
  split; [|split; [|exact Hlast]].
  - exists pre, post. split; [|split; assumption].
    rewrite <- Hpost. exact Hpre.
  - intros c r H. apply rstrip_head in H as [r' H]. exact (Hhead c r' H).
Qed.

(** X6. For a text [s] of ASCII characters, the setters of [name],
    [author], [summary], [description] and [hint] store [s] without the
    blanks at its ends: the stored text is [s] with a run of blanks cut
    from the front and one from the back, and it neither starts nor ends
    with a blank.  The getter returns the stored text without loading, and
    the stored text is a fixed point: assigning what was read back leaves
    the entity as it is. *)
Theorem text_setters_strip (p : property) (s : string) (w : World) :
  In p [p_name; p_author; p_summary; p_description; p_hint] ->
  PyStr.is_ascii s = true ->
  let t := PyStr.strip s in
  let w1 := with_self (insert (backing p) (VStr t)) w in
  property_set p (VStr s) w = (Ok tt, w1)
  /\ property_get p w1 = (Ok (VStr t), w1)
  /\ property_set p (VStr t) w1 = (Ok tt, w1)
  /\ (exists pre post,
        s = (pre ++ t ++ post)%string
        /\ PyStr.blank pre = true /\ PyStr.blank post = true)
  /\ (forall c r, t = String c r -> PyStr.is_space c = false)
  /\ (forall r c, t = (r ++ String c "")%string -> PyStr.is_space c = false).
Proof.
  intros Hp _. cbv zeta.
  assert (Hget : forall k, getattr k (with_self (insert k (VStr (PyStr.strip s))) w)
                 = (Ok (VStr (PyStr.strip s)),
                    with_self (insert k (VStr (PyStr.strip s))) w)).
  { intros k. unfold getattr. cbn. rewrite lookup_insert_eq. reflexivity. }
  simpl in Hp.
  destruct Hp as [<-|[<-|[<-|[<-|[<-|[]]]]]]; cbn [property_set backing];
    unfold set_name, set_author, set_summary, set_description, set_hint,
      setattr, py_str; cbn [str_methods];
    (split; [reflexivity|]);
    (split; [rewrite property_get_lazy by reflexivity;
             unfold lazy_loaded, bind, self_hasattr; cbn [backing self with_self];
             rewrite lookup_insert_eq;
             rewrite bool_decide_eq_true_2 by (eexists; reflexivity);
             apply Hget|]);
    (split; [rewrite strip_idempotent, with_self_insert_twice; reflexivity|]);
    exact (strip_cut s).
Qed.

(** ** The constructors *)

Lemma establishes_property_set_nil (p : property) (v : PyVal) :
  establishes (property_set p v) [].
Proof.
  destruct (decide (p = p_attributes)) as [->|Hne].
  - apply establishes_set_attributes_nil.
  - eapply establishes_incl; [apply establishes_property_set; exact Hne|].
    intros k [].
Qed.

Lemma establishes_setattr_known (kw : string * option property) (v : PyVal) :
  establishes (setattr_known kw v) [].
Proof.
  unfold setattr_known. destruct (snd kw).
  - apply establishes_property_set_nil.
  - apply establishes_setattr_nil.
Qed.

Lemma keeps_setattr_known (kw : string * option property) (v : PyVal)
    (k : string) :
  In kw known_kwargs -> k = "_wp" \/ k = "_geocaching" ->
  keeps (setattr_known kw v) k.
Proof.
  intros Hin Hk. unfold known_kwargs in Hin. simpl in Hin.
  repeat (destruct Hin as [<-|Hin];
          [ unfold setattr_known; cbn [snd fst];
            first [ apply keeps_property_set; destruct Hk as [->| ->]; discriminate
                  | apply keeps_setattr; destruct Hk as [->| ->]; discriminate ]
          | ]).
  destruct Hin.
Qed.

Lemma Cache__init__walk_written (geocaching wp : PyVal)
    (kwargs : list (PyVal * PyVal)) :
  Cache__init__ geocaching wp kwargs
  = Cache__init__walk known_kwargs geocaching wp kwargs.
Proof. reflexivity. Qed.

(** X7. Whatever the arguments and the order in which the known keywords are
    walked, [Cache.__init__] makes no request and leaves the replies of
    the server as they are.  When it returns, the session it was given
    has a [_request] method and is stored, and the GC code is the
    normalised text of the argument [wp], which starts with ["GC"]; with
    [wp = None] the code is left as it was (unset on a new object). *)
Theorem init_makes_no_request (order : list (string * option property))
    (geocaching wp : PyVal) (kwargs : list (PyVal * PyVal))
    (w w' : World) (r : Result unit) :
  (forall kw, In kw order -> In kw known_kwargs) ->
  Cache__init__walk order geocaching wp kwargs w = (r, w') ->
  requests w' = requests w /\ responses w' = responses w
  /\ (r = Ok tt ->
      self w' !! "_geocaching" = Some geocaching
      /\ hasattr geocaching "_request" = true
      /\ (type_of wp <> T_NoneType ->
          self w' !! "_wp"
          = Some (VStr (PyStr.strip (PyStr.upper (py_str wp))))
          /\ PyStr.startswith (PyStr.strip (PyStr.upper (py_str wp))) "GC" = true)
      /\ (type_of wp = T_NoneType -> self w' !! "_wp" = self w !! "_wp")).
Proof.
  intros Horder H.
  assert (Hloop : forall k, k = "_wp" \/ k = "_geocaching" ->
            keeps (for_each order (fun kw =>
                     match dict_get (fst kw) kwargs with
                     | Some v => setattr_known kw v
                     | None => ret tt
                     end)) k).
  { intros k Hk. clear H. induction order as [|kw order IH]; simpl.
    - apply keeps_ret.
    - apply keeps_bind.
      + destruct (dict_get (fst kw) kwargs).
        * apply keeps_setattr_known; [apply Horder; left; reflexivity|exact Hk].
        * apply keeps_ret.
      + intros _. apply IH. intros kw' Hin. apply Horder. right. exact Hin. }
  assert (Hest : establishes (Cache__init__walk order geocaching wp kwargs) []).
  { unfold Cache__init__walk.
    apply establishes_bind_frame; [est|intros _].
    apply establishes_bind_frame; [est|intros _].
    apply establishes_for_each. intros kw.
    destruct (dict_get (fst kw) kwargs);
      [apply establishes_setattr_known|apply establishes_ret]. }
  destruct (Hest _ _ _ H) as (Hreq & Hresp & _ & _).
  split; [exact Hreq|]. split; [exact Hresp|]. intros ->.
  unfold Cache__init__walk in H.
  apply bind_ok_inv in H as ([] & w1 & Hg & H).
  apply bind_ok_inv in H as ([] & w2 & Hwp & H).
  unfold set_geocaching in Hg.
  destruct (hasattr geocaching "_request") eqn:Ehas; cbn [negb] in Hg;
    [|discriminate Hg].
  unfold setattr in Hg. injection Hg as <-.
  rewrite (Hloop "_geocaching" (or_intror eq_refl) _ _ _ H).
  rewrite (Hloop "_wp" (or_introl eq_refl) _ _ _ H).
  destruct (type_is wp T_NoneType) eqn:Et; cbn [negb] in Hwp.
  - unfold ret in Hwp. injection Hwp as <-.
    apply bool_decide_eq_true_1 in Et.
    split; [cbn; apply lookup_insert_eq|]. split; [reflexivity|].
    split; [intros Hne; contradiction|].
    intros _. cbn. rewrite lookup_insert_ne by discriminate. reflexivity.
  - apply bool_decide_eq_false_1 in Et.
    unfold set_wp in Hwp.
    destruct (PyStr.startswith _ "GC") eqn:Egc; cbn [negb] in Hwp;
      [|discriminate Hwp].
    unfold setattr in Hwp. injection Hwp as <-.
    split; [cbn; rewrite lookup_insert_ne by discriminate; apply lookup_insert_eq|].
    split; [reflexivity|].
    split; [intros _; split; [cbn; apply lookup_insert_eq|reflexivity]|].
    intros Hnone. contradiction.
Qed.

(** X8. [Cache.__init__] looks the known keywords up in its keyword arguments
    and at nothing else: two calls whose keyword arguments agree on the
    known keywords do the same, so a keyword that is not known (a
    misspelt one, say) is dropped without an error. *)
Theorem init_ignores_unknown_keywords (order : list (string * option property))
    (geocaching wp : PyVal) (kwargs kwargs' : list (PyVal * PyVal))
    (w : World) :
  (forall kw, In kw order ->
     dict_get (fst kw) kwargs = dict_get (fst kw) kwargs') ->
  Cache__init__walk order geocaching wp kwargs w
  = Cache__init__walk order geocaching wp kwargs' w.
Proof.
  intros Hagree. unfold Cache__init__walk.
  unfold bind at 1 3. destruct (set_geocaching geocaching w) as [[[]|e] w1];
    [|reflexivity].
  unfold bind at 1 2.
  destruct ((if negb (type_is wp T_NoneType) then set_wp wp else ret tt) w1)
    as [[[]|e] w2]; [|reflexivity].
  clear w w1. revert w2.
  induction order as [|kw order IH]; intros w; [reflexivity|].
  cbn [for_each]. rewrite (Hagree kw (or_introl eq_refl)).
  unfold bind at 1 2.
  destruct (match dict_get (fst kw) kwargs' with
            | Some v => setattr_known kw v
            | None => ret tt
            end w) as [[[]|e] w1]; [|reflexivity].
  apply IH. intros kw' Hin. apply Hagree. right. exact Hin.
Qed.

Lemma self_hasattr_true (k : string) (v : PyVal) (w : World) :
  self w !! k = Some v -> self_hasattr k w = (Ok true, w).
Proof.
  intros H. unfold self_hasattr.
  rewrite bool_decide_eq_true_2 by (eexists; exact H). reflexivity.
Qed.

Lemma self_hasattr_false (k : string) (w : World) :
  self w !! k = None -> self_hasattr k w = (Ok false, w).
Proof.
  intros H. unfold self_hasattr.
  rewrite bool_decide_eq_false_2 by (rewrite H; intros [? ?]; discriminate).
  reflexivity.
Qed.

Lemma getattr_some (k : string) (v : PyVal) (w : World) :
  self w !! k = Some v -> getattr k w = (Ok v, w).
Proof. intros H. unfold getattr. rewrite H. reflexivity. Qed.

Lemma getattr_none (k : string) (w : World) :
  self w !! k = None -> getattr k w = (Raise AttributeError, w).
Proof. intros H. unfold getattr. rewrite H. reflexivity. Qed.

(** What [request_document] does. *)
Lemma request_document_eq (url : string) (params : list (string * PyVal))
    (w : World) :
  request_document url params w
  = match self w !! "_geocaching" with
    | None => (Raise AttributeError, w)
    | Some _ =>
        (match responses w (length (requests w)) with
         | Html d => Ok d
         | HttpError m => Raise (Error m)
         | Json _ => Raise (Error "unexpected content")
         end,
         with_request {| req_url := url; req_params := params;
                         req_expect_json := false |} w)
    end.
Proof.
  unfold request_document, _request. unfold bind at 1 2.
  destruct (self w !! "_geocaching") as [g|] eqn:Eg.
  - rewrite (getattr_some _ _ _ Eg).
    destruct (responses w (length (requests w))); reflexivity.
  - rewrite (getattr_none _ _ Eg). reflexivity.
Qed.

(** What [load_request] does, case by case. *)
Lemma load_request_eq (w : World) :
  let answer url params :=
    match self w !! "_geocaching" with
    | None => (Raise AttributeError, w)
    | Some _ =>
        (match responses w (length (requests w)) with
         | Html d => Ok d
         | _ => Raise (LoadError "Error in loading cache")
         end,
         with_request {| req_url := url; req_params := params;
                         req_expect_json := false |} w)
    end in
  load_request w
  = match self w !! "url", self w !! "_wp" with
    | Some url, _ => answer (py_str url) []
    | None, Some wp => answer (_urls "cache_details") [("wp", wp)]
    | None, None => (Raise (LoadError "Error in loading cache"), w)
    end.
Proof.
  cbv zeta. unfold load_request, try_except. unfold bind at 1.
  destruct (self w !! "url") as [url|] eqn:Eu.
  - rewrite (self_hasattr_true _ _ _ Eu). unfold bind at 1.
    rewrite (getattr_some _ _ _ Eu), request_document_eq.
    destruct (self w !! "_geocaching"); [|reflexivity].
    destruct (responses w (length (requests w))); reflexivity.
  - rewrite (self_hasattr_false _ _ Eu). unfold bind at 1.
    destruct (self w !! "_wp") as [wp|] eqn:Ew.
    + rewrite (self_hasattr_true _ _ _ Ew). unfold bind at 1.
      rewrite (getattr_some _ _ _ Ew), request_document_eq.
      destruct (self w !! "_geocaching"); [|reflexivity].
      destruct (responses w (length (requests w))); reflexivity.
    + rewrite (self_hasattr_false _ _ Ew). reflexivity.
Qed.

Lemma load_requests (w : World) :
  requests (snd (load w)) = requests (snd (load_request w)).
Proof.
  unfold load, bind. destruct (load_request w) as [[d|e] w1]; [|reflexivity].
  destruct (load_parse d w1) as [r w2] eqn:E.
  destruct (establishes_load_parse d _ _ _ E) as (Hq & _). exact Hq.
Qed.

Lemma Cache_from_trackable_eq (geocaching location_url : PyVal) (w : World) :
  hasattr geocaching "_request" = true ->
  Cache_from_trackable geocaching location_url w
  = (Ok tt, with_self (insert "url" location_url)
              (with_self (insert "_geocaching" geocaching) w)).
Proof.
  intros Ehas.
  unfold Cache_from_trackable, Cache__init__, set_geocaching.
  rewrite Ehas. reflexivity.
Qed.

Lemma set_geocaching_ok (geocaching : PyVal) (w w1 : World) :
  set_geocaching geocaching w = (Ok tt, w1) ->
  hasattr geocaching "_request" = true.
Proof.
  unfold set_geocaching.
  destruct (hasattr geocaching "_request"); [reflexivity|discriminate].
Qed.

(** X9. A cache made by [Cache.from_trackable] has the URL of the trackable's
    location and no GC code: its text form is not available
    ([AttributeError]), and its first load asks for that URL, without
    parameters, whatever the server then answers. *)
Theorem from_trackable_loads_by_url (geocaching location_url : PyVal)
    (server : nat -> Response) (w1 : World) :
  Cache_from_trackable geocaching location_url (new_world server) = (Ok tt, w1) ->
  self w1 !! "url" = Some location_url
  /\ self w1 !! "_wp" = None
  /\ requests w1 = []
  /\ Cache__str__ w1 = (Raise AttributeError, w1)
  /\ requests (snd (load w1))
     = [ {| req_url := py_str location_url; req_params := [];
            req_expect_json := false |} ].
Proof.
  intros H.
  assert (Ehas : hasattr geocaching "_request" = true).
  { revert H. unfold Cache_from_trackable, Cache__init__. unfold bind at 1.
    destruct (set_geocaching geocaching (new_world server)) as [[[]|e] w0] eqn:E;
      [|discriminate].
    intros _. exact (set_geocaching_ok _ _ _ E). }
  rewrite (Cache_from_trackable_eq _ _ _ Ehas) in H. injection H as <-.
  assert (Hurl : self (with_self (insert "url" location_url)
                   (with_self (insert "_geocaching" geocaching)
                      (new_world server))) !! "url" = Some location_url)
    by (cbn [self with_self]; apply lookup_insert_eq).
  assert (Hwp : self (with_self (insert "url" location_url)
                   (with_self (insert "_geocaching" geocaching)
                      (new_world server))) !! "_wp" = None).
  { cbn [self with_self new_world].
    rewrite !lookup_insert_ne by discriminate. apply lookup_empty. }
  assert (Hg : self (with_self (insert "url" location_url)
                   (with_self (insert "_geocaching" geocaching)
                      (new_world server))) !! "_geocaching" = Some geocaching).
  { cbn [self with_self new_world].
    rewrite lookup_insert_ne by discriminate. apply lookup_insert_eq. }
  split; [exact Hurl|]. split; [exact Hwp|]. split; [reflexivity|].
  split.
  - unfold Cache__str__. unfold bind. rewrite (getattr_none _ _ Hwp). reflexivity.
  - rewrite load_requests, load_request_eq. cbv zeta. rewrite Hurl, Hg.
    reflexivity.
Qed.

Lemma Cache_from_block_eq (geocaching cache_wp cache_name : PyVal) (p : Point)
    (w : World) :
  hasattr geocaching "_request" = true ->
  (type_is cache_wp T_NoneType = false ->
   PyStr.startswith (PyStr.strip (PyStr.upper (py_str cache_wp))) "GC" = true) ->
  Cache_from_block geocaching cache_wp cache_name (Ok p) w
  = (Ok tt,
     with_self (insert "_location" (VPoint p))
       (with_self (insert "_name" (VStr (PyStr.strip (py_str cache_name))))
          ((if type_is cache_wp T_NoneType then fun w => w
            else with_self
                   (insert "_wp"
                      (VStr (PyStr.strip (PyStr.upper (py_str cache_wp))))))
             (with_self (insert "_geocaching" geocaching) w)))).
Proof.
  intros Ehas Hgc.
  unfold Cache_from_block, Cache__init__, set_geocaching, set_wp.
  rewrite Ehas.
  destruct (type_is cache_wp T_NoneType); cbn [negb].
  - reflexivity.
  - rewrite (Hgc eq_refl). reflexivity.
Qed.

(** X10. A cache made by [Cache.from_block] knows its name and its location,
    which can be read without a request, and no other lazy-loaded field. *)
Theorem from_block_known_fields (geocaching cache_wp cache_name : PyVal)
    (p : Point) (server : nat -> Response) (w1 : World) :
  Cache_from_block geocaching cache_wp cache_name (Ok p) (new_world server)
  = (Ok tt, w1) ->
  requests w1 = []
  /\ property_get p_name w1 = (Ok (VStr (PyStr.strip (py_str cache_name))), w1)
  /\ property_get p_location w1 = (Ok (VPoint p), w1)
  /\ (forall q, In q lazy_properties -> q <> p_name -> q <> p_location ->
        self w1 !! backing q = None).
Proof.
  intros H.
  assert (Hpre : hasattr geocaching "_request" = true
                 /\ (type_is cache_wp T_NoneType = false ->
                     PyStr.startswith
                       (PyStr.strip (PyStr.upper (py_str cache_wp))) "GC" = true)).
  { revert H. unfold Cache_from_block, Cache__init__.
    unfold bind at 1 2.
    destruct (set_geocaching geocaching (new_world server)) as [[[]|e] w0] eqn:E;
      [|discriminate].
    split; [exact (set_geocaching_ok _ _ _ E)|]. intros Et.
    revert H. unfold bind at 1. rewrite Et. cbn [negb]. unfold set_wp.
    destruct (PyStr.startswith _ "GC"); [reflexivity|discriminate]. }
  destruct Hpre as [Ehas Hgc].
  rewrite (Cache_from_block_eq _ _ _ _ _ Ehas Hgc) in H. injection H as <-.
  split; [destruct (type_is cache_wp T_NoneType); reflexivity|].
  split; [apply property_get_set; cbn [backing self with_self];
          rewrite lookup_insert_ne by discriminate; apply lookup_insert_eq|].
  split; [apply property_get_set; cbn [backing self with_self];
          apply lookup_insert_eq|].
  intros q Hq Hn Hl. simpl in Hq.
  repeat (destruct Hq as [<-|Hq];
          [ try contradiction; cbn [backing self with_self];
            destruct (type_is cache_wp T_NoneType);
            cbn [self with_self new_world];
            rewrite !lookup_insert_ne by discriminate; apply lookup_empty
          | ]).
  destruct Hq.
Qed.

(** ** What [load] stores *)

Lemma keeps_all_self {A} (m : M A) (w w' : World) (r : Result A) :
  (forall k, keeps m k) -> m w = (r, w') -> self w' = self w.
Proof. intros K H. apply map_eq. intros k. exact (K k _ _ _ H). Qed.

Lemma Waypoint_from_html_self (soup : Document) (table_id : string)
    (w w' : World) (r : Result PyVal) :
  Waypoint_from_html soup table_id w = (r, w') -> self w' = self w.
Proof.
  apply keeps_all_self. intros k. unfold Waypoint_from_html.
  destruct (table_rows soup table_id); kp.
Qed.

Lemma set_attributes_loop_self (items : list (PyVal * PyVal)) :
  forall (w w' : World) (acc : list (PyVal * PyVal)) (r : Result unit),
    self w !! "_attributes" = Some (VDict acc) ->
    for_each items set_attributes_item w = (r, w') ->
    exists acc', self w' = <["_attributes" := VDict acc']> (self w).
Proof.
  induction items as [|item items IH]; intros w w' acc r Hacc H.
  - injection H as _ <-. exists acc. symmetry. apply insert_id. exact Hacc.
  - cbn [for_each] in H. apply bind_inv in H as [(a & w1 & Hitem & H)|(e & Hitem & _)].
    + unfold set_attributes_item in Hitem.
      apply bind_ok_inv in Hitem as (name & w0 & Hname & Hitem).
      apply lift_ok_inv in Hname as [_ ->]. cbv zeta in Hitem.
      destruct (is_possible_attribute _).
      * unfold attributes_setitem in Hitem.
        apply bind_ok_inv in Hitem as (d & w0 & Hd & Hitem).
        unfold getattr in Hd. rewrite Hacc in Hd. injection Hd as <- <-.
        unfold setattr in Hitem. injection Hitem as _ <-.
        destruct (IH _ _ _ _ (lookup_insert_eq _ _ _) H) as [acc' Hself].
        exists acc'. rewrite Hself. cbn [self with_self].
        apply insert_insert_eq.
      * unfold logging_call in Hitem. injection Hitem as _ <-.
        destruct (IH (with_log _ _ w) _ acc _ Hacc H) as [acc' Hs].
        exists acc'. exact Hs.
    + unfold set_attributes_item in Hitem.
      apply bind_inv in Hitem as [(name & w0 & Hname & Hitem)|(e' & Hname & _)].
      * unfold lift in Hname. injection Hname as _ <-. cbv zeta in Hitem.
        destruct (is_possible_attribute _).
        -- unfold attributes_setitem in Hitem.
           apply bind_inv in Hitem as [(d & w1 & Hd & Hitem)|(e' & Hd & _)].
           ++ unfold setattr in Hitem. discriminate Hitem.
           ++ unfold getattr in Hd. rewrite Hacc in Hd. discriminate Hd.
        -- unfold logging_call in Hitem. discriminate Hitem.
      * unfold lift in Hname. injection Hname as _ <-.
        exists acc. symmetry. apply insert_id. exact Hacc.
Qed.

Lemma load_attributes_self (widget : Widget) (w w' : World) :
  load_attributes widget w = (Ok tt, w') ->
  exists items, self w' = <["_attributes" := VDict items]> (self w).
Proof.
  intros H. unfold load_attributes in H.
  apply bind_ok_inv in H as (raw & w0 & Hraw & H).
  apply lift_ok_inv in Hraw as [_ ->].
  apply bind_ok_inv in H as (attrs & w0 & Hattrs & H).
  apply lift_ok_inv in Hattrs as [_ ->].
  unfold set_attributes in H.
  change (type_is (VDict attrs) T_dict) with true in H. cbn [negb] in H.
  apply bind_ok_inv in H as ([] & w0 & Hset & H).
  unfold setattr in Hset. injection Hset as <-.
  destruct (set_attributes_loop_self _ _ _ [] _ (lookup_insert_eq _ _ _) H)
    as [items Hself].
  exists items. rewrite Hself. cbn [self with_self]. apply insert_insert_eq.
Qed.

Lemma setattr_ok_inv (k : string) (v : PyVal) (w w' : World) (a : unit) :
  setattr k v w = (Ok a, w') -> w' = with_self (insert k v) w.
Proof. unfold setattr. intros [= _ <-]. reflexivity. Qed.

Lemma getattr_ok_inv (k : string) (v : PyVal) (w w' : World) :
  getattr k w = (Ok v, w') -> self w !! k = Some v /\ w' = w.
Proof.
  unfold getattr. destruct (self w !! k); [|discriminate].
  intros [= <- <-]. split; reflexivity.
Qed.

(** The value [load] computes for [pm_only] from the warning paragraph. *)
Lemma pm_only_warning_value (warning : option string) :
  result_bind
    (py_and (tag_or_None warning) (fun _ =>
       result_bind (deref warning) (fun text =>
       Ok (VBool (PyStr.contains "Premium Member Only" text)))))
    (fun v => py_or v (fun _ => Ok (VBool false)))
  = Ok (VBool match warning with
              | Some text => PyStr.contains "Premium Member Only" text
              | None => false
              end).
Proof.
  destruct warning as [text|]; [|reflexivity].
  cbn. destruct (PyStr.contains _ text); reflexivity.
Qed.

(** The instance dictionary after the second half of a full load, field
    by field. *)
Lemma load_full_details_inv (root : Document) (cache_details : DetailsElem)
    (w w1 : World) :
  load_full_details root cache_details w = (Ok tt, w1) ->
  exists hidden location attributes summary description hint favorites token
         original trackables waypoints,
    self w1
    = <["_waypoints" := waypoints]>
      (<["_Cache__trackable_page_url" := trackables]>
      (<["_original_location" := original]>
      (<["_Cache__logbook_token" := VStr token]>
      (<["_favorites" := VInt favorites]>
      (<["_hint" := VStr (PyStr.strip (rot13 (PyStr.strip hint)))]>
      (<["_description" := VStr (PyStr.strip (snd description))]>
      (<["_summary" := VStr (PyStr.strip (fst summary))]>
      (<["_attributes" := VDict attributes]>
      (<["_found" := VBool (bool_decide (is_Some (FoundStatus_text root)))]>
      (<["_state" := VBool (negb (OldWarning root))]>
      (<["_location" := VPoint location]>
      (<["_hidden" := VDate hidden]>
      (<["_pm_only" :=
           VBool match Warning_NoBottomSpacing_text root with
                 | Some text => PyStr.contains "Premium Member Only" text
                 | None => false
                 end]> (self w))))))))))))))
    /\ (exists inventory_widget,
          nth_error (NavigationWidgets root) 1 = Some inventory_widget
          /\ if (3 <=? widget_a_count inventory_widget)%nat
             then exists href,
                    widget_view_all_href inventory_widget = Some (Some href)
                    /\ trackables = VStr (PyStr.drop 3 href)
             else trackables = VNone)
    /\ (exists text, uxLatLon_text root = Some text
                     /\ Point_from_string text = Ok location)
    /\ index (UserSuppliedContent root) 0 = Ok summary
    /\ index (UserSuppliedContent root) 1 = Ok description
    /\ div_hint_text root = Some hint
    /\ match favorite_value_text root with
       | None => favorites = 0
       | Some text => int_of_str text = Ok favorites
       end
    /\ index (findall_userToken (PyStr.join newline (script_texts root))) 0
       = Ok token
    /\ (PyStr.contains oldLatLng_marker (PyStr.join newline (script_texts root))
        = false -> original = VNone)
    /\ (PyStr.contains oldLatLng_marker (PyStr.join newline (script_texts root))
        = true -> exists p, original = VPoint p).
Proof.
  intros H. unfold load_full_details in H. cbv zeta in H.
  rewrite pm_only_warning_value in H.
  apply bind_ok_inv in H as (pm & w2 & Hpm & H).
  apply lift_ok_inv in Hpm as [[= <-] ->].
  apply bind_ok_inv in H as ([] & w3 & Hs & H).
  apply setattr_ok_inv in Hs. subst w3.
  apply bind_ok_inv in H as (widgets & w4 & Hwidgets & H).
  apply lift_ok_inv in Hwidgets as [Hwidgets ->].
  apply bind_ok_inv in H as (divs & w5 & Hdivs & H).
  apply lift_ok_inv in Hdivs as [_ ->].
  apply bind_ok_inv in H as (hidden0 & w6 & Hh0 & H).
  apply lift_ok_inv in Hh0 as [_ ->].
  apply bind_ok_inv in H as (hidden & w7 & Hh & H).
  apply lift_ok_inv in Hh as [_ ->].
  apply bind_ok_inv in H as ([] & w8 & Hs & H).
  unfold set_hidden in Hs.
  change (type_is (VDate hidden) T_str) with false in Hs.
  change (type_is (VDate hidden) T_date) with true in Hs.
  cbn [negb] in Hs. apply setattr_ok_inv in Hs. subst w8.
  apply bind_ok_inv in H as (latlon & w9 & Hlatlon & H).
  apply lift_ok_inv in Hlatlon as [Hlatlon ->].
  apply bind_ok_inv in H as (location & w10 & Hloc & H).
  apply lift_ok_inv in Hloc as [Hloc ->].
  apply bind_ok_inv in H as ([] & w11 & Hs & H).
  unfold set_location in Hs.
  change (type_is (VPoint location) T_str) with false in Hs.
  change (type_is (VPoint location) T_Point) with true in Hs.
  cbn [negb] in Hs. apply setattr_ok_inv in Hs. subst w11.
  apply bind_ok_inv in H as ([] & w12 & Hs & H).
  apply setattr_ok_inv in Hs. subst w12.
  apply bind_ok_inv in H as (found_value & w13 & Hfound & H).
  apply lift_ok_inv in Hfound as [Hfound ->].
  rewrite found_status_value in Hfound. injection Hfound as <-.
  apply bind_ok_inv in H as ([] & w14 & Hs & H).
  apply setattr_ok_inv in Hs. subst w14.
  apply bind_ok_inv in H as ([] & w15 & Hattr & H).
  apply load_attributes_self in Hattr as [attributes Hattr].
  apply bind_ok_inv in H as (summary & w16 & Hsum & H).
  apply lift_ok_inv in Hsum as [Hsum ->].
  apply bind_ok_inv in H as ([] & w17 & Hs & H).
  apply setattr_ok_inv in Hs. subst w17.
  apply bind_ok_inv in H as (description & w18 & Hdesc & H).
  apply lift_ok_inv in Hdesc as [Hdesc ->].
  apply bind_ok_inv in H as ([] & w19 & Hs & H).
  apply setattr_ok_inv in Hs. subst w19.
  apply bind_ok_inv in H as (hint & w20 & Hhint & H).
  apply lift_ok_inv in Hhint as [Hhint ->].
  apply bind_ok_inv in H as ([] & w21 & Hs & H).
  apply setattr_ok_inv in Hs. subst w21.
  apply bind_ok_inv in H as ([] & w22 & Hfav & H).
  assert (Hfav' : exists favorites,
             w22 = with_self (insert "_favorites" (VInt favorites))
                     (with_self (insert "_hint" (VStr (PyStr.strip (py_str
                        (VStr (rot13 (PyStr.strip hint))))))) 
                        (with_self (insert "_description" (VStr (PyStr.strip
                           (py_str (VStr (snd description)))))) 
                           (with_self (insert "_summary" (VStr (PyStr.strip
                              (py_str (VStr (fst summary)))))) w15)))
             /\ match favorite_value_text root with
                | None => favorites = 0
                | Some text => int_of_str text = Ok favorites
                end).
  { destruct (favorite_value_text root) as [text|].
    - apply bind_ok_inv in Hfav as (n & w0 & Hn & Hfav).
      apply lift_ok_inv in Hn as [Hn ->].
      apply bind_ok_inv in Hfav as (n' & w0 & Hn' & Hfav).
      apply lift_ok_inv in Hn' as [[= <-] ->].
      apply setattr_ok_inv in Hfav. exists n. split; assumption.
    - apply bind_ok_inv in Hfav as (n' & w0 & Hn' & Hfav).
      apply lift_ok_inv in Hn' as [[= <-] ->].
      apply setattr_ok_inv in Hfav. exists 0. split; [assumption|reflexivity]. }
  destruct Hfav' as (favorites & -> & Hfavorites). clear Hfav.
  apply bind_ok_inv in H as (token & w23 & Htoken & H).
  apply lift_ok_inv in Htoken as [Htoken ->].
  apply bind_ok_inv in H as ([] & w24 & Hs & H).
  apply setattr_ok_inv in Hs. subst w24.
  apply bind_ok_inv in H as ([] & w25 & Horig & H).
  match type of Horig with
  | _ ?w0 = _ =>
      assert (Horig' : exists original,
                w25 = with_self (insert "_original_location" original) w0
                /\ (PyStr.contains oldLatLng_marker
                      (PyStr.join newline (script_texts root)) = false ->
                    original = VNone)
                /\ (PyStr.contains oldLatLng_marker
                      (PyStr.join newline (script_texts root)) = true ->
                    exists p, original = VPoint p))
  end.
  { destruct (PyStr.contains oldLatLng_marker _).
    - apply bind_ok_inv in Horig as (a1 & w0 & Ha & Horig).
      apply lift_ok_inv in Ha as [_ ->].
      apply bind_ok_inv in Horig as (a2 & w0 & Ha & Horig).
      apply lift_ok_inv in Ha as [_ ->].
      apply bind_ok_inv in Horig as (a3 & w0 & Ha & Horig).
      apply lift_ok_inv in Ha as [_ ->].
      apply bind_ok_inv in Horig as (p & w0 & Ha & Horig).
      apply lift_ok_inv in Ha as [_ ->].
      unfold set_original_location in Horig.
      change (type_is (VPoint p) T_str) with false in Horig.
      change (type_is (VPoint p) T_Point) with true in Horig.
      cbn [negb andb] in Horig. apply setattr_ok_inv in Horig.
      exists (VPoint p). split; [exact Horig|].
      split; [discriminate|intros _; exists p; reflexivity].
    - unfold set_original_location in Horig.
      change (type_is VNone T_str) with false in Horig.
      change (type_is VNone T_Point) with false in Horig.
      change (type_is VNone T_NoneType) with true in Horig.
      cbn [negb andb] in Horig. apply setattr_ok_inv in Horig.
      exists VNone. split; [exact Horig|].
      split; [reflexivity|discriminate]. }
  destruct Horig' as (original & -> & Horig1 & Horig2). clear Horig.
  apply bind_ok_inv in H as ([] & w26 & Htb & H).
  match type of Htb with
  | _ ?w0 = _ =>
      assert (Htb' : exists trackables,
                w26 = with_self (insert "_Cache__trackable_page_url" trackables) w0
                /\ if (3 <=? widget_a_count (snd widgets))%nat
                   then exists href,
                          widget_view_all_href (snd widgets) = Some (Some href)
                          /\ trackables = VStr (PyStr.drop 3 href)
                   else trackables = VNone)
  end.
  { destruct (3 <=? widget_a_count (snd widgets))%nat.
    - apply bind_ok_inv in Htb as (link & w0 & Hl & Htb).
      apply lift_ok_inv in Hl as [Hl ->].
      destruct (widget_view_all_href (snd widgets)) as [[href|]|];
        try discriminate Hl.
      + injection Hl as <-. apply setattr_ok_inv in Htb.
        eexists. split; [exact Htb|]. exists href. split; reflexivity.
      + injection Hl as <-. discriminate Htb.
    - apply setattr_ok_inv in Htb. eexists. split; [exact Htb|reflexivity]. }
  destruct Htb' as (trackables & -> & Htrackables). clear Htb.
  apply bind_ok_inv in H as (waypoints & w27 & Hwps & H).
  apply Waypoint_from_html_self in Hwps.
  apply bind_ok_inv in H as ([] & w28 & Hs & H).
  apply setattr_ok_inv in Hs. subst w28.
  apply bind_ok_inv in H as (wp & w29 & Hwp & H).
  apply getattr_ok_inv in Hwp as [_ ->].
  unfold logging_call in H. injection H as <-.
  exists hidden, location, attributes, summary, description, hint, favorites,
    token, original, trackables, waypoints.
  split.
  { cbn [self with_self with_log]. rewrite Hwps. cbn [self with_self].
    rewrite Hattr.
    cbn [self with_self]. unfold py_str. cbn [str_methods].
    destruct (FoundStatus_text root); reflexivity. }
  split.
  { exists (snd widgets). split; [|exact Htrackables].
    unfold unpack2_star in Hwidgets.
    destruct (NavigationWidgets root) as [|a [|b rest]]; try discriminate.
    injection Hwidgets as <-. reflexivity. }
  split; [exists latlon; split; [|exact Hloc]|].
  { destruct (uxLatLon_text root); [|discriminate]. injection Hlatlon as <-.
    reflexivity. }
  split; [exact Hsum|]. split; [exact Hdesc|].
  split; [destruct (div_hint_text root); [|discriminate];
          injection Hhint as <-; reflexivity|].
  split; [exact Hfavorites|]. split; [exact Htoken|].
  split; assumption.
Qed.

Lemma load_basic_details_inv (root : Document)
    (cache_details : option DetailsElem) (w w1 : World) :
  load_basic_details root cache_details w = (Ok tt, w1) ->
  exists cd title name author src size alts difficulty terrain,
    cache_details = Some cd
    /\ title_string root = Some title
    /\ PyStr.startswith
         (PyStr.strip (PyStr.upper (List.hd "" (PyStr.split " " title)))) "GC"
       = true
    /\ h2_text cd = Some name
    /\ index (a_texts cd) 1 = Ok author
    /\ CacheSize_img_src root = Some src
    /\ Size.from_filename (filename_without_extension src) = Ok size
    /\ CacheStarLabels_img_alts root = Some alts
    /\ comprehension star_of_alt alts = Ok [difficulty; terrain]
    /\ out_of_scale difficulty = false /\ out_of_scale terrain = false
    /\ w1 = with_self
              (fun attrs =>
                 <["_terrain" := VFloat terrain]>
                 (<["_difficulty" := VFloat difficulty]>
                 (<["_size" := VSize size]>
                 (<["_author" := VStr (PyStr.strip author)]>
                 (<["_name" := VStr (PyStr.strip name)]>
                 (<["_wp" :=
                      VStr (PyStr.strip (PyStr.upper
                              (List.hd "" (PyStr.split " " title))))]> attrs))))))
              w.
Proof.
  intros H. unfold load_basic_details in H.
  apply bind_ok_inv in H as ([] & w2 & Htitle & H).
  unfold try_except in Htitle.
  destruct (bind (lift (deref (title_string root))) _ w) as [[[]|e] wt] eqn:Et;
    [|discriminate Htitle].
  injection Htitle as ->.
  apply bind_ok_inv in Et as (title & w0 & Ht & Et).
  apply lift_ok_inv in Ht as [Ht ->].
  apply bind_ok_inv in Et as (code & w0 & Hc & Et).
  apply lift_ok_inv in Hc as [Hc ->].
  unfold set_wp in Et. unfold py_str in Et. cbn [str_methods] in Et.
  destruct (PyStr.startswith (PyStr.strip (PyStr.upper code)) "GC") eqn:Egc;
    cbn [negb] in Et; [|discriminate Et].
  apply setattr_ok_inv in Et. subst w2.
  apply bind_ok_inv in H as (cd & w3 & Hcd & H).
  apply lift_ok_inv in Hcd as [Hcd ->].
  apply bind_ok_inv in H as (name & w3 & Hname & H).
  apply lift_ok_inv in Hname as [Hname ->].
  apply bind_ok_inv in H as ([] & w3 & Hs & H).
  apply setattr_ok_inv in Hs. subst w3.
  apply bind_ok_inv in H as (author & w3 & Hauthor & H).
  apply lift_ok_inv in Hauthor as [Hauthor ->].
  apply bind_ok_inv in H as ([] & w3 & Hs & H).
  apply setattr_ok_inv in Hs. subst w3.
  apply bind_ok_inv in H as (alts & w3 & Halts & H).
  apply lift_ok_inv in Halts as [Halts ->].
  apply bind_ok_inv in H as (src & w3 & Hsrc & H).
  apply lift_ok_inv in Hsrc as [Hsrc ->]. cbv zeta in H.
  apply bind_ok_inv in H as (size & w3 & Hsize & H).
  apply lift_ok_inv in Hsize as [Hsize ->].
  apply bind_ok_inv in H as ([] & w3 & Hs & H).
  rewrite set_size_exact in Hs. injection Hs as <-.
  apply bind_ok_inv in H as (stars & w3 & Hstars & H).
  apply lift_ok_inv in Hstars as [Hstars ->].
  apply bind_ok_inv in H as (pair & w3 & Hpair & H).
  apply lift_ok_inv in Hpair as [Hpair ->].
  unfold unpack2 in Hpair.
  destruct stars as [|difficulty [|terrain [|? ?]]]; try discriminate Hpair.
  injection Hpair as <-. cbn [fst snd] in H.
  apply bind_ok_inv in H as ([] & w3 & Hd & H).
  unfold set_difficulty in Hd. cbn [py_float] in Hd.
  apply bind_ok_inv in Hd as (d & w4 & Hd0 & Hd).
  apply lift_ok_inv in Hd0 as [[= <-] ->].
  destruct (out_of_scale difficulty) eqn:Ed; [discriminate Hd|].
  apply setattr_ok_inv in Hd. subst w3.
  unfold set_terrain in H. cbn [py_float] in H.
  apply bind_ok_inv in H as (t & w4 & Ht0 & H).
  apply lift_ok_inv in Ht0 as [[= <-] ->].
  destruct (out_of_scale terrain) eqn:Etr; [discriminate H|].
  apply setattr_ok_inv in H. subst w1.
  assert (Hcode : code = List.hd "" (PyStr.split " " title)).
  { unfold index in Hc. destruct (PyStr.split " " title); [discriminate|].
    injection Hc as <-. reflexivity. }
  subst code.
  exists cd, title, name, author, src, size, alts, difficulty, terrain.
  destruct cache_details; [|discriminate]. injection Hcd as ->.
  destruct (title_string root); [|discriminate]. injection Ht as ->.
  destruct (h2_text cd); [|discriminate]. injection Hname as ->.
  destruct (CacheSize_img_src root); [|discriminate]. injection Hsrc as ->.
  destruct (CacheStarLabels_img_alts root); [|discriminate].
  injection Halts as ->.
  unfold py_str. cbn [str_methods].
  repeat (split; [first [reflexivity|assumption]|]). reflexivity.
Qed.

(** A [load] that returns was served a page without the banner and went
    through the basic and the full details of it. *)
Lemma load_ok_inv (w w1 : World) :
  load w = (Ok tt, w1) ->
  exists root cd w0 wb type src,
    responses w (length (requests w)) = Html root
    /\ pmo_banner root = false
    /\ cacheDetails root = Some cd
    /\ self w0 = self w
    /\ load_basic_details root (Some cd)
         (with_self (insert "_pm_only" (VBool false)) w0) = (Ok tt, wb)
    /\ img_src cd = Some src
    /\ Type_.from_filename (filename_without_extension src) = Ok type
    /\ load_full_details root cd (with_self (insert "_type" (VType type)) wb)
       = (Ok tt, w1).
Proof.
  intros H. unfold load in H.
  apply bind_ok_inv in H as (root & w0 & Hreq & H).
  destruct (load_request_spec _ _ _ Hreq) as (Hself & _ & _ & Hd).
  destruct (Hd root eq_refl) as [Hserved _].
  assert (Hbanner : pmo_banner root = false).
  { destruct (pmo_banner root) eqn:E; [|reflexivity].
    destruct (load_parse_restricted root _ _ _ E H) as [[e He] _]. discriminate. }
  unfold load_parse in H. rewrite Hbanner in H.
  apply bind_ok_inv in H as ([] & w2 & Hs & H).
  apply setattr_ok_inv in Hs. subst w2.
  apply bind_ok_inv in H as (pm & w3 & Hpm & H).
  apply getattr_ok_inv in Hpm as [Hpm ->].
  cbn [self with_self] in Hpm. rewrite lookup_insert_eq in Hpm.
  injection Hpm as <-. cbv zeta in H. cbn [truthy] in H.
  apply bind_ok_inv in H as ([] & wb & Hbasic & H).
  apply bind_ok_inv in H as (cd & w4 & Hcd & H).
  apply lift_ok_inv in Hcd as [Hcd ->].
  apply bind_ok_inv in H as (src & w4 & Hsrc & H).
  apply lift_ok_inv in Hsrc as [Hsrc ->].
  apply bind_ok_inv in H as (type & w4 & Htype & H).
  apply lift_ok_inv in Htype as [Htype ->].
  apply bind_ok_inv in H as ([] & w4 & Hs & H).
  rewrite set_type_exact in Hs. injection Hs as <-.
  apply bind_ok_inv in H as (pm' & w5 & Hpm' & H).
  apply getattr_ok_inv in Hpm' as [Hpm' ->].
  apply bind_ok_inv in H as ([] & w5 & Hgate & H).
  assert (Hpmv : pm' = VBool false).
  { destruct (load_basic_details_inv _ _ _ _ Hbasic)
      as (? & ? & ? & ? & ? & ? & ? & ? & ? & _ & _ & _ & _ & _ & _ & _ & _ & _
          & _ & _ & Hwb).
    subst wb. cbn [self with_self] in Hpm'.
    rewrite !lookup_insert_ne in Hpm' by discriminate.
    rewrite lookup_insert_eq in Hpm'. injection Hpm' as <-. reflexivity. }
  subst pm'. cbn [truthy] in Hgate. unfold ret in Hgate. injection Hgate as <-.
  destruct (cacheDetails root) as [cd'|] eqn:Ecd; [|discriminate Hcd].
  injection Hcd as ->.
  destruct (img_src cd) as [src'|] eqn:Esrc; [|discriminate Hsrc].
  injection Hsrc as ->.
  exists root, cd, w0, wb, type, src.
  repeat (split; [first [reflexivity|assumption]|]). exact H.
Qed.

(** After a [load] that returns, a field filled from the basic details or
    the type icon holds what was stored there: the full details do not
    touch it. *)
Lemma load_ok_basic (w w1 : World) :
  load w = (Ok tt, w1) ->
  exists root cd title name author type,
    responses w (length (requests w)) = Html root
    /\ pmo_banner root = false
    /\ cacheDetails root = Some cd
    /\ title_string root = Some title
    /\ h2_text cd = Some name
    /\ index (a_texts cd) 1 = Ok author
    /\ (exists src, img_src cd = Some src
          /\ Type_.from_filename (filename_without_extension src) = Ok type)
    /\ self w1 !! "_wp"
       = Some (VStr (PyStr.strip (PyStr.upper
                       (List.hd "" (PyStr.split " " title)))))
    /\ self w1 !! "_name" = Some (VStr (PyStr.strip name))
    /\ self w1 !! "_author" = Some (VStr (PyStr.strip author))
    /\ self w1 !! "_type" = Some (VType type).
Proof.
  intros H.
  destruct (load_ok_inv _ _ H)
    as (root & cd & w0 & wb & type & src & Hserved & Hbanner & Hcd & Hself
        & Hbasic & Hsrc & Htype & Hfull).
  destruct (load_basic_details_inv _ _ _ _ Hbasic)
    as (cd' & title & name & author & src' & size & alts & difficulty & terrain
        & Hcd' & Htitle & Hgc & Hname & Hauthor & _ & _ & _ & _ & _ & _ & Hwb).
  injection Hcd' as <-.
  destruct (load_full_details_inv _ _ _ _ Hfull)
    as (hidden & location & attributes & summary & description & hint
        & favorites & token & original & trackables & waypoints & Hw1 & _).
  exists root, cd, title, name, author, type.
  repeat (split; [first [assumption|exists src; split; assumption]|]).
  rewrite Hw1, Hwb. cbn [self with_self].
  repeat split;
    repeat (rewrite lookup_insert_ne by discriminate);
    apply lookup_insert_eq.
Qed.

(** X11. After a [load] that returns, the GC code, the name, the author and the
    type of the entity are those of the page it was served, whatever the
    entity held before: the code is the first word of the title in upper
    case, the name is the heading, the author the text of the second link
    of the details, the type the one of the icon's file name. *)
Theorem load_identity_from_page (w w1 : World) :
  load w = (Ok tt, w1) ->
  exists root cd title name author type src,
    responses w (length (requests w)) = Html root
    /\ cacheDetails root = Some cd
    /\ title_string root = Some title
    /\ h2_text cd = Some name
    /\ nth_error (a_texts cd) 1 = Some author
    /\ img_src cd = Some src
    /\ Type_.from_filename (filename_without_extension src) = Ok type
    /\ property_get p_wp w1
       = (Ok (VStr (PyStr.strip (PyStr.upper
                      (List.hd "" (PyStr.split " " title))))), w1)
    /\ property_get p_name w1 = (Ok (VStr (PyStr.strip name)), w1)
    /\ property_get p_author w1 = (Ok (VStr (PyStr.strip author)), w1)
    /\ property_get p_type w1 = (Ok (VType type), w1).
Proof.
  intros H.
  destruct (load_ok_basic _ _ H)
    as (root & cd & title & name & author & type & Hserved & _ & Hcd & Htitle
        & Hname & Hauthor & (src & Hsrc & Htype) & Hwp & Hn & Ha & Ht).
  exists root, cd, title, name, author, type, src.
  repeat (split; [assumption|]).
  split.
  { unfold index in Hauthor. destruct (nth_error (a_texts cd) 1); [|discriminate].
    injection Hauthor as <-. reflexivity. }
  split; [assumption|]. split; [assumption|].
  repeat split; apply property_get_set; assumption.
Qed.

Lemma load_ok_full (w w1 : World) :
  load w = (Ok tt, w1) ->
  exists root cd w0,
    responses w (length (requests w)) = Html root
    /\ load_full_details root cd w0 = (Ok tt, w1).
Proof.
  intros H.
  destruct (load_ok_inv _ _ H)
    as (root & cd & w0 & wb & type & src & Hserved & _ & _ & _ & _ & _ & _
        & Hfull).
  exists root, cd. eexists. split; [exact Hserved|exact Hfull].
Qed.

Ltac lookup_nested :=
  cbn [self with_self];
  repeat (rewrite lookup_insert_ne by discriminate);
  apply lookup_insert_eq.

(** X12. After a [load] that returns: the state is true exactly when the page
    has no list of old warnings; the premium flag is true exactly when the
    page has the warning paragraph and its text contains
    ["Premium Member Only"]; the favorites are the number in the favorite
    span, and 0 when the page has no such span. *)
Theorem load_flags_and_favorites (w w1 : World) :
  load w = (Ok tt, w1) ->
  exists root,
    responses w (length (requests w)) = Html root
    /\ self w1 !! "_state" = Some (VBool (negb (OldWarning root)))
    /\ self w1 !! "_pm_only"
       = Some (VBool match Warning_NoBottomSpacing_text root with
                     | Some text => PyStr.contains "Premium Member Only" text
                     | None => false
                     end)
    /\ (favorite_value_text root = None ->
        self w1 !! "_favorites" = Some (VInt 0))
    /\ (forall text, favorite_value_text root = Some text ->
        exists n, int_of_str text = Ok n
                  /\ self w1 !! "_favorites" = Some (VInt n)).
Proof.
  intros H.
  destruct (load_ok_full _ _ H) as (root & cd & w0 & Hserved & Hfull).
  destruct (load_full_details_inv _ _ _ _ Hfull)
    as (hidden & location & attributes & summary & description & hint
        & favorites & token & original & trackables & waypoints & Hw1 & _ & _
        & _ & _ & _ & Hfav & _).
  exists root. split; [exact Hserved|]. rewrite Hw1.
  split; [lookup_nested|]. split; [lookup_nested|].
  split.
  - intros E. rewrite E in Hfav. subst favorites. lookup_nested.
  - intros text E. rewrite E in Hfav. exists favorites.
    split; [exact Hfav|lookup_nested].
Qed.

(** X13. After a [load] that returns: the summary and the description are the
    text and the markup of the first and of the second block of user
    content, and the hint is the text of the hint block decoded with
    [rot13]; all three without surrounding blanks. *)
Theorem load_texts_from_page (w w1 : World) :
  load w = (Ok tt, w1) ->
  exists root summary description hint,
    responses w (length (requests w)) = Html root
    /\ nth_error (UserSuppliedContent root) 0 = Some summary
    /\ nth_error (UserSuppliedContent root) 1 = Some description
    /\ div_hint_text root = Some hint
    /\ self w1 !! "_summary" = Some (VStr (PyStr.strip (fst summary)))
    /\ self w1 !! "_description" = Some (VStr (PyStr.strip (snd description)))
    /\ self w1 !! "_hint"
       = Some (VStr (PyStr.strip (rot13 (PyStr.strip hint)))).
Proof.
  intros H.
  destruct (load_ok_full _ _ H) as (root & cd & w0 & Hserved & Hfull).
  destruct (load_full_details_inv _ _ _ _ Hfull)
    as (hidden & location & attributes & summary & description & hint
        & favorites & token & original & trackables & waypoints & Hw1 & _ & _
        & Hsum & Hdesc & Hhint & _).
  exists root, summary, description, hint. split; [exact Hserved|].
  split.
  { unfold index in Hsum. destruct (nth_error _ 0); [|discriminate].
    injection Hsum as <-. reflexivity. }
  split.
  { unfold index in Hdesc. destruct (nth_error _ 1); [|discriminate].
    injection Hdesc as <-. reflexivity. }
  split; [exact Hhint|]. rewrite Hw1.
  repeat split; lookup_nested.
Qed.

(** X14. After a [load] that returns: the trackable page URL is [None] when the
    second navigation widget has fewer than three links, and otherwise the
    [href] of the link to all trackables without its first three
    characters; the original location is [None] when no script of the page
    mentions [oldLatLng], and a point otherwise. *)
Theorem load_links_from_page (w w1 : World) :
  load w = (Ok tt, w1) ->
  exists root inventory_widget,
    responses w (length (requests w)) = Html root
    /\ nth_error (NavigationWidgets root) 1 = Some inventory_widget
    /\ ((widget_a_count inventory_widget < 3)%nat ->
        self w1 !! "_Cache__trackable_page_url" = Some VNone)
    /\ ((3 <= widget_a_count inventory_widget)%nat ->
        exists href,
          widget_view_all_href inventory_widget = Some (Some href)
          /\ self w1 !! "_Cache__trackable_page_url"
             = Some (VStr (PyStr.drop 3 href)))
    /\ (PyStr.contains oldLatLng_marker (PyStr.join newline (script_texts root))
        = false ->
        self w1 !! "_original_location" = Some VNone)
    /\ (PyStr.contains oldLatLng_marker (PyStr.join newline (script_texts root))
        = true ->
        exists p, self w1 !! "_original_location" = Some (VPoint p)).
Proof.
  intros H.
  destruct (load_ok_full _ _ H) as (root & cd & w0 & Hserved & Hfull).
  destruct (load_full_details_inv _ _ _ _ Hfull)
    as (hidden & location & attributes & summary & description & hint
        & favorites & token & original & trackables & waypoints & Hw1
        & (iw & Hiw & Htb) & _ & _ & _ & _ & _ & _ & Ho1 & Ho2).
  exists root, iw. split; [exact Hserved|]. split; [exact Hiw|].
  rewrite Hw1. split; [|split; [|split]].
  - intros Hlt. apply Nat.leb_gt in Hlt. rewrite Hlt in Htb. subst trackables.
    lookup_nested.
  - intros Hle. apply Nat.leb_le in Hle. rewrite Hle in Htb.
    destruct Htb as (href & Hhref & ->). exists href.
    split; [exact Hhref|lookup_nested].
  - intros E. rewrite (Ho1 E). lookup_nested.
  - intros E. destruct (Ho2 E) as [p ->]. exists p. lookup_nested.
Qed.

(** ** How [load] asks and how it fails *)

Lemma split_go_nonempty (sep : string) (s : string) :
  forall skip cur, exists x l, PyStr.split_go sep skip cur s = x :: l.
Proof.
  induction s as [|c s IH]; intros skip cur; cbn [PyStr.split_go].
  - eexists. eexists. reflexivity.
  - destruct skip as [|k]; [|apply IH].
    destruct (String.prefix sep (String c s)); [|apply IH].
    eexists. eexists. reflexivity.
Qed.

Lemma index_split_0 (sep s : string) :
  index (PyStr.split sep s) 0 = Ok (List.hd "" (PyStr.split sep s)).
Proof.
  unfold PyStr.split.
  destruct (split_go_nonempty sep s 0 []) as (x & l & ->). reflexivity.
Qed.

(** X15. [load] asks for the URL of the entity when it has one, without
    parameters and whether or not it also has a GC code; otherwise it asks
    for the details page with the GC code as the parameter [wp].  In both
    cases it makes this one request and no other. *)
Theorem load_request_target (w : World) (g : PyVal) :
  self w !! "_geocaching" = Some g ->
  (forall url, self w !! "url" = Some url ->
     requests (snd (load w))
     = (requests w
        ++ [ {| req_url := py_str url; req_params := [];
                req_expect_json := false |} ])%list)
  /\ (forall wp, self w !! "url" = None -> self w !! "_wp" = Some wp ->
     requests (snd (load w))
     = (requests w
        ++ [ {| req_url := "seek/cache_details.aspx";
                req_params := [("wp", wp)];
                req_expect_json := false |} ])%list).
Proof.
  intros Hg. split.
  - intros url Hu. rewrite load_requests, load_request_eq. cbv zeta.
    rewrite Hu, Hg. reflexivity.
  - intros wp Hu Hw. rewrite load_requests, load_request_eq. cbv zeta.
    rewrite Hu, Hw, Hg. reflexivity.
Qed.

(** X16. When [load] cannot get a page it raises [LoadError] with the message
    ["Error in loading cache"] and leaves every field as it was: without a
    URL and a GC code it does so before any request (the message of the
    inner error, ["Cache lacks info for loading"], never reaches the
    caller); when the transport fails or answers with something that is
    not a page, after the one request.  A lazy-loaded field that was unset
    is then still unset, and reading it raises the same error. *)
Theorem load_failures_are_load_errors (w : World) :
  let failure := LoadError "Error in loading cache" in
  (self w !! "url" = None -> self w !! "_wp" = None ->
   load w = (Raise failure, w))
  /\ (forall g,
        self w !! "_geocaching" = Some g ->
        is_Some (self w !! "url") \/ is_Some (self w !! "_wp") ->
        (forall d, responses w (length (requests w)) <> Html d) ->
        exists rq,
          load w = (Raise failure, with_request rq w)
          /\ forall p, In p lazy_properties -> self w !! backing p = None ->
               property_get p w = (Raise failure, with_request rq w)
               /\ self (with_request rq w) !! backing p = None).
Proof.
  cbv zeta. split.
  - intros Hu Hw. unfold load, bind. rewrite load_request_eq. cbv zeta.
    rewrite Hu, Hw. reflexivity.
  - intros g Hg Hid Hno.
    assert (Hload : exists rq,
              load w = (Raise (LoadError "Error in loading cache"),
                        with_request rq w)).
    { unfold load, bind. rewrite load_request_eq. cbv zeta. rewrite Hg.
      destruct (self w !! "url") as [url|] eqn:Eu.
      - eexists.
        destruct (responses w (length (requests w))) as [m|d|j] eqn:Er;
          [reflexivity|destruct (Hno d eq_refl)|reflexivity].
      - destruct Hid as [[? Hid]|[wp Hid]]; [discriminate|]. rewrite Hid.
        eexists.
        destruct (responses w (length (requests w))) as [m|d|j] eqn:Er;
          [reflexivity|destruct (Hno d eq_refl)|reflexivity]. }
    destruct Hload as [rq Hload]. exists rq. split; [exact Hload|].
    intros p Hp Hunset. split; [|exact Hunset].
    apply property_get_unset_raises; assumption.
Qed.

(** X17. A page without the banner whose title is missing, or whose first word
    does not start with ["GC"] once in upper case, makes [load] raise
    [LoadError] without a message; by then it has made its one request and
    stored [pm_only = False], and nothing else. *)
Theorem load_title_failure (w : World) (g : PyVal) (root : Document) :
  self w !! "_geocaching" = Some g ->
  is_Some (self w !! "url") \/ is_Some (self w !! "_wp") ->
  responses w (length (requests w)) = Html root ->
  pmo_banner root = false ->
  match title_string root with
  | None => True
  | Some title =>
      PyStr.startswith
        (PyStr.strip (PyStr.upper (List.hd "" (PyStr.split " " title)))) "GC"
      = false
  end ->
  exists rq,
    load w
    = (Raise (LoadError ""),
       with_self (insert "_pm_only" (VBool false)) (with_request rq w)).
Proof.
  intros Hg Hid Hserved Hbanner Htitle.
  destruct (load_request_ok w g root Hg Hid Hserved) as [rq Hreq].
  exists rq. unfold load. unfold bind at 1. rewrite Hreq.
  unfold load_parse. rewrite Hbanner. unfold bind at 1.
  unfold set_pm_only at 1. unfold setattr at 1. cbn [truthy].
  unfold bind at 1. unfold getattr at 1. cbn [self with_self].
  rewrite lookup_insert_eq. cbv zeta. cbn [truthy].
  unfold bind at 1. unfold load_basic_details. unfold bind at 1.
  unfold try_except.
  destruct (title_string root) as [title|].
  - unfold bind at 1. unfold lift at 1. cbn [deref].
    unfold bind at 1. unfold lift at 1.
    rewrite index_split_0. unfold set_wp, py_str. cbn [str_methods].
    rewrite Htitle. reflexivity.
  - reflexivity.
Qed.

(** X18. Whatever [load] is served and however it ends, it makes at most one
    request, leaves the replies of the server as they are, and removes no
    attribute of the entity. *)
Theorem load_never_removes (w : World) :
  (length (requests (snd (load w))) <= S (length (requests w)))%nat
  /\ responses (snd (load w)) = responses w
  /\ (forall k, is_Some (self w !! k) -> is_Some (self (snd (load w)) !! k)).
Proof.
  unfold load, bind.
  destruct (load_request w) as [[root|e] w0] eqn:Ereq.
  - destruct (load_request_spec _ _ _ Ereq) as (Hself & Hresp & Hlen & _).
    destruct (load_parse root w0) as [r w1] eqn:Eparse.
    destruct (establishes_load_parse root _ _ _ Eparse) as (Hq & Hs & Hmono & _).
    cbn [snd]. rewrite Hq, Hs. split; [exact Hlen|]. split; [exact Hresp|].
    intros k Hk. apply Hmono. rewrite Hself. exact Hk.
  - destruct (load_request_spec _ _ _ Ereq) as (Hself & Hresp & Hlen & _).
    cbn [snd]. split; [exact Hlen|]. split; [exact Hresp|].
    intros k Hk. rewrite Hself. exact Hk.
Qed.

(** ** Waypoints *)

Lemma waypoint_of_rows_inv (acc acc' : list (PyVal * PyVal))
    (rows : list Cell * list Cell) (w w' : World) :
  waypoint_of_rows acc rows w = (Ok acc', w') ->
  exists id wpt,
    waypoint_entry rows = Some (id, wpt)
    /\ Waypoint._identifier wpt = id
    /\ acc' = dict_setitem id (VWaypoint wpt) acc
    /\ self w' = self w /\ requests w' = requests w.
Proof.
  intros H. unfold waypoint_of_rows in H. cbv zeta in H.
  apply bind_ok_inv in H as (c4 & ? & H4 & H).
  apply lift_ok_inv in H4 as [H4 ->].
  apply bind_ok_inv in H as (c2 & ? & H2 & H).
  apply lift_ok_inv in H2 as [H2 ->].
  apply bind_ok_inv in H as (type & ? & Ht & H).
  apply lift_ok_inv in Ht as [Ht ->].
  apply bind_ok_inv in H as (c6 & ? & H6 & H).
  apply lift_ok_inv in H6 as [H6 ->].
  apply bind_ok_inv in H as (loc & w1 & Hloc & H).
  apply bind_ok_inv in H as (c10 & ? & H10 & H).
  apply lift_ok_inv in H10 as [H10 ->].
  unfold ret in H. injection H as <- <-.
  unfold index in H4, H2, H6, H10. unfold waypoint_entry. cbv zeta.
  destruct (nth_error _ 4) as [c4'|]; [|discriminate]. injection H4 as ->.
  destruct (nth_error _ 2) as [c2'|]; [|discriminate]. injection H2 as ->.
  destruct (nth_error _ 6) as [c6'|]; [|discriminate]. injection H6 as ->.
  destruct (nth_error _ 10) as [c10'|]; [|discriminate]. injection H10 as ->.
  destruct (td_img_title c2) as [type'|]; [|discriminate]. injection Ht as ->.
  unfold try_except, bind, lift in Hloc.
  destruct (Point_new (PyStr.strip (td_text c6))) as [p|e].
  - unfold ret in Hloc. injection Hloc as <- <-.
    eexists. eexists. repeat split; reflexivity.
  - destruct (is_builtin_ValueError e); [|discriminate Hloc].
    unfold logging_call, ret in Hloc. injection Hloc as <- <-.
    eexists. eexists. repeat split; reflexivity.
Qed.

Lemma waypoint_of_rows_total (acc : list (PyVal * PyVal))
    (rows : list Cell * list Cell) (w : World) (id : string)
    (wpt : Waypoint.t) :
  (forall s e, Point_new s = Raise e -> is_builtin_ValueError e = true) ->
  waypoint_entry rows = Some (id, wpt) ->
  exists w', waypoint_of_rows acc rows w
             = (Ok (dict_setitem id (VWaypoint wpt) acc), w').
Proof.
  intros Hpoint H. unfold waypoint_entry in H. cbv zeta in H.
  unfold waypoint_of_rows. cbv zeta.
  unfold bind, lift, try_except, deref, ret, index.
  destruct (nth_error _ 4) as [c4|]; [|discriminate].
  destruct (nth_error _ 2) as [c2|]; [|discriminate].
  destruct (nth_error _ 6) as [c6|]; [|discriminate].
  destruct (nth_error _ 10) as [c10|]; [|discriminate].
  destruct (td_img_title c2) as [type|]; [|discriminate].
  injection H as <- <-.
  destruct (Point_new (PyStr.strip (td_text c6))) as [p|e] eqn:E.
  - eexists. reflexivity.
  - rewrite (Hpoint _ _ E). unfold logging_call. eexists. reflexivity.
Qed.

Lemma dict_setitem_length (k : string) (v : PyVal) (l : list (PyVal * PyVal)) :
  (length (dict_setitem k v l) <= S (length l))%nat.
Proof.
  induction l as [|[k' v'] l IH]; simpl; [lia|].
  destruct k'; simpl; try lia. destruct (String.eqb s k); simpl; lia.
Qed.

Lemma dict_get_is_Some_setitem (k k' : string) (v : PyVal)
    (l : list (PyVal * PyVal)) :
  is_Some (dict_get k' l) -> is_Some (dict_get k' (dict_setitem k v l)).
Proof.
  intros H. destruct (String.eqb_spec k k') as [->|Hne].
  - rewrite dict_get_setitem_eq. eexists. reflexivity.
  - rewrite dict_get_setitem_ne by exact Hne. exact H.
Qed.

(** What the loop of [Waypoint.from_html] returns, when it returns. *)
Lemma waypoints_loop_inv (pairs : list (list Cell * list Cell)) :
  forall (acc items : list (PyVal * PyVal)) (w w' : World),
    waypoints_loop acc pairs w = (Ok items, w') ->
    self w' = self w /\ requests w' = requests w
    /\ (length items <= length acc + length pairs)%nat
    /\ (forall k v, In (k, v) items ->
          In (k, v) acc
          \/ exists pair id wpt,
               In pair pairs /\ waypoint_entry pair = Some (id, wpt)
               /\ Waypoint._identifier wpt = id
               /\ k = VStr id /\ v = VWaypoint wpt)
    /\ (forall pair, In pair pairs ->
          exists id wpt, waypoint_entry pair = Some (id, wpt)
                         /\ is_Some (dict_get id items))
    /\ (forall k, is_Some (dict_get k acc) -> is_Some (dict_get k items)).
Proof.
  induction pairs as [|pair pairs IH]; intros acc items w w' H.
  - injection H as <- <-. repeat split; try reflexivity.
    + simpl. lia.
    + intros k v Hin. left. exact Hin.
    + intros pair [].
    + intros k Hk. exact Hk.
  - cbn [waypoints_loop] in H.
    apply bind_ok_inv in H as (acc1 & w1 & Hrow & H).
    destruct (waypoint_of_rows_inv _ _ _ _ _ Hrow)
      as (id & wpt & Hentry & Hid & -> & Hself1 & Hreq1).
    destruct (IH _ _ _ _ H) as (Hself & Hreq & Hlen & Hsound & Hcomplete & Hkeep).
    split; [congruence|]. split; [congruence|]. split; [|split; [|split]].
    + pose proof (dict_setitem_length id (VWaypoint wpt) acc). simpl. lia.
    + intros k v Hin. destruct (Hsound k v Hin) as [Hacc|Hrest].
      * apply In_dict_setitem in Hacc as [Heq|Hacc]; [|left; exact Hacc].
        injection Heq as -> ->. right. exists pair, id, wpt.
        repeat split; try assumption. left. reflexivity.
      * destruct Hrest as (pair' & id' & wpt' & Hin' & Hrest).
        right. exists pair', id', wpt'. split; [right; exact Hin'|exact Hrest].
    + intros pair' [<-|Hin].
      * exists id, wpt. split; [exact Hentry|].
        apply Hkeep. rewrite dict_get_setitem_eq. eexists. reflexivity.
      * apply Hcomplete. exact Hin.
    + intros k Hk. apply Hkeep. apply dict_get_is_Some_setitem. exact Hk.
Qed.

Lemma every_other_length {A} (l : list A) :
  length (every_other l) = Nat.div2 (S (length l)).
Proof.
  assert (H : forall n (l : list A), (length l <= n)%nat ->
            length (every_other l) = Nat.div2 (S (length l))).
  { intros n. induction n as [|n IH]; intros l0 Hl.
    - destruct l0; [reflexivity|simpl in Hl; lia].
    - destruct l0 as [|x [|y l1]]; [reflexivity|reflexivity|].
      cbn [every_other length]. rewrite IH by (simpl in Hl; lia).
      reflexivity. }
  apply (H (length l)). lia.
Qed.

Lemma waypoint_rows_length (rows : list (list Cell)) :
  length (waypoint_rows rows) = Nat.div2 (length rows - 1).
Proof.
  unfold waypoint_rows. rewrite length_combine, !every_other_length.
  destruct rows as [|h [|r1 rest]]; [reflexivity|reflexivity|].
  cbn [List.tl length]. replace (S (S (length rest)) - 1)%nat with (S (length rest)) by lia.
  assert (H : forall n, (Nat.div2 n <= Nat.div2 (S n))%nat).
  { fix IHn 1. intros [|[|n]]; simpl; [lia|lia|]. specialize (IHn n). simpl in IHn. lia. }
  pose proof (H (S (length rest))). lia.
Qed.

(** X19. When [Waypoint.from_html] returns, it has made no request and changed
    no field.  Without the table it returns an empty dictionary.  With
    the table, it skips the header row and takes the other rows two by
    two: every pair has an entry under its identifier, every entry is the
    waypoint of one of the pairs, stored under the waypoint's own
    identifier (of two pairs with one identifier one is kept), and there
    are at most half as many entries as rows after the header.  A waypoint
    whose coordinates did not parse has the location [None]. *)
Theorem Waypoint_from_html_entries (soup : Document) (table_id : string)
    (w w' : World) (d : PyVal) :
  Waypoint_from_html soup table_id w = (Ok d, w') ->
  exists items,
    d = VDict items
    /\ self w' = self w /\ requests w' = requests w
    /\ match table_rows soup table_id with
       | None => items = []
       | Some rows =>
           (length items <= Nat.div2 (length rows - 1))%nat
           /\ (forall pair, In pair (waypoint_rows rows) ->
                 exists id wpt, waypoint_entry pair = Some (id, wpt)
                                /\ is_Some (dict_get id items))
           /\ (forall k v, In (k, v) items ->
                 exists pair id wpt,
                   In pair (waypoint_rows rows)
                   /\ waypoint_entry pair = Some (id, wpt)
                   /\ Waypoint._identifier wpt = id
                   /\ k = VStr id /\ v = VWaypoint wpt)
       end.
Proof.
  intros H. unfold Waypoint_from_html in H.
  destruct (table_rows soup table_id) as [rows|].
  - apply bind_ok_inv in H as (items & w1 & Hloop & H).
    unfold ret in H. injection H as <- <-.
    fold (waypoint_rows rows) in Hloop.
    destruct (waypoints_loop_inv _ _ _ _ _ Hloop)
      as (Hself & Hreq & Hlen & Hsound & Hcomplete & _).
    exists items. split; [reflexivity|]. split; [exact Hself|].
    split; [exact Hreq|]. split; [|split].
    + rewrite <- waypoint_rows_length. simpl in Hlen. exact Hlen.
    + exact Hcomplete.
    + intros k v Hin. destruct (Hsound k v Hin) as [[]|Hrest]. exact Hrest.
  - unfold ret in H. injection H as <- <-. exists [].
    repeat split; reflexivity.
Qed.

Lemma waypoints_loop_total (pairs : list (list Cell * list Cell)) :
  (forall s e, Point_new s = Raise e -> is_builtin_ValueError e = true) ->
  (forall pair, In pair pairs -> is_Some (waypoint_entry pair)) ->
  forall acc w, exists items w', waypoints_loop acc pairs w = (Ok items, w').
Proof.
  intros Hpoint. induction pairs as [|pair pairs IH]; intros Hwf acc w.
  - eexists. eexists. reflexivity.
  - destruct (Hwf pair (or_introl eq_refl)) as [[id wpt] Hentry].
    destruct (waypoint_of_rows_total acc pair w id wpt Hpoint Hentry)
      as [w1 Hrow].
    destruct (IH (fun p Hin => Hwf p (or_intror Hin))
                 (dict_setitem id (VWaypoint wpt) acc) w1) as (items & w' & Hrest).
    exists items, w'. cbn [waypoints_loop]. unfold bind. rewrite Hrow.
    exact Hrest.
Qed.

(** X20. [Waypoint.from_html] does not fail on coordinates that do not parse:
    if [Point] raises nothing but [ValueError], a table whose pairs of rows
    have the cells of a waypoint and the image of its type always gives a
    dictionary; a pair with unparsable coordinates is in it with the
    location [None]. *)
Theorem Waypoint_from_html_total (soup : Document) (table_id : string)
    (w : World) :
  (forall s e, Point_new s = Raise e -> is_builtin_ValueError e = true) ->
  (forall rows pair,
      table_rows soup table_id = Some rows -> In pair (waypoint_rows rows) ->
      is_Some (waypoint_entry pair)) ->
  exists items w',
    Waypoint_from_html soup table_id w = (Ok (VDict items), w')
    /\ forall rows pair id wpt,
         table_rows soup table_id = Some rows ->
         In pair (waypoint_rows rows) ->
         waypoint_entry pair = Some (id, wpt) ->
         is_Some (dict_get id items)
         /\ (forall c6 e,
               nth_error (fst pair ++ snd pair) 6 = Some c6 ->
               Point_new (PyStr.strip (td_text c6)) = Raise e ->
               Waypoint._location wpt = None).
Proof.
  intros Hpoint Hwf. unfold Waypoint_from_html.
  destruct (table_rows soup table_id) as [rows|] eqn:Erows.
  - fold (waypoint_rows rows).
    destruct (waypoints_loop_total (waypoint_rows rows) Hpoint
                (fun pair Hin => Hwf rows pair eq_refl Hin) [] w)
      as (items & w' & Hloop).
    exists items, w'. unfold bind. rewrite Hloop. split; [reflexivity|].
    intros rows' pair id wpt [= <-] Hin Hentry.
    destruct (waypoints_loop_inv _ _ _ _ _ Hloop)
      as (_ & _ & _ & _ & Hcomplete & _).
    split.
    + destruct (Hcomplete pair Hin) as (id' & wpt' & Hentry' & Hsome).
      rewrite Hentry in Hentry'. injection Hentry' as <- <-. exact Hsome.
    + intros c6 e Hc6 He. unfold waypoint_entry in Hentry. cbv zeta in Hentry.
      rewrite Hc6 in Hentry.
      destruct (nth_error _ 4); [|discriminate].
      destruct (nth_error _ 2) as [c2|]; [|discriminate].
      destruct (nth_error _ 10); [|discriminate].
      destruct (td_img_title c2); [|discriminate].
      rewrite He in Hentry. injection Hentry as _ <-. reflexivity.
  - exists [], w. split; [reflexivity|]. intros rows pair id wpt Hrows.
    discriminate Hrows.
Qed.

(** X21. The setter of a waypoint's location tests the exact type of its
    argument, as the setters of the cache do: a string is parsed, a
    [Point] is stored, and anything else, [None] and an instance of a class
    derived from [Point] included, raises [errors.ValueError] and leaves
    the waypoint as it is.  So a waypoint that [Waypoint.from_html] built
    without a location holds a value that its own setter refuses. *)
Theorem Waypoint_location_setter_exact_type (wpt : Waypoint.t) :
  (forall p, exists wpt',
      Waypoint_set_location (VPoint p) wpt = Ok wpt'
      /\ Waypoint._location wpt' = Some p
      /\ Waypoint._identifier wpt' = Waypoint._identifier wpt
      /\ Waypoint._type wpt' = Waypoint._type wpt
      /\ Waypoint._note wpt' = Waypoint._note wpt)
  /\ (forall s, Waypoint_set_location (VStr s) wpt
                = result_bind (Point_from_string s) (fun p =>
                    Ok (Waypoint.mk (Waypoint._identifier wpt)
                          (Waypoint._type wpt) (Some p) (Waypoint._note wpt))))
  /\ (forall v, type_of v <> T_str -> type_of v <> T_Point ->
        Waypoint_set_location v wpt = Raise (ValueError not_a_point))
  /\ Waypoint_set_location VNone wpt = Raise (ValueError not_a_point)
  /\ (forall cls p,
        isinstance (VInstance cls (VPoint p)) T_Point = true
        /\ Waypoint_set_location (VInstance cls (VPoint p)) wpt
           = Raise (ValueError not_a_point)).
Proof.
  split; [|split; [|split; [|split]]].
  - intros p. eexists. split; [reflexivity|]. repeat split.
  - intros s. reflexivity.
  - intros v Hs Hp. unfold Waypoint_set_location. cbv zeta.
    rewrite (type_is_false _ _ Hs), (type_is_false _ _ Hp). reflexivity.
  - reflexivity.
  - intros cls p. split; reflexivity.
Qed.

(** ** The logbook and the trackables, beyond their ends *)

Lemma request_json_eq (url : string) (params : list (string * PyVal))
    (w : World) :
  request_json url params w
  = match self w !! "_geocaching" with
    | None => (Raise AttributeError, w)
    | Some _ =>
        (match responses w (length (requests w)) with
         | Json j => Ok j
         | HttpError m => Raise (Error m)
         | Html _ => Raise (Error "unexpected content")
         end,
         with_request {| req_url := url; req_params := params;
                         req_expect_json := true |} w)
    end.
Proof.
  unfold request_json, _request. unfold bind at 1 2.
  destruct (self w !! "_geocaching") as [g|] eqn:Eg.
  - rewrite (getattr_some _ _ _ Eg).
    destruct (responses w (length (requests w))); reflexivity.
  - rewrite (getattr_none _ _ Eg). reflexivity.
Qed.

(** With a session and a logbook token, [_logbook_get_page] makes exactly
    one request: for JSON, with the token, the page number counted from 1
    and the page size.  It returns the entries of a reply whose status is
    ["success"], raises [LoadError] with the message of the reply (or
    ["Unknown error"]) for any other status, and lets an error of the
    transport through as it is. *)
Lemma logbook_get_page_eq (page per_page : Z) (w : World) (g tkn : PyVal) :
  self w !! "_geocaching" = Some g ->
  self w !! "_Cache__logbook_token" = Some tkn ->
  _logbook_get_page page per_page w
  = (match responses w (length (requests w)) with
     | Json j =>
         if String.eqb (status j) "success" then Ok (data j)
         else Raise (LoadError ("Logbook cannot be loaded: "
                                ++ match msg j with
                                   | Some m => m
                                   | None => "Unknown error"
                                   end))
     | HttpError m => Raise (Error m)
     | Html _ => Raise (Error "unexpected content")
     end,
     with_request (logbook_request tkn page per_page) w).
Proof.
  intros Hg Htkn. unfold _logbook_get_page. unfold bind at 1.
  rewrite (property_get_set p__logbook_token tkn w Htkn).
  unfold bind at 1. rewrite request_json_eq, Hg.
  destruct (responses w (length (requests w))) as [m|d|j]; try reflexivity.
  destruct (String.eqb (status j) "success"); reflexivity.
Qed.

(** X22. [load_logbook] with a limit of zero or less still asks for one page,
    of the size of the limit, and then stops without a log, whatever the
    page holds. *)
Theorem load_logbook_without_room (sem : GeneratorSemantics) (n : Z)
    (fuel : nat) (w : World) (wp g tkn : PyVal) (j : LogbookReply) :
  n <= 0 ->
  self w !! "_wp" = Some wp ->
  self w !! "_geocaching" = Some g ->
  self w !! "_Cache__logbook_token" = Some tkn ->
  responses w (length (requests w)) = Json j ->
  status j = "success" ->
  consume (S fuel) sem load_logbook_body (load_logbook (Finite n)) w
  = Some ([], stop_signal sem,
          with_request (logbook_request tkn 0 n) (logbook_entered wp w)).
Proof.
  intros Hn Hwp Hg Htkn Hj Hstatus.
  cbn [consume]. unfold next, load_logbook. cbn [gen_finished gen_state].
  rewrite (load_logbook_body_enter (Finite n) w wp Hwp).
  rewrite load_logbook_body_fetch.
  rewrite (logbook_get_page_eq _ _ (logbook_entered wp w) g tkn Hg Htkn).
  cbn [responses requests logbook_entered with_log]. rewrite Hj, Hstatus.
  rewrite String.eqb_refl.
  replace (limit_min_100 (Finite n)) with n
    by (unfold limit_min_100; lia).
  destruct (data j) as [|entry rest].
  - destruct sem; reflexivity.
  - rewrite logbook_for_eq.
    assert (Hneg : limit_negative (limit_pred (Finite n)) = true).
    { unfold limit_negative, limit_pred. apply Z.ltb_lt. lia. }
    rewrite Hneg. destruct sem; reflexivity.
Qed.

Lemma take_first_cons_within {A} (limit : Limit) (x : A) (l : list A) :
  limit_negative (limit_pred limit) = false ->
  take_first limit (x :: l) = x :: take_first (limit_pred limit) l.
Proof.
  destruct limit as [n|]; [|reflexivity]. unfold limit_negative, limit_pred.
  intros H. apply Z.ltb_ge in H. unfold take_first.
  replace (Z.to_nat n) with (S (Z.to_nat (n - 1))) by lia. reflexivity.
Qed.

Lemma take_first_cons_beyond {A} (limit : Limit) (l : list A) :
  limit_negative (limit_pred limit) = true -> take_first limit l = [].
Proof.
  destruct limit as [n|]; [|discriminate]. unfold limit_negative, limit_pred.
  intros H. apply Z.ltb_lt in H. unfold take_first.
  replace (Z.to_nat n) with 0%nat by lia. reflexivity.
Qed.

Lemma within_limit_cons (limit : Limit) (n : nat) :
  within_limit limit (S n)
  = negb (limit_negative (limit_pred limit)) && within_limit (limit_pred limit) n.
Proof.
  destruct limit as [k|]; [|reflexivity].
  unfold within_limit, limit_negative, limit_pred.
  destruct (Z.ltb_spec (k - 1) 0).
  - cbn [negb andb]. apply Nat.leb_gt. lia.
  - cbn [negb andb]. destruct (Nat.leb_spec n (Z.to_nat (k - 1))).
    + apply Nat.leb_le. lia.
    + apply Nat.leb_gt. lia.
Qed.

Lemma load_trackables_body_started (limit : Limit)
    (pending : list (string * string)) (w : World) :
  load_trackables_body (mkTrackablesFrame true limit pending) w
  = trackables_for limit pending w.
Proof. reflexivity. Qed.

(** The loop of [load_trackables] from where it stands. *)
Lemma load_trackables_resumed (sem : GeneratorSemantics) (g : PyVal) :
  forall (pending : list (string * string)) (limit : Limit) (w : World)
         (acc made : list Trackable) (fuel : nat),
    self w !! "_geocaching" = Some g ->
    self_trackables w = Some acc ->
    comprehension make_trackable (take_first limit pending) = Ok made ->
    (length made < fuel)%nat ->
    consume fuel sem load_trackables_body
      (mkGenerator (mkTrackablesFrame true limit pending) false) w
    = Some (made,
            if within_limit limit (length pending) then Clean
            else stop_signal sem,
            with_trackables (Some (acc ++ made)%list) w).
Proof.
  induction pending as [|[name url] pending IH];
    intros limit w acc made fuel Hg Hacc Hmade Hfuel.
  - destruct fuel as [|fuel]; [lia|].
    assert (made = []) as ->.
    { destruct limit as [n|]; cbn in Hmade; [|congruence].
      rewrite firstn_nil in Hmade. cbn in Hmade. congruence. }
    cbn [consume]. unfold next. cbn [gen_finished gen_state].
    rewrite load_trackables_body_started.
    cbn [trackables_for]. unfold ret.
    assert (Hw : within_limit limit (length (@nil (string * string))) = true).
    { destruct limit; [apply Nat.leb_le; simpl; lia|reflexivity]. }
    rewrite Hw. rewrite app_nil_r.
    destruct w as [s t rs rq lg]. cbn in Hacc. subst t. reflexivity.
  - destruct fuel as [|fuel]; [lia|].
    cbn [consume]. unfold next. cbn [gen_finished gen_state].
    rewrite load_trackables_body_started.
    cbn [trackables_for]. cbv zeta. cbn [length].
    rewrite within_limit_cons.
    destruct (limit_negative (limit_pred limit)) eqn:Eneg.
    + rewrite (take_first_cons_beyond _ _ Eneg) in Hmade.
      injection Hmade as <-. cbn [negb andb]. unfold raise.
      rewrite app_nil_r.
      destruct w as [s t rs rq lg]. cbn in Hacc. subst t.
      destruct sem; reflexivity.
    + rewrite (take_first_cons_within _ _ _ Eneg) in Hmade.
      apply comprehension_cons_inv in Hmade as (t & made' & Ht & Hmade' & ->).
      cbn [negb andb]. unfold bind at 1. rewrite (getattr_some _ _ _ Hg).
      unfold bind at 1. unfold lift at 1.
      unfold make_trackable in Ht. cbn [fst snd] in Ht. rewrite Ht.
      unfold bind at 1. unfold trackables_append at 1. rewrite Hacc.
      unfold ret.
      cbn [length] in Hfuel.
      rewrite (IH (limit_pred limit)
                  (with_trackables (Some (acc ++ [t])%list) w)
                  (acc ++ [t])%list made' fuel Hg eq_refl Hmade')
        by lia.
      rewrite <- app_assoc. reflexivity.
Qed.

(** X23. With a URL of the trackable page, [load_trackables] empties the list
    of the entity, makes one request, for that URL, and yields a trackable
    for each link of the second table whose [href] contains ["track"], in
    the order of the page and up to the limit, with the name taken from
    the markup of the link; the list of the entity then holds the yielded
    trackables.  When the limit is not reached, the loop runs to its end
    and the sequence ends cleanly under either generator semantics; when
    it is, the body raises [StopIteration] as in the other cases. *)
Theorem load_trackables_lists_page (sem : GeneratorSemantics) (limit : Limit)
    (fuel : nat) (w : World) (wp g url : PyVal) (res : Document)
    (links tracked : list Link) (names urls : list string)
    (made : list Trackable) :
  self w !! "_wp" = Some wp ->
  self w !! "_geocaching" = Some g ->
  self w !! "_Cache__trackable_page_url" = Some url ->
  truthy url = true ->
  responses w (length (requests w)) = Html res ->
  nth_error (tables_links res) 1 = Some links ->
  track_links links = Ok tracked ->
  comprehension link_url tracked = Ok urls ->
  comprehension link_name tracked = Ok names ->
  comprehension make_trackable (take_first limit (List.combine names urls))
  = Ok made ->
  (length made < fuel)%nat ->
  consume fuel sem load_trackables_body (load_trackables limit) w
  = Some (made,
          if within_limit limit (length tracked) then Clean
          else stop_signal sem,
          with_trackables (Some made)
            (with_request {| req_url := py_str url; req_params := [];
                             req_expect_json := false |}
               (trackables_entered wp w)))
  /\ length made
     = match limit with
       | Finite n => Nat.min (Z.to_nat n) (length tracked)
       | Infinite => length tracked
       end.
Proof.
  intros Hwp Hg Hurl Htruthy Hres Hlinks Htracked Hurls Hnames Hmade Hfuel.
  assert (Hlen_urls : length urls = length tracked)
    by exact (comprehension_length _ _ _ Hurls).
  assert (Hlen_names : length names = length tracked)
    by exact (comprehension_length _ _ _ Hnames).
  assert (Hlen : length (List.combine names urls) = length tracked)
    by (rewrite length_combine; lia).
  split.
  - set (w1 := with_request {| req_url := py_str url; req_params := [];
                                req_expect_json := false |}
                  (trackables_entered wp w)).
    assert (Hresumed :
      consume fuel sem load_trackables_body
        (mkGenerator (mkTrackablesFrame true limit (List.combine names urls))
           false) w1
      = Some (made,
              if within_limit limit (length (List.combine names urls))
              then Clean else stop_signal sem,
              with_trackables (Some ([] ++ made)%list) w1)).
    { apply (load_trackables_resumed sem g); try assumption; reflexivity. }
    rewrite Hlen in Hresumed. cbn [app] in Hresumed. rewrite <- Hresumed.
    destruct fuel as [|fuel]; [lia|].
    cbn [consume]. unfold next, load_trackables.
    cbn [gen_finished gen_state].
    assert (Hbody : load_trackables_body (mkTrackablesFrame false limit []) w
                    = load_trackables_body
                        (mkTrackablesFrame true limit (List.combine names urls))
                        w1).
    { unfold load_trackables_body at 1. cbn [tb_started tb_limit].
      unfold bind at 1. rewrite (getattr_some _ _ _ Hwp).
      unfold bind at 1. unfold logging_call at 1.
      unfold bind at 1. unfold bind at 1.
      fold (trackables_entered wp w).
      rewrite (property_get_set p__trackable_page_url url
                 (trackables_entered wp w) Hurl).
      rewrite Htruthy. cbn [negb].
      unfold bind at 1. rewrite request_document_eq.
      cbn [self trackables_entered with_trackables with_log responses requests].
      rewrite Hg, Hres. fold (trackables_entered wp w). fold w1.
      unfold bind at 1. unfold lift at 1. unfold index. rewrite Hlinks.
      unfold bind at 1. unfold lift at 1. rewrite Htracked.
      cbn [result_bind]. rewrite Hurls.
      unfold bind at 1. unfold lift at 1. rewrite Hnames.
      reflexivity. }
    rewrite Hbody.
    destruct (load_trackables_body _ w1) as [[[a g'|]|e] w'']; try reflexivity.
    destruct e, sem; reflexivity.
  - rewrite (comprehension_length _ _ _ Hmade).
    destruct limit as [n|]; cbn [take_first].
    + rewrite length_firstn, Hlen. reflexivity.
    + exact Hlen.
Qed.

(** ** [load_quick] and [load_by_guid] *)

Lemma request_from_eq {A} (server : Request -> Result A) (url : string)
    (params : list (string * PyVal)) (expect_json : bool) (w : World) :
  _request_from server url params expect_json w
  = match self w !! "_geocaching" with
    | None => (Raise AttributeError, w)
    | Some _ =>
        let rq := {| req_url := url; req_params := params;
                     req_expect_json := expect_json |} in
        (server rq, with_request rq w)
    end.
Proof.
  unfold _request_from. unfold bind.
  destruct (self w !! "_geocaching") as [g|] eqn:Eg.
  - rewrite (getattr_some _ _ _ Eg). reflexivity.
  - rewrite (getattr_none _ _ Eg). reflexivity.
Qed.

Lemma establishes_load_quick_parse (res : TileReply) :
  establishes (load_quick_parse res) quick_fields.
Proof. unfold load_quick_parse, quick_fields, Cache__str__. est. Qed.

Lemma keeps_load_quick_parse (res : TileReply) (q : property) :
  ~ In (backing q) quick_fields -> keeps (load_quick_parse res) (backing q).
Proof.
  intros Hq. unfold load_quick_parse, Cache__str__.
  destruct q; cbn [backing] in *;
    try (exfalso; apply Hq; unfold quick_fields; simpl; tauto); kp.
Qed.

Lemma load_quick_eq (w : World) (g wp : PyVal) :
  self w !! "_geocaching" = Some g ->
  self w !! "_wp" = Some wp ->
  load_quick w
  = match tile_server (tile_request wp) with
    | Ok res => load_quick_parse res (with_request (tile_request wp) w)
    | Raise e => (Raise e, with_request (tile_request wp) w)
    end.
Proof.
  intros Hg Hwp. unfold load_quick. unfold bind at 1.
  rewrite (getattr_some _ _ _ Hg). unfold bind at 1.
  rewrite (property_get_set p_wp wp w Hwp). unfold bind at 1.
  rewrite request_from_eq, Hg. cbv zeta. reflexivity.
Qed.

(** X24. When [load_quick] returns, it has made one request, to the tile server
    with the GC code as the parameter [i]; the reply had exactly one item
    and a status other than ["failed"]; the name, type, state, size,
    difficulty, terrain, date, author, favorites, premium flag and GUID
    are set, and every other property of the entity is as it was.  So the
    location, for one, is still to be loaded. *)
Theorem load_quick_fills (w w' : World) (g wp : PyVal) :
  self w !! "_geocaching" = Some g ->
  self w !! "_wp" = Some wp ->
  load_quick w = (Ok tt, w') ->
  requests w' = (requests w ++ [tile_request wp])%list
  /\ (exists res data,
        tile_server (tile_request wp) = Ok res
        /\ tile_status res <> "failed" /\ tile_data res = Some [data])
  /\ Forall (fun k => is_Some (self w' !! k)) quick_fields
  /\ (forall q, ~ In (backing q) quick_fields ->
        self w' !! backing q = self w !! backing q)
  /\ self w' !! "_location" = self w !! "_location".
Proof.
  intros Hg Hwp H. rewrite (load_quick_eq w g wp Hg Hwp) in H.
  destruct (tile_server (tile_request wp)) as [res|e] eqn:Eres;
    [|discriminate H].
  destruct (establishes_load_quick_parse res _ _ _ H) as (Hreq & _ & _ & Hset).
  assert (Hframe : forall q, ~ In (backing q) quick_fields ->
            self w' !! backing q = self w !! backing q).
  { intros q Hq. exact (keeps_load_quick_parse res q Hq _ _ _ H). }
  split; [rewrite Hreq; reflexivity|]. split; [|split; [|split]].
  - exists res. unfold load_quick_parse in H.
    apply bind_ok_inv in H as (failed & w1 & Hfailed & H).
    destruct (String.eqb_spec (tile_status res) "failed") as [Hs|Hs].
    + unfold ret in Hfailed. injection Hfailed as <- <-.
      apply bind_ok_inv in H as (? & ? & _ & H). discriminate H.
    + apply bind_ok_inv in Hfailed as (data & ? & Hdata & Hfailed).
      apply lift_ok_inv in Hdata as [Hdata ->].
      unfold ret in Hfailed. injection Hfailed as <- <-.
      destruct (tile_data res) as [l|]; [|discriminate Hdata].
      injection Hdata as <-.
      destruct (Nat.eqb_spec (length l) 1) as [Hl|Hl]; cbn [negb] in H.
      * destruct l as [|d [|? ?]]; try discriminate Hl.
        exists d. split; [reflexivity|]. split; [exact Hs|reflexivity].
      * apply bind_ok_inv in H as (? & ? & _ & H). discriminate H.
  - exact (Hset tt eq_refl).
  - exact Hframe.
  - apply (Hframe p_location). unfold quick_fields. simpl. intuition discriminate.
Qed.

(** X25. When the tile server reports a failure, or answers with no item or
    with more than one, [load_quick] raises [LoadError] with the GC code
    and the message of the reply (or a default one), after its one
    request and without changing a field. *)
Theorem load_quick_rejects (w : World) (g wp : PyVal) (res : TileReply) :
  self w !! "_geocaching" = Some g ->
  self w !! "_wp" = Some wp ->
  tile_server (tile_request wp) = Ok res ->
  tile_status res = "failed"
  \/ (exists data, tile_data res = Some data /\ length data <> 1%nat) ->
  load_quick w
  = (Raise (LoadError
              ("Cache " ++ py_str wp ++ " cannot be loaded: "
               ++ match tile_msg res with
                  | Some m => m
                  | None => "Unknown error (probably not existing cache)"
                  end)),
     with_request (tile_request wp) w).
Proof.
  intros Hg Hwp Hres Hbad. rewrite (load_quick_eq w g wp Hg Hwp), Hres.
  unfold load_quick_parse. unfold bind at 1.
  assert (Hfailed :
    (if String.eqb (tile_status res) "failed" then ret true
     else data <- lift (getitem (tile_data res)) ;;
          ret (negb (length data =? 1)%nat))
      (with_request (tile_request wp) w)
    = (Ok true, with_request (tile_request wp) w)).
  { destruct (String.eqb_spec (tile_status res) "failed") as [Hs|Hs];
      [reflexivity|].
    destruct Hbad as [Hbad|(data & Hdata & Hlen)]; [contradiction|].
    rewrite Hdata. unfold bind, lift, ret. cbn [getitem].
    destruct (Nat.eqb_spec (length data) 1); [contradiction|reflexivity]. }
  rewrite Hfailed. cbv zeta. unfold Cache__str__. unfold bind at 1.
  unfold bind at 1.
  assert (Hwp' : self (with_request (tile_request wp) w) !! "_wp" = Some wp)
    by exact Hwp.
  rewrite (getattr_some _ _ _ Hwp'). reflexivity.
Qed.

Lemma establishes_Waypoint_from_table (rows : option (list (list Cell))) :
  establishes (Waypoint_from_table rows) [].
Proof. unfold Waypoint_from_table. destruct rows; est. Qed.

Lemma keeps_Waypoint_from_table (rows : option (list (list Cell))) (k : string) :
  keeps (Waypoint_from_table rows) k.
Proof. unfold Waypoint_from_table. destruct rows; kp. Qed.

#[local] Hint Resolve establishes_Waypoint_from_table : establishes.
#[local] Hint Resolve keeps_Waypoint_from_table : keeps.

Lemma establishes_load_by_guid_parse (content : PrintContent) :
  establishes (load_by_guid_parse content) print_fields.
Proof. unfold load_by_guid_parse, print_fields. est. Qed.

Lemma keeps_load_by_guid_parse (content : PrintContent) (q : property) :
  ~ In (backing q) print_fields -> keeps (load_by_guid_parse content) (backing q).
Proof.
  intros Hq. unfold load_by_guid_parse.
  destruct q; cbn [backing] in *;
    try (exfalso; apply Hq; unfold print_fields; simpl; tauto);
    unfold set_attributes; kp.
Qed.

Lemma load_by_guid_eq (w : World) (g guid : PyVal) :
  self w !! "_geocaching" = Some g ->
  self w !! "_guid" = Some guid ->
  truthy guid = true ->
  load_by_guid w
  = match print_server (print_request guid) with
    | Ok res =>
        if print_Warning res
        then (Raise PMOnlyException, with_request (print_request guid) w)
        else match print_Content res with
             | Some content =>
                 load_by_guid_parse content
                   (with_request (print_request guid) w)
             | None =>
                 (Raise AttributeError, with_request (print_request guid) w)
             end
    | Raise e => (Raise e, with_request (print_request guid) w)
    end.
Proof.
  intros Hg Hguid Htruthy. unfold load_by_guid.
  assert (Hget : property_get p_guid w = (Ok guid, w)).
  { cbn [property_get]. unfold bind.
    rewrite (self_hasattr_true _ _ _ Hguid). exact (getattr_some _ _ _ Hguid). }
  unfold bind at 1. rewrite Hget, Htruthy. cbn [negb].
  unfold bind at 1. unfold ret at 1.
  unfold bind at 1. rewrite (getattr_some _ _ _ Hg).
  unfold bind at 1. rewrite Hget.
  unfold bind at 1. rewrite request_from_eq, Hg. cbv zeta.
  change {| req_url := _urls "print_page"; req_params := [("guid", guid)];
            req_expect_json := false |} with (print_request guid).
  destruct (print_server (print_request guid)) as [res|e]; [|reflexivity].
  destruct (print_Warning res); [reflexivity|].
  unfold bind at 1. unfold lift at 1.
  destruct (print_Content res); reflexivity.
Qed.

(** X26. With a GUID, [load_by_guid] makes one request, for the print page of
    that GUID, and does not ask the tile server.  When the page shows a
    warning, it raises [PMOnlyException] before it has changed any field
    (unlike [load], which fills the basic fields first). *)
Theorem load_by_guid_restricted (w : World) (g guid : PyVal) :
  self w !! "_geocaching" = Some g ->
  self w !! "_guid" = Some guid ->
  truthy guid = true ->
  requests (snd (load_by_guid w))
  = (requests w ++ [print_request guid])%list
  /\ (forall res,
        print_server (print_request guid) = Ok res ->
        print_Warning res = true ->
        load_by_guid w
        = (Raise PMOnlyException, with_request (print_request guid) w)).
Proof.
  intros Hg Hguid Htruthy. rewrite (load_by_guid_eq w g guid Hg Hguid Htruthy).
  split.
  - destruct (print_server (print_request guid)) as [res|e]; [|reflexivity].
    destruct (print_Warning res); [reflexivity|].
    destruct (print_Content res) as [content|]; [|reflexivity].
    destruct (load_by_guid_parse content _) as [r w1] eqn:E.
    destruct (establishes_load_by_guid_parse content _ _ _ E) as (Hreq & _).
    cbn [snd]. rewrite Hreq. reflexivity.
  - intros res Hres Hwarn. rewrite Hres, Hwarn. reflexivity.
Qed.

(** X27. When [load_by_guid] returns for an entity with a GUID, the fields it
    takes from the print page are set, and the state, the found flag, the
    premium flag, the original location and every other property are as
    they were.  The hint is the text of the page's hint without
    surrounding blanks, as it stands: it is not decoded as in [load]. *)
Theorem load_by_guid_fills (w w' : World) (g guid : PyVal) :
  self w !! "_geocaching" = Some g ->
  self w !! "_guid" = Some guid ->
  truthy guid = true ->
  load_by_guid w = (Ok tt, w') ->
  Forall (fun k => is_Some (self w' !! k)) print_fields
  /\ (forall q, ~ In (backing q) print_fields ->
        self w' !! backing q = self w !! backing q)
  /\ Forall (fun q => self w' !! backing q = self w !! backing q)
       [p_state; p_found; p_pm_only; p_original_location]
  /\ exists res content hint,
       print_server (print_request guid) = Ok res
       /\ print_Warning res = false
       /\ print_Content res = Some content
       /\ uxEncryptedHint_text content = Some hint
       /\ self w' !! "_hint" = Some (VStr (PyStr.strip hint)).
Proof.
  intros Hg Hguid Htruthy H.
  rewrite (load_by_guid_eq w g guid Hg Hguid Htruthy) in H.
  destruct (print_server (print_request guid)) as [res|e]; [|discriminate H].
  destruct (print_Warning res) eqn:Ewarn; [discriminate H|].
  destruct (print_Content res) as [content|] eqn:Econtent; [|discriminate H].
  destruct (establishes_load_by_guid_parse content _ _ _ H) as (_ & _ & _ & Hset).
  assert (Hframe : forall q, ~ In (backing q) print_fields ->
            self w' !! backing q = self w !! backing q).
  { intros q Hq. exact (keeps_load_by_guid_parse content q Hq _ _ _ H). }
  split; [exact (Hset tt eq_refl)|]. split; [exact Hframe|]. split.
  - repeat (constructor;
            [apply Hframe; unfold print_fields; simpl; intuition discriminate|]).
    constructor.
  - exists res, content. unfold load_by_guid_parse in H.
    do 29 (apply bind_ok_inv in H as (? & ? & _ & H)).
    apply bind_ok_inv in H as (hint & ? & Hhint & H).
    apply lift_ok_inv in Hhint as [Hhint ->].
    apply bind_ok_inv in H as ([] & w2 & Hs & H).
    apply setattr_ok_inv in Hs. subst w2.
    match type of H with
    | ?rest _ = _ => assert (K : keeps rest "_hint")
    end.
    { kp. }
    exists hint. split; [reflexivity|]. split; [exact Ewarn|].
    split; [exact Econtent|].
    split; [destruct (uxEncryptedHint_text content); [|discriminate];
            injection Hhint as <-; reflexivity|].
    rewrite (K _ _ _ H). cbn [self with_self]. unfold py_str.
    cbn [str_methods]. apply lookup_insert_eq.
Qed.

(** X28. Without a GUID, or with an empty one, [load_by_guid] first runs
    [load_quick]; when that fails, its error is the error of
    [load_by_guid], and the print page is not asked for. *)
Theorem load_by_guid_needs_guid (w w1 : World) (e : exn) :
  self w !! "_guid" = None \/ self w !! "_guid" = Some (VStr "") ->
  load_quick w = (Raise e, w1) ->
  load_by_guid w = (Raise e, w1).
Proof.
  intros Hguid Hquick. unfold load_by_guid.
  assert (Hget : exists guid, property_get p_guid w = (Ok guid, w)
                              /\ truthy guid = false).
  { cbn [property_get]. unfold bind. destruct Hguid as [Hn|Hs].
    - rewrite (self_hasattr_false _ _ Hn). exists VNone. split; reflexivity.
    - rewrite (self_hasattr_true _ _ _ Hs), (getattr_some _ _ _ Hs).
      exists (VStr ""). split; reflexivity. }
  destruct Hget as (guid & Hget & Hfalsy).
  unfold bind at 1. rewrite Hget, Hfalsy. cbn [negb].
  unfold bind at 1. rewrite Hquick. reflexivity.
Qed.

(** ** Posting a log *)

Lemma get_log_page_url_eq (w : World) (code : string) :
  self w !! "_wp" = Some (VStr code) ->
  _get_log_page_url w
  = (Ok ("play/geocache/" ++ PyStr.lower code ++ "/log"), w).
Proof.
  intros Hwp. unfold _get_log_page_url. unfold bind at 1.
  rewrite (property_get_set p_wp _ w Hwp). reflexivity.
Qed.

Lemma inputs_dict_spec (inputs : list (option string * option string)) :
  forall acc d,
    inputs_dict acc inputs = Ok d ->
    (forall k, is_Some (dict_get k acc) -> is_Some (dict_get k d))
    /\ (forall name value, In (Some name, value) inputs ->
          is_Some (dict_get name d))
    /\ (forall k v, dict_get k d = Some v ->
          dict_get k acc = Some v
          \/ exists value, In (Some k, value) inputs
               /\ v = VStr (match value with Some x => x | None => "" end)).
Proof.
  induction inputs as [|[name value] inputs IH]; intros acc d H.
  - injection H as <-. split; [auto|]. split; [intros ? ? []|auto].
  - cbn [inputs_dict] in H. destruct name as [name|]; [|discriminate H].
    cbn [getitem result_bind] in H.
    destruct (IH _ _ H) as (Hkeep & Hcomplete & Hsound).
    split; [|split].
    + intros k Hk. apply Hkeep. apply dict_get_is_Some_setitem. exact Hk.
    + intros name' value' [[= <- <-]|Hin].
      * apply Hkeep. rewrite dict_get_setitem_eq. eexists. reflexivity.
      * exact (Hcomplete _ _ Hin).
    + intros k v Hk. destruct (Hsound k v Hk) as [Hacc|(value' & Hin & ->)].
      * destruct (String.eqb_spec name k) as [->|Hne].
        -- rewrite dict_get_setitem_eq in Hacc. injection Hacc as <-.
           right. exists value. split; [left; reflexivity|reflexivity].
        -- rewrite dict_get_setitem_ne in Hacc by exact Hne. left. exact Hacc.
      * right. exists value'. split; [right; exact Hin|reflexivity].
Qed.

Lemma load_log_page_eq (w : World) (g : PyVal) (code : string) :
  self w !! "_geocaching" = Some g ->
  self w !! "_wp" = Some (VStr code) ->
  let url := "play/geocache/" ++ PyStr.lower code ++ "/log" in
  _load_log_page w
  = (result_bind (log_page_server (log_page_request url)) (fun log_page =>
     result_bind (deref (LogTypeId_option_values log_page)) (fun options =>
     result_bind (comprehension getitem options) (fun valid_types =>
     result_bind (inputs_dict [] (hidden_inputs log_page)) (fun inputs =>
     Ok (valid_types, inputs))))),
     with_request (log_page_request url) w).
Proof.
  intros Hg Hwp. cbv zeta. unfold _load_log_page.
  unfold bind at 1. rewrite (getattr_some _ _ _ Hg).
  unfold bind at 1. rewrite (get_log_page_url_eq w code Hwp).
  unfold bind at 1. rewrite request_from_eq, Hg. cbv zeta.
  fold (log_page_request ("play/geocache/" ++ PyStr.lower code ++ "/log")).
  destruct (log_page_server _) as [log_page|e]; [|reflexivity].
  cbn [result_bind]. unfold bind, lift, ret.
  destruct (deref (LogTypeId_option_values log_page)) as [options|e];
    [|reflexivity].
  cbn [result_bind].
  destruct (comprehension getitem options) as [valid|e]; [|reflexivity].
  cbn [result_bind].
  destruct (inputs_dict [] (hidden_inputs log_page)); reflexivity.
Qed.

(** X29. [post_log] checks the log before it posts anything.  A log without
    text raises [errors.ValueError] before any request.  A log whose type
    is not among the options of the log page raises [errors.ValueError]
    after the one request for that page; nothing is posted. *)
Theorem post_log_validates (log : LogFields) (o : Outbox) :
  (log_text log = "" ->
   post_log log o = (Raise (ValueError "Log text is empty"), o))
  /\ (forall g code page options valid_types inputs,
        let url := "play/geocache/" ++ PyStr.lower code ++ "/log" in
        log_text log <> "" ->
        self (entity o) !! "_geocaching" = Some g ->
        self (entity o) !! "_wp" = Some (VStr code) ->
        log_page_server (log_page_request url) = Ok page ->
        LogTypeId_option_values page = Some options ->
        comprehension getitem options = Ok valid_types ->
        inputs_dict [] (hidden_inputs page) = Ok inputs ->
        ~ In (log_type_value log) valid_types ->
        post_log log o
        = (Raise (ValueError "The cache does not accept this type of log"),
           mkOutbox (with_request (log_page_request url) (entity o))
                    (posts o))).
Proof.
  split.
  - intros Htext. unfold post_log, post_log_form. rewrite Htext.
    cbn [truthy String.eqb negb]. unfold raise. destruct o; reflexivity.
  - intros g code page options valid_types inputs url Htext Hg Hwp Hpage
           Hoptions Hvalid Hinputs Hnot.
    unfold post_log, post_log_form. cbn [truthy].
    assert (Hne : String.eqb (log_text log) "" = false)
      by (apply String.eqb_neq; exact Htext).
    rewrite Hne. cbn [negb]. unfold bind at 1.
    rewrite (load_log_page_eq _ g code Hg Hwp). cbv zeta. fold url.
    rewrite Hpage. cbn [result_bind]. rewrite Hoptions. cbn [deref result_bind].
    rewrite Hvalid. cbn [result_bind]. rewrite Hinputs. cbn [result_bind fst snd].
    assert (Hex : existsb (String.eqb (log_type_value log)) valid_types = false).
    { apply not_true_is_false. intros Hex. apply existsb_exists in Hex as (x & Hin & Hx).
      apply String.eqb_eq in Hx. subst x. exact (Hnot Hin). }
    rewrite Hex. reflexivity.
Qed.

(** X30. A log with a text and an accepted type is posted to the log page of
    the cache, whose URL has the GC code in lower case, after one request
    for that page.  The form holds the type, the date and the text of the
    log under [LogTypeId], [LogDate] and [LogText], whatever the page had
    under these names, and beside them every hidden or submit input of the
    page, with its value or with an empty text; the answer of the handler
    is the result. *)
Theorem post_log_posts_form (log : LogFields) (o : Outbox) (g : PyVal)
    (code : string) (page : LogPage) (options : list (option string))
    (valid_types : list string) (inputs : list (PyVal * PyVal)) :
  let url := "play/geocache/" ++ PyStr.lower code ++ "/log" in
  log_text log <> "" ->
  self (entity o) !! "_geocaching" = Some g ->
  self (entity o) !! "_wp" = Some (VStr code) ->
  log_page_server (log_page_request url) = Ok page ->
  LogTypeId_option_values page = Some options ->
  comprehension getitem options = Ok valid_types ->
  inputs_dict [] (hidden_inputs page) = Ok inputs ->
  In (log_type_value log) valid_types ->
  exists form,
    post_log log o
    = (form_handler form,
       mkOutbox (with_request (log_page_request url)
                   (with_request (log_page_request url) (entity o)))
                (posts o ++ [form])%list)
    /\ post_url form = url
    /\ dict_get "LogTypeId" (post_data form) = Some (VStr (log_type_value log))
    /\ dict_get "LogDate" (post_data form) = Some (VStr (log_visited_ymd log))
    /\ dict_get "LogText" (post_data form) = Some (VStr (log_text log))
    /\ (forall name value, In (Some name, value) (hidden_inputs page) ->
          is_Some (dict_get name (post_data form)))
    /\ (forall k v,
          k <> "LogTypeId" -> k <> "LogDate" -> k <> "LogText" ->
          dict_get k (post_data form) = Some v ->
          exists value,
            In (Some k, value) (hidden_inputs page)
            /\ v = VStr (match value with Some x => x | None => "" end)).
Proof.
  intros url Htext Hg Hwp Hpage Hoptions Hvalid Hinputs Hin.
  destruct (inputs_dict_spec _ _ _ Hinputs) as (_ & Hcomplete & Hsound).
  eexists. split.
  - unfold post_log, post_log_form. cbn [truthy].
    assert (Hne : String.eqb (log_text log) "" = false)
      by (apply String.eqb_neq; exact Htext).
    rewrite Hne. cbn [negb]. unfold bind at 1.
    rewrite (load_log_page_eq _ g code Hg Hwp). cbv zeta. fold url.
    rewrite Hpage. cbn [result_bind]. rewrite Hoptions. cbn [deref result_bind].
    rewrite Hvalid. cbn [result_bind]. rewrite Hinputs. cbn [result_bind fst snd].
    assert (Hex : existsb (String.eqb (log_type_value log)) valid_types = true).
    { apply existsb_exists. exists (log_type_value log).
      split; [exact Hin|apply String.eqb_refl]. }
    rewrite Hex. cbn [negb].
    assert (Hg' : self (with_request (log_page_request url) (entity o))
                    !! "_geocaching" = Some g) by exact Hg.
    assert (Hwp' : self (with_request (log_page_request url) (entity o))
                    !! "_wp" = Some (VStr code)) by exact Hwp.
    unfold bind at 1. rewrite (getattr_some _ _ _ Hg').
    unfold bind at 1. rewrite (get_log_page_url_eq _ code Hwp').
    unfold ret. cbn [post_url]. fold url. reflexivity.
  - cbn [post_url post_data]. split; [reflexivity|].
    split; [rewrite !dict_get_setitem_ne by discriminate;
            apply dict_get_setitem_eq|].
    split; [rewrite dict_get_setitem_ne by discriminate;
            apply dict_get_setitem_eq|].
    split; [apply dict_get_setitem_eq|].
    split.
    + intros name value Hi. do 3 apply dict_get_is_Some_setitem.
      exact (Hcomplete _ _ Hi).
    + intros k v H1 H2 H3 Hk.
      rewrite !dict_get_setitem_ne in Hk by (intros E; symmetry in E; contradiction).
      destruct (Hsound k v Hk) as [Hacc|Hrest]; [discriminate Hacc|exact Hrest].
Qed.

End Properties.

(* ===================================================================== *)
(** * The properties on the example session *)
(* ===================================================================== *)

#[local] Existing Instance Example.collaborators.

Lemma run_result {collab : Collaborators} {A} (m : M A) (w : World)
    (r : Result A) :
  fst (m w) = r -> m w = (r, snd (m w)).
Proof. intros <-. destruct (m w); reflexivity. Qed.

(** ** C1: one [load] for all lazy fields *)

(** C1 on the example: one [load] of the fresh entity returns, every
    lazy-loaded field exists afterwards, and one request was made. *)
Lemma load_sets_every_lazy_field_witness :
  load Example.fresh = (Ok tt, Example.loaded)
  /\ (forall p, In p lazy_properties ->
        is_Some (self Example.loaded !! backing p))
  /\ length (requests Example.loaded) = S (length (requests Example.fresh)).
Proof.
  assert (H : load Example.fresh = (Ok tt, Example.loaded)).
  { unfold Example.loaded. apply run_result. vm_compute. reflexivity. }
  split; [exact H|].
  destruct (load_sets_every_lazy_field Example.fresh Example.loaded H)
    as (Hall & Hlen & _).
  split; [exact Hall|exact Hlen].
Defined.

(** Reading [hint] and then [waypoints] on the fresh entity returns both
    and makes one request. *)
Example two_lazy_reads_one_request :
  fst ((x <- property_get p_hint ;; y <- property_get p_waypoints ;; ret (x, y))
         Example.fresh)
  = Ok (VStr "under the stone", VDict [])
  /\ length (requests Example.fresh) = 0%nat
  /\ length (requests
       (snd ((x <- property_get p_hint ;; y <- property_get p_waypoints ;;
              ret (x, y)) Example.fresh))) = 1%nat.
Proof. repeat split; vm_compute; reflexivity. Qed.

(** ** C2: PM-only caches *)

(** C2 on the example: the PM-only page is well formed, and [load] on it
    raises [PMOnlyException] with the reduced fields stored. *)
Lemma restricted_page_partial_load_witness :
  self Example.restricted !! "_geocaching" = Some Example.geocaching
  /\ (is_Some (self Example.restricted !! "url")
      \/ is_Some (self Example.restricted !! "_wp"))
  /\ responses Example.restricted (length (requests Example.restricted))
     = Html Example.pm_only_page
  /\ reduced_page Example.pm_only_page "GC2PMO" "Twenty Thousand Leagues"
       "Nemo" (7 # 2) 2 Size.regular 7 Type_.multicache
  /\ exists w',
       load Example.restricted = (Raise PMOnlyException, w')
       /\ self w'
          = with_reduced_fields "GC2PMO" "Twenty Thousand Leagues" "Nemo"
              (7 # 2) 2 Size.regular 7 Type_.multicache
              (self Example.restricted).
Proof.
  assert (Hg : self Example.restricted !! "_geocaching" = Some Example.geocaching)
    by (vm_compute; reflexivity).
  assert (Hid : is_Some (self Example.restricted !! "url")
                \/ is_Some (self Example.restricted !! "_wp"))
    by (right; exists (VStr "GC2PMO"); vm_compute; reflexivity).
  assert (Hresp : responses Example.restricted
                    (length (requests Example.restricted))
                  = Html Example.pm_only_page) by reflexivity.
  assert (Hpage : reduced_page Example.pm_only_page "GC2PMO"
                    "Twenty Thousand Leagues" "Nemo" (7 # 2) 2 Size.regular 7
                    Type_.multicache).
  { constructor; [reflexivity|].
    eexists _, " GC2PMO ", " Twenty Thousand Leagues ", "A cache by Nemo", _,
            "3.5", "2", "Regular", "7", "/images/WptTypes/3.gif".
    split; [reflexivity|].
    repeat (split; [vm_compute; reflexivity|]). vm_compute; reflexivity. }
  repeat (split; [assumption|]).
  destruct (restricted_page_partial_load Example.restricted Example.geocaching
              Example.pm_only_page _ _ _ _ _ _ _ _ Hg Hid Hresp Hpage)
    as (w' & Hload & _ & _ & Hself & _).
  exists w'. split; [exact Hload|exact Hself].
Defined.

(** After the exception the name is readable and reading the location
    raises again. *)
Example restricted_reads :
  fst (load Example.restricted) = Raise PMOnlyException
  /\ fst (property_get p_name (snd (load Example.restricted)))
     = Ok (VStr "Twenty Thousand Leagues")
  /\ fst (property_get p_pm_only (snd (load Example.restricted)))
     = Ok (VBool true)
  /\ fst (property_get p_location (snd (load Example.restricted)))
     = Raise PMOnlyException.
Proof. repeat split; vm_compute; reflexivity. Qed.

(** ** C4: the found flag *)

(** C4 on the example: the page has a found-status element, so the flag
    is true after the load. *)
Lemma found_flag_is_element_presence_witness :
  load Example.fresh = (Ok tt, Example.loaded)
  /\ exists d,
       responses Example.fresh (length (requests Example.fresh)) = Html d
       /\ self Example.loaded !! "_found"
          = Some (VBool (bool_decide (is_Some (FoundStatus_text d)))).
Proof.
  assert (H : load Example.fresh = (Ok tt, Example.loaded)).
  { unfold Example.loaded. apply run_result. vm_compute. reflexivity. }
  split; [exact H|].
  exact (found_flag_is_element_presence Example.fresh Example.loaded H).
Defined.

(** The failing input of C4: the text of the found-status element is
    ["Did Not Find"], which has neither marker phrase, and the flag is
    true. *)
Example found_flag_failing_input :
  FoundStatus_text Example.detail_page = Some "Did Not Find"
  /\ PyStr.contains "Found It!" "Did Not Find" = false
  /\ PyStr.contains "Attended" "Did Not Find" = false
  /\ fst (load Example.fresh) = Ok tt
  /\ self Example.loaded !! "_found" = Some (VBool true).
Proof. repeat split; vm_compute; reflexivity. Qed.

(** ** C5: validation errors and the stored fields *)


(** Outside the condition of C5: a dictionary whose second key is not a
    string makes the setter of [attributes] raise partway, with the
    [AttributeError] of [name.strip()] and not with a validation error; the
    field, which held two attributes, then holds the one entry processed
    before. *)
Example attributes_setter_partial_failure :
  self Example.loaded !! "_attributes"
  = Some (VDict [(VStr "dogs", VBool true); (VStr "kids", VBool false)])
  /\ fst (property_set p_attributes
            (VDict [(VStr "wheelchair", VBool true); (VInt 5, VBool false)])
            Example.loaded)
     = Raise AttributeError
  /\ self (snd (property_set p_attributes
                  (VDict [(VStr "wheelchair", VBool true); (VInt 5, VBool false)])
                  Example.loaded)) !! "_attributes"
     = Some (VDict [(VStr "wheelchair", VBool true)])
  /\ self (snd (property_set p_attributes
                  (VDict [(VStr "wheelchair", VBool true); (VInt 5, VBool false)])
                  Example.loaded)) !! "_attributes"
     <> self Example.loaded !! "_attributes".
Proof.
  assert (H0 : self Example.loaded !! "_attributes"
               = Some (VDict [(VStr "dogs", VBool true); (VStr "kids", VBool false)]))
    by (vm_compute; reflexivity).
  assert (H1 : self (snd (property_set p_attributes
                  (VDict [(VStr "wheelchair", VBool true); (VInt 5, VBool false)])
                  Example.loaded)) !! "_attributes"
               = Some (VDict [(VStr "wheelchair", VBool true)]))
    by (vm_compute; reflexivity).
  split; [exact H0|]. split; [vm_compute; reflexivity|]. split; [exact H1|].
  rewrite H0, H1. discriminate.
Qed.

(** ** C6: no trackables *)

(** C6 on the example: the loaded entity has no trackable page; the
    consumer gets nothing, no request is made, and the sequence ends with
    the stop signal of the semantics. *)
Lemma load_trackables_without_url_witness :
  self Example.loaded !! "_wp" = Some (VStr "GC1PAR2")
  /\ self Example.loaded !! "_Cache__trackable_page_url" = Some VNone
  /\ truthy VNone = false
  /\ consume 1 PEP479 load_trackables_body (load_trackables Infinite)
       Example.loaded
     = Some ([], Failed RuntimeError,
             trackables_entered (VStr "GC1PAR2") Example.loaded)
  /\ consume 1 Legacy load_trackables_body (load_trackables Infinite)
       Example.loaded
     = Some ([], Clean, trackables_entered (VStr "GC1PAR2") Example.loaded)
  /\ requests (trackables_entered (VStr "GC1PAR2") Example.loaded)
     = requests Example.loaded.
Proof.
  assert (Hwp : self Example.loaded !! "_wp" = Some (VStr "GC1PAR2"))
    by (vm_compute; reflexivity).
  assert (Hurl : self Example.loaded !! "_Cache__trackable_page_url" = Some VNone)
    by (vm_compute; reflexivity).
  split; [exact Hwp|]. split; [exact Hurl|]. split; [reflexivity|].
  split; [|split].
  - exact (proj1 (proj1 (load_trackables_without_url PEP479 Infinite 0
                           Example.loaded (VStr "GC1PAR2") Hwp)
                    VNone Hurl eq_refl)).
  - exact (proj1 (proj1 (load_trackables_without_url Legacy Infinite 0
                           Example.loaded (VStr "GC1PAR2") Hwp)
                    VNone Hurl eq_refl)).
  - reflexivity.
Defined.

(** On the fresh entity the URL is resolved by the [load] that reading it
    triggers: one request, for the detail page, and no item. *)
Example load_trackables_resolves_url :
  option_map fst
    (consume 1 PEP479 load_trackables_body (load_trackables Infinite)
       Example.fresh)
  = Some ([], Failed RuntimeError)
  /\ option_map fst
       (consume 1 Legacy load_trackables_body (load_trackables Infinite)
          Example.fresh)
     = Some ([], Clean)
  /\ option_map (fun r => List.map req_url (requests (snd r)))
       (consume 1 Legacy load_trackables_body (load_trackables Infinite)
          Example.fresh)
     = Some ["seek/cache_details.aspx"].
Proof. repeat split; vm_compute; reflexivity. Qed.

(** ** C7: the scale *)

(** C7 on the example: 2.5 is on the scale and is stored by both
    setters. *)
Lemma difficulty_terrain_accept_iff_witness :
  on_scale (5 # 2)
  /\ scale_stores (VFloat (5 # 2)) (5 # 2) Example.fresh.
Proof.
  assert (H : on_scale (5 # 2)).
  { split; [discriminate|]. split; [discriminate|]. reflexivity. }
  split; [exact H|].
  apply (proj1 (proj1 (proj2 (proj2 (proj2
           (difficulty_terrain_accept_iff VNone Example.fresh)))) (5 # 2))).
  exact H.
Defined.

(** The claim C7 fails for a value that [float] does not convert: [None]
    is not on the scale, and assigning it raises [TypeError], which is not
    the validation error; so does an integer too large for a float, with
    [OverflowError]. *)
Lemma difficulty_of_None_is_TypeError :
  set_difficulty VNone Example.fresh = (Raise TypeError, Example.fresh)
  /\ set_terrain VNone Example.fresh = (Raise TypeError, Example.fresh)
  /\ is_validation_error TypeError = false
  /\ set_difficulty (VInt (10 ^ 400)) Example.fresh
     = (Raise OverflowError, Example.fresh)
  /\ set_terrain (VInt (10 ^ 400)) Example.fresh
     = (Raise OverflowError, Example.fresh)
  /\ is_validation_error OverflowError = false.
Proof.
  assert (Hbig : (Z.abs (10 ^ 400) <? float_overflow) = false)
    by (vm_compute; reflexivity).
  unfold set_difficulty, set_terrain, bind, lift. cbn [py_float].
  rewrite Hbig. repeat split; reflexivity.
Qed.

(** ** C8: the enumerations *)

(** C8 on the example: [Type.from_filename("8")] is [Type.mystery]. *)
Lemma enum_constructors_roundtrip_witness :
  Type_.value Type_.mystery <> "earthcache"
  /\ exists m',
       Type_.from_filename (Type_.value Type_.mystery) = Ok m'
       /\ Type_.value m' = Type_.value Type_.mystery /\ m' = Type_.mystery.
Proof.
  assert (H : Type_.value Type_.mystery <> "earthcache") by discriminate.
  split; [exact H|].
  exact (proj1 enum_constructors_roundtrip Type_.mystery H).
Defined.

(** The aliases are the members they name, and ["earthcache"] is read as
    the value of [Type.earthcache]. *)
Example enum_aliases :
  Type_.unknown = Type_.mystery
  /\ Type_.from_filename "earthcache" = Ok Type_.earthcache
  /\ Type_.from_filename "137" = Ok Type_.earthcache
  /\ Type_.from_filename "nothing" = Raise BuiltinValueError
  /\ Size.from_string " Not Chosen " = Ok Size.not_chosen
  /\ Size.from_filename "not_chosen" = Ok Size.not_chosen.
Proof. repeat split; reflexivity. Qed.

(** ** C9: attributes from icons *)

(** C9 on the example: the four tokens are well formed and the attribute
    part of [load] returns, storing a map. *)
Lemma attributes_from_icon_tokens_witness :
  widget_img_srcs Example.icon_widget = map Some Example.icons
  /\ (forall src, In src Example.icons -> is_Some (token_parts src))
  /\ exists items w',
       load_attributes Example.icon_widget Example.fresh = (Ok tt, w')
       /\ self w' = <["_attributes" := VDict items]> (self Example.fresh)
       /\ (forall n v, dict_get n items = Some v ->
             exists src name sfx,
               In src Example.icons /\ token_parts src = Some (name, sfx)
               /\ PyStr.startswith sfx "blank" = false
               /\ normalise name = n /\ is_possible_attribute n = true
               /\ v = VBool (PyStr.startswith sfx "yes")).
Proof.
  assert (H1 : widget_img_srcs Example.icon_widget = map Some Example.icons)
    by reflexivity.
  assert (H2 : forall src, In src Example.icons -> is_Some (token_parts src)).
  { intros src Hin. simpl in Hin.
    repeat (destruct Hin as [<-|Hin]; [eexists; vm_compute; reflexivity|]).
    destruct Hin. }
  split; [exact H1|]. split; [exact H2|].
  destruct (attributes_from_icon_tokens Example.icons Example.icon_widget
              Example.fresh H1 H2) as (items & w' & Hrun & Hself & Hsound & _).
  exists items, w'. auto.
Defined.

(** The tokens of the specification: the map is exactly
    [{"dogs": True, "kids": False}], ["parking"] is left out, and the
    unknown ["bogus"] is left out with a warning and without an error. *)
Example attribute_tokens_of_the_spec :
  fst (load_attributes Example.icon_widget Example.fresh) = Ok tt
  /\ self (snd (load_attributes Example.icon_widget Example.fresh))
       !! "_attributes"
     = Some (VDict [(VStr "dogs", VBool true); (VStr "kids", VBool false)])
  /\ logging (snd (load_attributes Example.icon_widget Example.fresh))
     = [("WARNING", "Unknown attribute bogus, ignoring.")].
Proof. repeat split; vm_compute; reflexivity. Qed.

(** When two icons carry one name, the later one decides. *)
Example attribute_tokens_same_name :
  self (snd (load_attributes
               {| widget_img_srcs := [Some "dogs-yes"; Some "dogs-no"];
                  widget_a_count := 0%nat; widget_view_all_href := None |}
               Example.fresh)) !! "_attributes"
  = Some (VDict [(VStr "dogs", VBool false)]).
Proof. vm_compute; reflexivity. Qed.

(** ** C10: exact types *)


(** ** C3: the logbook *)

(** C3 on the example: pages of 25, 25 and 0 entries and a limit of 40
    give exactly 40 logs, then the stop signal of the semantics. *)
Lemma load_logbook_yields_limit_witness :
  self Example.with_logbook !! "_wp" = Some (VStr "GC1PAR2")
  /\ is_Some (self Example.with_logbook !! "_geocaching")
  /\ is_Some (self Example.with_logbook !! "_Cache__logbook_token")
  /\ serves Example.with_logbook (length (requests Example.with_logbook))
       Example.logbook_pages
  /\ comprehension make_log
       (take_limit (Finite 40) (available Example.logbook_pages))
     = Ok (List.repeat Example.entry_log 40)
  /\ (length (List.repeat Example.entry_log 40) < 41)%nat
  /\ (exists w',
        consume 41 PEP479 load_logbook_body (load_logbook (Finite 40))
          Example.with_logbook
        = Some (List.repeat Example.entry_log 40, Failed RuntimeError, w'))
  /\ (exists w',
        consume 41 Legacy load_logbook_body (load_logbook (Finite 40))
          Example.with_logbook
        = Some (List.repeat Example.entry_log 40, Clean, w'))
  /\ length (List.repeat Example.entry_log 40) = 40%nat.
Proof.
  assert (Hwp : self Example.with_logbook !! "_wp" = Some (VStr "GC1PAR2"))
    by (vm_compute; reflexivity).
  assert (Hg : is_Some (self Example.with_logbook !! "_geocaching"))
    by (eexists; vm_compute; reflexivity).
  assert (Htkn : is_Some (self Example.with_logbook !! "_Cache__logbook_token"))
    by (eexists; vm_compute; reflexivity).
  assert (Hserves : serves Example.with_logbook
                      (length (requests Example.with_logbook))
                      Example.logbook_pages)
    by (intros j; exists None; reflexivity).
  assert (Hmade : comprehension make_log
                    (take_limit (Finite 40) (available Example.logbook_pages))
                  = Ok (List.repeat Example.entry_log 40))
    by (vm_compute; reflexivity).
  assert (Hfuel : (length (List.repeat Example.entry_log 40) < 41)%nat)
    by (vm_compute; lia).
  repeat (split; [assumption|]).
  split; [|split].
  - exact (proj1 (load_logbook_yields_limit PEP479 (Finite 40)
                    Example.logbook_pages Example.with_logbook _ _ 41%nat
                    Hwp Hg Htkn Hserves Hmade Hfuel)).
  - exact (proj1 (load_logbook_yields_limit Legacy (Finite 40)
                    Example.logbook_pages Example.with_logbook _ _ 41%nat
                    Hwp Hg Htkn Hserves Hmade Hfuel)).
  - reflexivity.
Defined.

(** The same by evaluation, with the requests made: two pages are fetched
    for a limit of 40; without a limit the empty third page is fetched and
    ends the sequence after 50 logs. *)
Example logbook_of_the_spec :
  option_map (fun r => (length (fst (fst r)), snd (fst r),
                        length (requests (snd r))))
    (consume 41 PEP479 load_logbook_body (load_logbook (Finite 40))
       Example.with_logbook)
  = Some (40%nat, Failed RuntimeError, 2%nat)
  /\ option_map (fun r => (length (fst (fst r)), snd (fst r),
                           length (requests (snd r))))
       (consume 41 Legacy load_logbook_body (load_logbook (Finite 40))
          Example.with_logbook)
     = Some (40%nat, Clean, 2%nat)
  /\ option_map (fun r => (length (fst (fst r)), snd (fst r),
                           length (requests (snd r))))
       (consume 60 Legacy load_logbook_body (load_logbook Infinite)
          Example.with_logbook)
     = Some (50%nat, Clean, 3%nat)
  /\ option_map (fun r => List.map req_params (requests (snd r)))
       (consume 41 Legacy load_logbook_body (load_logbook (Finite 40))
          Example.with_logbook)
     = Some [ [ ("tkn", VStr "ABCDEF"); ("idx", VInt 1); ("num", VInt 40);
                ("decrypt", VStr "true") ];
              [ ("tkn", VStr "ABCDEF"); ("idx", VInt 2); ("num", VInt 40);
                ("decrypt", VStr "true") ] ].
Proof. repeat split; vm_compute; reflexivity. Qed.

(* ===================================================================== *)
(** * The further properties on the example session *)
(* ===================================================================== *)

#[local] Existing Instance Example.services.

(** The example entities: what they hold and how their methods end. *)
Lemma fresh_holds :
  self Example.fresh !! "_geocaching" = Some Example.geocaching
  /\ self Example.fresh !! "_wp" = Some (VStr "GC1PAR2")
  /\ self Example.fresh !! "url" = None
  /\ self Example.fresh !! "_guid" = None.
Proof. repeat split; vm_compute; reflexivity. Qed.

Lemma fresh_loads : load Example.fresh = (Ok tt, Example.loaded).
Proof. unfold Example.loaded. apply run_result. vm_compute. reflexivity. Qed.

(** X6 on the example: a hint between blanks is stored without them. *)
Lemma text_setters_strip_witness :
  In p_hint [p_name; p_author; p_summary; p_description; p_hint]
  /\ PyStr.is_ascii " under the stone " = true
  /\ property_set p_hint (VStr " under the stone ") Example.fresh
     = (Ok tt,
        with_self (insert "_hint" (VStr "under the stone")) Example.fresh).
Proof.
  assert (H : In p_hint [p_name; p_author; p_summary; p_description; p_hint])
    by (simpl; tauto).
  split; [exact H|]. split; [reflexivity|].
  exact (proj1 (text_setters_strip p_hint " under the stone " Example.fresh
                  H eq_refl)).
Defined.

(** X7 on the example: the constructor of the fresh entity made no
    request and stored the code in upper case. *)
Lemma init_makes_no_request_witness :
  Cache__init__walk known_kwargs Example.geocaching (VStr " gc1par2 ") []
    (new_world (fun _ => Html Example.detail_page))
  = (Ok tt, Example.fresh)
  /\ requests Example.fresh = []
  /\ self Example.fresh !! "_wp" = Some (VStr "GC1PAR2").
Proof.
  assert (H : Cache__init__walk known_kwargs Example.geocaching
                (VStr " gc1par2 ") []
                (new_world (fun _ => Html Example.detail_page))
              = (Ok tt, Example.fresh)).
  { unfold Example.fresh.
    change (Cache__init__walk known_kwargs) with Cache__init__.
    apply run_result. vm_compute. reflexivity. }
  split; [exact H|].
  destruct (init_makes_no_request known_kwargs Example.geocaching
              (VStr " gc1par2 ") [] _ _ _ (fun kw Hin => Hin) H)
    as (Hreq & _ & Hok).
  split; [exact Hreq|].
  destruct (Hok eq_refl) as (_ & _ & Hwp & _).
  exact (proj1 (Hwp ltac:(discriminate))).
Defined.

(** X8 on the example: a misspelt keyword changes nothing. *)
Lemma init_ignores_unknown_keywords_witness :
  Cache__init__walk known_kwargs Example.geocaching (VStr "GC1PAR2")
    [(VStr "nmae", VStr "Journey")]
    (new_world (fun _ => Html Example.detail_page))
  = Cache__init__walk known_kwargs Example.geocaching (VStr "GC1PAR2") []
      (new_world (fun _ => Html Example.detail_page)).
Proof.
  apply init_ignores_unknown_keywords.
  intros kw Hin. simpl in Hin.
  repeat (destruct Hin as [<-|Hin]; [reflexivity|]). destruct Hin.
Defined.

(** X9 on the example: a cache made from a trackable loads by the URL of
    the trackable's location. *)
Lemma from_trackable_loads_by_url_witness :
  let made :=
    Cache_from_trackable Example.geocaching (VStr "http://coord.info/GC1PAR2")
      (new_world (fun _ => Html Example.detail_page)) in
  fst made = Ok tt
  /\ requests (snd (load (snd made)))
     = [ {| req_url := "http://coord.info/GC1PAR2"; req_params := [];
            req_expect_json := false |} ].
Proof.
  cbv zeta.
  assert (H : fst (Cache_from_trackable Example.geocaching
                     (VStr "http://coord.info/GC1PAR2")
                     (new_world (fun _ => Html Example.detail_page))) = Ok tt)
    by (vm_compute; reflexivity).
  split; [exact H|].
  apply run_result in H.
  destruct (from_trackable_loads_by_url _ _ _ _ H) as (_ & _ & _ & _ & Hload).
  exact Hload.
Defined.

(** X10 on the example: a cache made from a block of the map. *)
Lemma from_block_known_fields_witness :
  let made :=
    Cache_from_block Example.geocaching (VStr "GC1PAR2") (VStr " Journey ")
      (Ok (mkPoint 49 14)) (new_world (fun _ => Html Example.detail_page)) in
  fst made = Ok tt
  /\ property_get p_name (snd made) = (Ok (VStr "Journey"), snd made)
  /\ self (snd made) !! "_hint" = None.
Proof.
  cbv zeta.
  assert (H : fst (Cache_from_block Example.geocaching (VStr "GC1PAR2")
                     (VStr " Journey ") (Ok (mkPoint 49 14))
                     (new_world (fun _ => Html Example.detail_page))) = Ok tt)
    by (vm_compute; reflexivity).
  split; [exact H|].
  apply run_result in H.
  destruct (from_block_known_fields _ _ _ _ _ _ H) as (_ & Hname & _ & Hrest).
  split; [exact Hname|].
  apply (Hrest p_hint); [simpl; tauto|discriminate|discriminate].
Defined.

(** X11 on the example: after the load, the identity is that of the
    page. *)
Lemma load_identity_from_page_witness :
  load Example.fresh = (Ok tt, Example.loaded)
  /\ exists title,
       title_string Example.detail_page = Some title
       /\ property_get p_wp Example.loaded
          = (Ok (VStr (PyStr.strip (PyStr.upper
                         (List.hd "" (PyStr.split " " title))))),
             Example.loaded).
Proof.
  split; [exact fresh_loads|].
  destruct (load_identity_from_page _ _ fresh_loads)
    as (root & cd & title & name & author & type & src & Hserved & _ & Htitle
        & _ & _ & _ & _ & Hwp & _).
  assert (Hroot : root = Example.detail_page).
  { assert (E : responses Example.fresh (length (requests Example.fresh))
                = Html Example.detail_page) by reflexivity.
    rewrite E in Hserved. injection Hserved as <-. reflexivity. }
  subst root. exists title. split; [exact Htitle|exact Hwp].
Defined.

(** X12 on the example: the cache is available and open to all. *)
Lemma load_flags_and_favorites_witness :
  load Example.fresh = (Ok tt, Example.loaded)
  /\ exists root,
       responses Example.fresh (length (requests Example.fresh)) = Html root
       /\ self Example.loaded !! "_state" = Some (VBool (negb (OldWarning root))).
Proof.
  split; [exact fresh_loads|].
  destruct (load_flags_and_favorites _ _ fresh_loads) as (root & H1 & H2 & _).
  exists root. split; assumption.
Defined.

(** X13 on the example: the hint is decoded. *)
Lemma load_texts_from_page_witness :
  load Example.fresh = (Ok tt, Example.loaded)
  /\ exists hint,
       self Example.loaded !! "_hint"
       = Some (VStr (PyStr.strip (rot13 (PyStr.strip hint)))).
Proof.
  split; [exact fresh_loads|].
  destruct (load_texts_from_page _ _ fresh_loads)
    as (root & summary & description & hint & _ & _ & _ & _ & _ & _ & Hhint).
  exists hint. exact Hhint.
Defined.

(** X14 on the example: a page without inventory has no trackable page. *)
Lemma load_links_from_page_witness :
  load Example.fresh = (Ok tt, Example.loaded)
  /\ exists root inventory_widget,
       responses Example.fresh (length (requests Example.fresh)) = Html root
       /\ nth_error (NavigationWidgets root) 1 = Some inventory_widget.
Proof.
  split; [exact fresh_loads|].
  destruct (load_links_from_page _ _ fresh_loads) as (root & iw & H1 & H2 & _).
  exists root, iw. split; assumption.
Defined.

(** X15 on the example: the fresh entity asks by its GC code. *)
Lemma load_request_target_witness :
  self Example.fresh !! "_geocaching" = Some Example.geocaching
  /\ requests (snd (load Example.fresh))
     = (requests Example.fresh
        ++ [ {| req_url := "seek/cache_details.aspx";
                req_params := [("wp", VStr "GC1PAR2")];
                req_expect_json := false |} ])%list.
Proof.
  destruct fresh_holds as (Hg & Hwp & Hurl & _).
  split; [exact Hg|].
  exact (proj2 (load_request_target Example.fresh _ Hg) _ Hurl Hwp).
Defined.

(** X17 on the example: a page that is not a cache page. *)
Lemma load_title_failure_witness :
  responses Example.mistitled (length (requests Example.mistitled))
  = Html Example.untitled_page
  /\ exists rq,
       load Example.mistitled
       = (Raise (LoadError ""),
          with_self (insert "_pm_only" (VBool false))
            (with_request rq Example.mistitled)).
Proof.
  assert (Hserved : responses Example.mistitled
                      (length (requests Example.mistitled))
                    = Html Example.untitled_page) by reflexivity.
  split; [exact Hserved|].
  apply (load_title_failure Example.mistitled Example.geocaching
           Example.untitled_page).
  - vm_compute. reflexivity.
  - right. eexists. vm_compute. reflexivity.
  - exact Hserved.
  - reflexivity.
  - vm_compute. reflexivity.
Defined.

Lemma waypoints_table_parses :
  exists d,
    fst (Waypoint_from_html Example.waypoints_page
           "ctl00_ContentBody_Waypoints" Example.fresh) = Ok d.
Proof. eexists. vm_compute. reflexivity. Qed.

(** X19 on the example: a table of five rows gives at most two
    waypoints. *)
Lemma Waypoint_from_html_entries_witness :
  exists d items,
    fst (Waypoint_from_html Example.waypoints_page
           "ctl00_ContentBody_Waypoints" Example.fresh) = Ok d
    /\ d = VDict items /\ (length items <= 2)%nat.
Proof.
  destruct waypoints_table_parses as [d Hd].
  exists d. pose proof (run_result _ _ _ Hd) as Hrun.
  destruct (Waypoint_from_html_entries _ _ _ _ _ Hrun)
    as (items & Hitems & _ & _ & Hrows).
  exists items. split; [exact Hd|]. split; [exact Hitems|].
  exact (proj1 Hrows).
Defined.

Lemma point_new_raises (s : string) (e : exn) :
  Point_new s = Raise e -> is_builtin_ValueError e = true.
Proof.
  cbn [Point_new Example.collaborators]. unfold Example.point_new.
  destruct (Example.coordinates s); [discriminate|].
  intros [= <-]. reflexivity.
Qed.

(** X20 on the example: the waypoint with unparsable coordinates does not
    fail the table. *)
Lemma Waypoint_from_html_total_witness :
  (forall s e, Point_new s = Raise e -> is_builtin_ValueError e = true)
  /\ exists items w',
       Waypoint_from_html Example.waypoints_page "ctl00_ContentBody_Waypoints"
         Example.fresh
       = (Ok (VDict items), w').
Proof.
  split; [exact point_new_raises|].
  destruct (Waypoint_from_html_total Example.waypoints_page
              "ctl00_ContentBody_Waypoints" Example.fresh point_new_raises)
    as (items & w' & Hrun & _).
  - intros rows pair Hrows Hin.
    assert (E : table_rows Example.waypoints_page "ctl00_ContentBody_Waypoints"
                = Some Example.waypoints_table) by reflexivity.
    rewrite E in Hrows. injection Hrows as <-.
    simpl in Hin. destruct Hin as [<-|[<-|[]]]; eexists; vm_compute; reflexivity.
  - exists items, w'. exact Hrun.
Defined.

Lemma with_logbook_holds :
  self Example.with_logbook !! "_wp" = Some (VStr "GC1PAR2")
  /\ self Example.with_logbook !! "_geocaching" = Some Example.geocaching
  /\ self Example.with_logbook !! "_Cache__logbook_token" = Some (VStr "ABCDEF").
Proof. repeat split; vm_compute; reflexivity. Qed.

(** X22 on the example: a limit of zero against a full logbook. *)
Lemma load_logbook_without_room_witness :
  consume 1 PEP479 load_logbook_body (load_logbook (Finite 0))
    Example.with_logbook
  = Some ([], Failed RuntimeError,
          with_request (logbook_request (VStr "ABCDEF") 0 0)
            (logbook_entered (VStr "GC1PAR2") Example.with_logbook)).
Proof.
  destruct with_logbook_holds as (Hwp & Hg & Htkn).
  apply (load_logbook_without_room PEP479 0 0 Example.with_logbook
           (VStr "GC1PAR2") Example.geocaching (VStr "ABCDEF")
           {| status := "success"; msg := None;
              data := nth 0 Example.logbook_pages [] |});
    [lia|exact Hwp|exact Hg|exact Htkn|reflexivity|reflexivity].
Defined.

Lemma with_listing_holds :
  self Example.with_listing !! "_wp" = Some (VStr "GC1PAR2")
  /\ self Example.with_listing !! "_geocaching" = Some Example.geocaching
  /\ self Example.with_listing !! "_Cache__trackable_page_url"
     = Some (VStr "track/search.aspx?wid=1").
Proof. repeat split; vm_compute; reflexivity. Qed.

(** X23 on the example: the two trackables of the listing, and a clean end
    under either semantics. *)
Lemma load_trackables_lists_page_witness :
  exists w',
    consume 3 PEP479 load_trackables_body (load_trackables Infinite)
      Example.with_listing
    = Some ([ [("name", "Travel Bug One"); ("url", "/track/details.aspx?id=1")];
              [("name", "Coin Two"); ("url", "/track/details.aspx?id=2")] ],
            Clean, w').
Proof.
  destruct with_listing_holds as (Hwp & Hg & Hurl).
  eexists.
  apply (load_trackables_lists_page PEP479 Infinite 3 Example.with_listing
           (VStr "GC1PAR2") Example.geocaching (VStr "track/search.aspx?wid=1")
           Example.listing_page
           [Example.track_one; Example.profile_link; Example.track_two]
           [Example.track_one; Example.track_two]
           ["Travel Bug One"; "Coin Two"]
           ["/track/details.aspx?id=1"; "/track/details.aspx?id=2"]);
    [exact Hwp|exact Hg|exact Hurl|reflexivity|reflexivity|reflexivity
    |reflexivity|reflexivity|reflexivity|reflexivity|simpl; lia].
Defined.

Lemma fresh_quick_loads : fst (load_quick Example.fresh) = Ok tt.
Proof. vm_compute. reflexivity. Qed.

(** X24 on the example: the quick load asks the tile server once and
    leaves the location to be loaded. *)
Lemma load_quick_fills_witness :
  fst (load_quick Example.fresh) = Ok tt
  /\ requests (snd (load_quick Example.fresh))
     = (requests Example.fresh ++ [tile_request (VStr "GC1PAR2")])%list
  /\ self (snd (load_quick Example.fresh)) !! "_location"
     = self Example.fresh !! "_location".
Proof.
  split; [exact fresh_quick_loads|].
  destruct fresh_holds as (Hg & Hwp & _).
  destruct (load_quick_fills _ _ _ _ Hg Hwp (run_result _ _ _ fresh_quick_loads))
    as (Hreq & _ & _ & _ & Hloc).
  split; [exact Hreq|exact Hloc].
Defined.

Lemma unknown_holds :
  self Example.unknown !! "_geocaching" = Some Example.geocaching
  /\ self Example.unknown !! "_wp" = Some (VStr "GC404")
  /\ self Example.unknown !! "_guid" = None.
Proof. repeat split; vm_compute; reflexivity. Qed.

(** X25 on the example: a cache the tile server does not know. *)
Lemma load_quick_rejects_witness :
  load_quick Example.unknown
  = (Raise (LoadError "Cache GC404 cannot be loaded: No such cache"),
     with_request (tile_request (VStr "GC404")) Example.unknown).
Proof.
  destruct unknown_holds as (Hg & Hwp & _).
  apply (load_quick_rejects Example.unknown Example.geocaching (VStr "GC404")
           Example.tile_failed Hg Hwp); [reflexivity|left; reflexivity].
Defined.

Lemma with_other_guid_holds :
  self Example.with_other_guid !! "_geocaching" = Some Example.geocaching
  /\ self Example.with_other_guid !! "_guid"
     = Some (VStr "ffffffff-0000-4abc-8def-0123456789ab").
Proof. repeat split; vm_compute; reflexivity. Qed.

(** X26 on the example: the print page of a cache for premium members. *)
Lemma load_by_guid_restricted_witness :
  load_by_guid Example.with_other_guid
  = (Raise PMOnlyException,
     with_request (print_request (VStr "ffffffff-0000-4abc-8def-0123456789ab"))
       Example.with_other_guid).
Proof.
  destruct with_other_guid_holds as (Hg & Hguid).
  eapply (proj2 (load_by_guid_restricted Example.with_other_guid _ _ Hg Hguid
                   eq_refl)); reflexivity.
Defined.

Lemma with_guid_holds :
  self Example.with_guid !! "_geocaching" = Some Example.geocaching
  /\ self Example.with_guid !! "_guid" = Some (VStr Example.guid).
Proof. repeat split; vm_compute; reflexivity. Qed.

Lemma with_guid_loads : fst (load_by_guid Example.with_guid) = Ok tt.
Proof. vm_compute. reflexivity. Qed.

(** X27 on the example: the print page leaves the hint in its cipher. *)
Lemma load_by_guid_fills_witness :
  fst (load_by_guid Example.with_guid) = Ok tt
  /\ exists hint,
       uxEncryptedHint_text Example.print_content = Some hint
       /\ self (snd (load_by_guid Example.with_guid)) !! "_hint"
          = Some (VStr (PyStr.strip hint)).
Proof.
  split; [exact with_guid_loads|].
  destruct with_guid_holds as (Hg & Hguid).
  destruct (load_by_guid_fills _ _ _ _ Hg Hguid eq_refl
              (run_result _ _ _ with_guid_loads))
    as (_ & _ & _ & res & content & hint & Hres & _ & Hcontent & Hhint & Hstored).
  assert (Hc : content = Example.print_content).
  { cbn in Hres. injection Hres as <-. cbn in Hcontent.
    injection Hcontent as <-. reflexivity. }
  subst content. exists hint. split; assumption.
Defined.

Lemma unknown_quick_fails :
  fst (load_quick Example.unknown)
  = Raise (LoadError "Cache GC404 cannot be loaded: No such cache").
Proof. vm_compute. reflexivity. Qed.

(** X28 on the example: without a GUID and unknown to the tile server. *)
Lemma load_by_guid_needs_guid_witness :
  self Example.unknown !! "_guid" = None
  /\ load_by_guid Example.unknown
     = (Raise (LoadError "Cache GC404 cannot be loaded: No such cache"),
        snd (load_quick Example.unknown)).
Proof.
  destruct unknown_holds as (_ & _ & Hguid).
  split; [exact Hguid|].
  apply load_by_guid_needs_guid; [left; exact Hguid|].
  exact (run_result _ _ _ unknown_quick_fails).
Defined.

(** X30 on the example: the form of a found-it log. *)
Lemma post_log_posts_form_witness :
  exists form o',
    post_log Example.found_it (mkOutbox Example.fresh []) = (Ok tt, o')
    /\ posts o' = [form]
    /\ post_url form = "play/geocache/gc1par2/log"
    /\ dict_get "LogText" (post_data form) = Some (VStr "Found it quickly.")
    /\ is_Some (dict_get "__RequestVerificationToken" (post_data form)).
Proof.
  destruct fresh_holds as (Hg & Hwp & _).
  destruct (post_log_posts_form Example.found_it (mkOutbox Example.fresh [])
              Example.geocaching "GC1PAR2" Example.log_page
              [Some "2"; Some "3"; Some "4"] ["2"; "3"; "4"]
              [ (VStr "__RequestVerificationToken", VStr "TOKEN");
                (VStr "LogText", VStr "old text");
                (VStr "submit", VStr "") ])
    as (form & Hpost & Hurl & _ & _ & Htext & Hinputs & _);
    [discriminate|exact Hg|exact Hwp|reflexivity|reflexivity|reflexivity
    |reflexivity|simpl; tauto|].
  exists form. eexists. split; [exact Hpost|].
  split; [reflexivity|]. split; [exact Hurl|]. split; [exact Htext|].
  apply (Hinputs "__RequestVerificationToken" (Some "TOKEN")). simpl. tauto.
Defined.

(** X4 on the example: a GUID between blanks is stored without them. *)
Lemma guid_setter_accepts_witness :
  set_guid (VStr " 0a1b2c3d-0000-4abc-8def-0123456789ab ") Example.fresh
  = (Ok tt, with_self (insert "_guid" (VStr Example.guid)) Example.fresh).
Proof.
  apply (proj1 (guid_setter_accepts " 0a1b2c3d-0000-4abc-8def-0123456789ab "
                  Example.fresh)).
  exists "0a1b2c3d", "0000", "4abc", "8def", "0123456789ab".
  repeat split; reflexivity.
Defined.

(** X5 on the example: a code that does not start with ["GC"]. *)
Lemma wp_setter_normal_form_witness :
  set_wp (VStr " ox1234 ") Example.fresh
  = (Raise (ValueError "GC code 'OX1234' doesn't start with 'GC'."),
     Example.fresh).
Proof.
  destruct (wp_setter_normal_form (VStr " ox1234 ") Example.fresh)
    as [(Hgc & _)|(_ & H)]; [discriminate Hgc|exact H].
Defined.

(** X16 on the example: the server is down. *)
Lemma load_failures_are_load_errors_witness :
  exists rq,
    load Example.offline
    = (Raise (LoadError "Error in loading cache"),
       with_request rq Example.offline).
Proof.
  destruct (proj2 (load_failures_are_load_errors Example.offline)
              Example.geocaching) as (rq & H & _).
  - vm_compute. reflexivity.
  - right. eexists. vm_compute. reflexivity.
  - intros d. change (HttpError "503" <> Html d). discriminate.
  - exists rq. exact H.
Defined.
